(** * BitBLAS: hardware profiles, the operator pipeline and the CPU executor

    A shallow embedding of
      - [bitblas/base/arch/rdna.py]  ([check_gfx_version], [RDNA]),
      - [bitblas/base/arch/MI250.py] ([MI250]),
      - [bitblas/ops/operator.py]    ([Operator], [OPExecutorCPU]),
      - [examples/relax_nerf.py]     ([write_code], [write_sch], [write_mod]),
    together with the properties their specification states about them.

    Python values are modelled as follows.  A [str] is a Rocq [string], its
    characters read as the code points 0..255.  An [int] is a [Z].  A [dict]
    and a TVM [IRModule] are [gmap]s keyed by name.  A call that can raise
    returns a [result]; only instances of Python's [Exception] are modelled,
    since these are what the [except Exception] handlers of the source
    intercept.  A method that mutates [self] or writes to the module logger
    is a function from the state before the call to an outcome and the state
    after it.  Services of the external compiler toolchain (target parsing,
    device probing, scheduling, building, tuning) are parameters.  Builtins
    behave as in CPython 3.11 with its default settings. *)

From Stdlib Require Import ZArith Ascii String List Lia.
From stdpp Require Import base option list gmap strings pretty fin_maps.

Local Open Scope string_scope.
Local Open Scope Z_scope.

(** ** Python exceptions and fallible calls *)

(** An argument of an exception: a string or a type object. *)
Inductive pyarg : Type :=
| PStr (s : string)
| PType (type_name : string).

Inductive exn : Type :=
| AssertionError (msg : string)
| AttributeError (msg : string)
| IndexError (msg : string)
| RuntimeError (args : list pyarg)
| TypeError (msg : string)
| ValueError (msg : string)
| ZeroDivisionError (msg : string)
| ToolchainError (msg : string).

Inductive result (A : Type) : Type :=
| Ok (a : A)
| Raise (e : exn).
Arguments Ok {A} a.
Arguments Raise {A} e.

#[global] Instance result_ret : MRet result := @Ok.
#[global] Instance result_bind : MBind result := fun A B k r =>
  match r with
  | Ok a => k a
  | Raise e => Raise e
  end.

(** The line feed of the message templates. *)
Definition nl : string := String (ascii_of_nat 10) EmptyString.

(** [x] occurs in [s]. *)
Definition occurs_in (x s : string) : Prop :=
  ∃ a b : string, s = a ++ x ++ b.

(** ** Python string primitives used by the source *)

Module PyStr.

(** [p] is a prefix of [s] ([s.startswith(p)]). *)
Fixpoint startswith (s p : string) {struct p} : bool :=
  match p, s with
  | EmptyString, _ => true
  | String a p', String b s' => if Ascii.eqb a b then startswith s' p' else false
  | String _ _, EmptyString => false
  end.

(** [s.replace(old, new)] for a non-empty [old]: the occurrences of [old]
    are found scanning from the left and do not overlap.  [skip] counts the
    characters of the occurrence just matched that are still to be dropped. *)
Fixpoint replace_from (old new : string) (skip : nat) (s : string) : string :=
  match s with
  | EmptyString => EmptyString
  | String c rest =>
      match skip with
      | S k => replace_from old new k rest
      | O =>
          if startswith s old
          then new ++ replace_from old new (Nat.pred (String.length old)) rest
          else String c (replace_from old new O rest)
      end
  end.

Definition replace (s old new : string) : string := replace_from old new O s.

(** [old in s], by the same left-to-right scan. *)
Fixpoint contains (s old : string) : bool :=
  match s with
  | EmptyString => startswith s old
  | String _ rest => startswith s old || contains rest old
  end.

Definition is_ascii_digit (c : ascii) : bool :=
  let n := nat_of_ascii c in (48 <=? n)%nat && (n <=? 57)%nat.

(** The code points below 256 with Unicode property Numeric_Type=Digit
    that are no decimal digits: superscript two, three and one. *)
Definition is_superscript_digit (c : ascii) : bool :=
  let n := nat_of_ascii c in
  (n =? 178)%nat || (n =? 179)%nat || (n =? 185)%nat.

Definition isdigit_char (c : ascii) : bool :=
  is_ascii_digit c || is_superscript_digit c.

Fixpoint all_chars (p : ascii → bool) (s : string) : bool :=
  match s with
  | EmptyString => true
  | String c rest => p c && all_chars p rest
  end.

(** [s.isdigit()]: at least one character, and every character a digit. *)
Definition isdigit (s : string) : bool :=
  match s with
  | EmptyString => false
  | String _ _ => all_chars isdigit_char s
  end.

(** A non-empty run of the decimal digits 0-9. *)
Definition is_decimal (s : string) : bool :=
  match s with
  | EmptyString => false
  | String _ _ => all_chars is_ascii_digit s
  end.

Fixpoint decimal_value (acc : Z) (s : string) : Z :=
  match s with
  | EmptyString => acc
  | String c rest => decimal_value (10 * acc + (Z.of_nat (nat_of_ascii c) - 48)) rest
  end.

(** The code points below 256 that [str.isprintable] accepts. *)
Definition is_printable (c : ascii) : bool :=
  let n := nat_of_ascii c in
  ((32 <=? n) && (n <? 127) || (161 <=? n) && negb (n =? 173))%nat.

Definition hex_digit (n : nat) : ascii :=
  match n with
  | 0 => "0" | 1 => "1" | 2 => "2" | 3 => "3" | 4 => "4" | 5 => "5" | 6 => "6"
  | 7 => "7" | 8 => "8" | 9 => "9" | 10 => "a" | 11 => "b" | 12 => "c"
  | 13 => "d" | 14 => "e" | _ => "f"
  end%char%nat.

Definition double_quote : ascii := ascii_of_nat 34.

Fixpoint has_char (c : ascii) (s : string) : bool :=
  match s with
  | EmptyString => false
  | String a rest => Ascii.eqb a c || has_char c rest
  end.

(** One character of [repr(s)] between quotes [quote]. *)
Definition repr_char (quote c : ascii) : string :=
  let n := nat_of_ascii c in
  if Ascii.eqb c quote || Ascii.eqb c "\" then String "\" (String c EmptyString)
  else if (n =? 9)%nat then "\t"
  else if (n =? 10)%nat then "\n"
  else if (n =? 13)%nat then "\r"
  else if is_printable c then String c EmptyString
  else String "\" (String "x" (String (hex_digit (Nat.div n 16))
                                 (String (hex_digit (Nat.modulo n 16)) EmptyString))).

Fixpoint repr_chars (quote : ascii) (s : string) : string :=
  match s with
  | EmptyString => EmptyString
  | String c rest => repr_char quote c ++ repr_chars quote rest
  end.

(** [repr(s)]: double quotes are used when [s] holds a single quote and no
    double quote. *)
Definition repr (s : string) : string :=
  let quote := if has_char "'" s && negb (has_char double_quote s)
               then double_quote else "'"%char in
  String quote (repr_chars quote s ++ String quote EmptyString).

(** The digits 0-9 at the front of [s]. *)
Fixpoint leading_decimals (s : string) : nat :=
  match s with
  | EmptyString => O
  | String c rest => if is_ascii_digit c then S (leading_decimals rest) else O
  end.

(** [sys.int_info.default_max_str_digits]. *)
Definition int_max_str_digits : Z := 4300.

(** [int(s)] on a string that passed [isdigit].  More than 4300 digits 0-9
    at the front are refused; otherwise the result is the decimal value when
    all characters are digits 0-9, and a [ValueError] showing at most 200
    characters of [repr(s)] for a superscript digit, which [int] does not
    accept. *)
Definition int (s : string) : result Z :=
  let digits := leading_decimals s in
  if int_max_str_digits <? Z.of_nat digits
  then Raise (ValueError ("Exceeds the limit (4300 digits) for integer string conversion: "
                          ++ "value has " ++ pretty digits ++ " digits; "
                          ++ "use sys.set_int_max_str_digits() to increase the limit"))
  else if is_decimal s then Ok (decimal_value 0 s)
  else Raise (ValueError ("invalid literal for int() with base 10: "
                          ++ substring 0 200 (repr s))).

End PyStr.

(** ** Hardware profiles ([bitblas/base/arch]) *)

(** [check_gfx_version] of [rdna.py]. *)
Definition check_gfx_version (arch : string) : result Z :=
  let gfx_version := PyStr.replace arch "gfx" "" in
  if PyStr.isdigit gfx_version then PyStr.int gfx_version else Ok (-1).

(** What the source reads of a [tvm.target.Target]. *)
Record Target : Type := {
  target_repr : string;
  target_arch : string;
  l2_cache_size_bytes : Z;
}.

(** What the source reads of a [tvm.runtime.Device]. *)
Record Device : Type := {
  exist : bool;
  max_shared_memory_per_block : Z;
  multi_processor_count : Z;
  dev_warp_size : Z;
  compute_version : string;
}.

(** The argument of [RDNA.__init__]: [Union[Target, str]]. *)
Inductive target_arg : Type :=
| TargetHandle (t : Target)
| TargetStr (s : string).

Module RDNA.
Record t : Type := {
  target : Target;
  gfx_version : Z;
  device : Device;
  platform : string;
  smem_cap : Z;
  compute_max_core : Z;
  warp_size : Z;
  compute_capability : string;
  reg_cap : Z;
  max_smem_usage : Z;
  sm_partition : Z;
  l2_cache_size : Z;
  transaction_size : list Z;
  bandwidth : list Z;
}.
End RDNA.

Module MI250.
Record t : Type := {
  reg_cap : Z;
  smem_cap : Z;
  compute_max_core : Z;
  warp_size : Z;
  sm_partition : Z;
  transaction_size : list Z;
  max_smem_usage : Z;
  bandwidth : list Z;
  platform : string;
  compute_capability : string;
  target : Target;
}.
End MI250.

Section Arch.

(** [tvm.target.Target(s)]: parsing a target description. *)
Variable Target_of_str : string → result Target.
(** [tvm.runtime.hip(i)]: the handle of device [i] of the HIP backend. *)
Variable hip : Z → Device.

(** [RDNA.__init__].  The object under construction reaches the caller
    only when the body returns. *)
Definition RDNA_init (target : target_arg) : result RDNA.t :=
  (target ← match target with
            | TargetStr s => Target_of_str s
            | TargetHandle t => Ok t
            end;
   gfx_version ← check_gfx_version (target_arch target);
   let device := hip 0 in
   if negb (exist device)
   then Raise (RuntimeError [PStr "Cannot find HIP device 0."])
   else
     let smem_cap := max_shared_memory_per_block device in
     Ok {| RDNA.target := target;
           RDNA.gfx_version := gfx_version;
           RDNA.device := device;
           RDNA.platform := "RDNA";
           RDNA.smem_cap := smem_cap;
           RDNA.compute_max_core := multi_processor_count device;
           RDNA.warp_size := dev_warp_size device;
           RDNA.compute_capability := PyStr.replace (compute_version device) "." "";
           RDNA.reg_cap := 32768;
           RDNA.max_smem_usage := 2 * smem_cap;
           RDNA.sm_partition := 4;
           RDNA.l2_cache_size := l2_cache_size_bytes target;
           RDNA.transaction_size := [32; 128];
           RDNA.bandwidth := [1300; 14000] |}).

(** [MI250.__init__]. *)
Definition MI250_init : result MI250.t :=
  (target ← Target_of_str "hip --mcpu=gfx90a";
   Ok {| MI250.reg_cap := 32768;
         MI250.smem_cap := 65536;
         MI250.compute_max_core := 104;
         MI250.warp_size := 64;
         MI250.sm_partition := 4;
         MI250.transaction_size := [32; 128];
         MI250.max_smem_usage := 0;
         MI250.bandwidth := [1300; 14000];
         MI250.platform := "ROCm-CDNA2";
         MI250.compute_capability := "gfx90a";
         MI250.target := target |}).

End Arch.

(** ** Tensor programs and modules (the toolchain's data, as far as read) *)

(** An element of a buffer shape. *)
Inductive PrimExpr : Type :=
| Var (name : string)
| IntImm (value : Z)
| OtherExpr (type_name : string).

(** An entry of the function attribute ["opt_shapes"]. *)
Inductive ShapeEntry : Type :=
| OptIntImm (value : Z)
| OptArray (values : list Z)
| OptOther (type_name : string).

Record Buffer : Type := {
  buf_shape : list PrimExpr;
  buf_dtype : string;
}.

Record PrimFunc : Type := {
  params : list string;
  buffer_map : gmap string Buffer;
  opt_shapes : option (gmap string ShapeEntry);
  global_symbol : option string;
  body : nat;
}.

(** [func.with_attr("global_symbol", name)]. *)
Definition with_global_symbol (func : PrimFunc) (name : string) : PrimFunc :=
  {| params := params func;
     buffer_map := buffer_map func;
     opt_shapes := opt_shapes func;
     global_symbol := Some name;
     body := body func |}.

(** [l[i]] for a list and an index that is not negative. *)
Definition list_get {A : Type} (l : list A) (i : nat) : result A :=
  match l !! i with
  | Some a => Ok a
  | None => Raise (IndexError "list index out of range")
  end.

(** An [IRModule]: its global functions by name. *)
Abbreviation IRModule := (gmap string PrimFunc).

(** [md.get_global_vars()].  The source indexes the list only when it has
    one element. *)
Definition get_global_vars (md : IRModule) : list string :=
  (map_to_list md).*1.

(** [name in md]. *)
Definition mod_contains (md : IRModule) (name : string) : bool :=
  bool_decide (is_Some (md !! name)).

(** [md[name]]. *)
Definition mod_lookup (md : IRModule) (name : string) : result PrimFunc :=
  match md !! name with
  | Some f => Ok f
  | None => Raise (ToolchainError ("Cannot find global var " ++ name ++ " in the Module"))
  end.

(** The primary entry point of a module: the body of the [prim_func]
    property, as a function of [self.prim_func_mod]. *)
Definition resolve_prim_func (prim_func_mod : IRModule) : result PrimFunc :=
  if (length (get_global_vars prim_func_mod) =? 1)%nat then
    gv ← list_get (get_global_vars prim_func_mod) 0;
    mod_lookup prim_func_mod gv
  else if mod_contains prim_func_mod "main" then
    mod_lookup prim_func_mod "main"
  else Raise (ValueError "Unable to determine primary function.").

(** The name under which [resolve_prim_func] finds the entry point. *)
Definition entry_name (prim_func_mod : IRModule) : option string :=
  if (length (get_global_vars prim_func_mod) =? 1)%nat then
    head (get_global_vars prim_func_mod)
  else if mod_contains prim_func_mod "main" then Some "main"
  else None.

(** ** The operator and the state its methods act on *)

(** Handles of objects owned by the toolchain. *)
Inductive RtModule : Type := RtHandle (id : nat).
Inductive TimeEvaluator : Type := TimeEvaluatorOf (rt : RtModule) (dev : Device) (number : Z).
Inductive TorchFunc : Type := TorchFuncOf (rt : RtModule).
Inductive Lib : Type := LibHandle (id : nat).
Inductive KernelNameGenerator : Type := NameGenerator (id : nat).

(** A value of a compiler-pass configuration. *)
Inductive PassValue : Type :=
| PassBool (b : bool)
| PassInt (z : Z)
| PassStr (s : string).

(** The configuration of a tuning result ([best.config]). *)
Record Hint : Type := {
  hint_id : nat;
  hint_pass_context : gmap string PassValue;
}.

(** A tuning result ([best]): [best.sch.mod] and [best.config]. *)
Record TuneResult : Type := {
  sch_mod : IRModule;
  config : Hint;
}.

(** The hardware profile an operator holds ([self.arch]).  Profiles of other
    platform families, such as the CUDA class, are no part of this slice;
    of them the operator reads the platform tag and the device. *)
Inductive TileDevice : Type :=
| ArchRDNA (p : RDNA.t)
| ArchMI250 (p : MI250.t)
| ArchOther (platform : string) (device : Device).

Definition arch_platform (a : TileDevice) : string :=
  match a with
  | ArchRDNA p => RDNA.platform p
  | ArchMI250 p => MI250.platform p
  | ArchOther platform _ => platform
  end.

(** [arch.device]; the fixed profile has no such attribute. *)
Definition arch_device (a : TileDevice) : result Device :=
  match a with
  | ArchRDNA p => Ok (RDNA.device p)
  | ArchMI250 _ => Raise (AttributeError "'MI250' object has no attribute 'device'")
  | ArchOther _ device => Ok device
  end.

(** The attributes of an [Operator], with those of its [lib_generator]
    ([lib_code]) and [wrapper] ([wrapper_mod]) that the methods touch. *)
Record Operator : Type := {
  class_name : string;
  name : string;
  target : option Target;
  prim_func_mod : IRModule;
  optimized_mod : option IRModule;
  rt_mod : option RtModule;
  time_evaluator : option TimeEvaluator;
  torch_func : option TorchFunc;
  arch : option TileDevice;
  dynamic_range : option (gmap string (list Z));
  pass_context : gmap string PassValue;
  kernel_name_generator : option KernelNameGenerator;
  lib_code : option string;
  wrapper_mod : option IRModule;
  lib : option Lib;
}.

Inductive LogLevel : Type := DEBUG | INFO | WARNING.

Record LogRecord : Type := {
  level : LogLevel;
  message : string;
}.

(** The state a method runs in: the operator, what the module logger has
    received, and whether the operator's post-processing callback is the one
    registered under ["tvm_callback_cuda_postproc"]. *)
Record World : Type := {
  self : Operator;
  logged : list LogRecord;
  cuda_postproc_registered : bool;
}.

(** A method: from the state before the call to its outcome, a value or a
    raised exception, and the state after it. *)
Definition M (A : Type) : Type := World → result A * World.

#[global] Instance M_ret : MRet M := fun A a w => (Ok a, w).
#[global] Instance M_bind : MBind M := fun A B k m w =>
  match m w with
  | (Ok a, w') => k a w'
  | (Raise e, w') => (Raise e, w')
  end.

Definition raise {A : Type} (e : exn) : M A := fun w => (Raise e, w).

(** A call without effect on the state. *)
Definition call {A : Type} (r : result A) : M A := fun w => (r, w).

Definition get_self : M Operator := fun w => (Ok (self w), w).

Definition set_self (f : Operator → Operator) : M unit := fun w =>
  (Ok tt, {| self := f (self w); logged := logged w;
             cuda_postproc_registered := cuda_postproc_registered w |}).

Definition logger (lvl : LogLevel) (msg : string) : M unit := fun w =>
  (Ok tt, {| self := self w;
             logged := logged w ++ [{| level := lvl; message := msg |}];
             cuda_postproc_registered := cuda_postproc_registered w |}).

Definition register_cuda_postproc : M unit := fun w =>
  (Ok tt, {| self := self w; logged := logged w; cuda_postproc_registered := true |}).

(** [try: body except Exception as e: handler(e)]. *)
Definition try_except {A : Type} (body : M A) (handler : exn → M A) : M A := fun w =>
  match body w with
  | (Ok a, w') => (Ok a, w')
  | (Raise e, w') => handler e w'
  end.

(** Attribute assignments [self.x = v]. *)
Definition set_optimized_mod (v : option IRModule) (o : Operator) : Operator :=
  {| class_name := class_name o; name := name o; target := target o;
     prim_func_mod := prim_func_mod o; optimized_mod := v; rt_mod := rt_mod o;
     time_evaluator := time_evaluator o; torch_func := torch_func o; arch := arch o;
     dynamic_range := dynamic_range o; pass_context := pass_context o;
     kernel_name_generator := kernel_name_generator o; lib_code := lib_code o;
     wrapper_mod := wrapper_mod o; lib := lib o |}.

Definition set_prim_func_mod (v : IRModule) (o : Operator) : Operator :=
  {| class_name := class_name o; name := name o; target := target o;
     prim_func_mod := v; optimized_mod := optimized_mod o; rt_mod := rt_mod o;
     time_evaluator := time_evaluator o; torch_func := torch_func o; arch := arch o;
     dynamic_range := dynamic_range o; pass_context := pass_context o;
     kernel_name_generator := kernel_name_generator o; lib_code := lib_code o;
     wrapper_mod := wrapper_mod o; lib := lib o |}.

Definition set_rt_mod (v : option RtModule) (o : Operator) : Operator :=
  {| class_name := class_name o; name := name o; target := target o;
     prim_func_mod := prim_func_mod o; optimized_mod := optimized_mod o; rt_mod := v;
     time_evaluator := time_evaluator o; torch_func := torch_func o; arch := arch o;
     dynamic_range := dynamic_range o; pass_context := pass_context o;
     kernel_name_generator := kernel_name_generator o; lib_code := lib_code o;
     wrapper_mod := wrapper_mod o; lib := lib o |}.

Definition set_time_evaluator (v : option TimeEvaluator) (o : Operator) : Operator :=
  {| class_name := class_name o; name := name o; target := target o;
     prim_func_mod := prim_func_mod o; optimized_mod := optimized_mod o; rt_mod := rt_mod o;
     time_evaluator := v; torch_func := torch_func o; arch := arch o;
     dynamic_range := dynamic_range o; pass_context := pass_context o;
     kernel_name_generator := kernel_name_generator o; lib_code := lib_code o;
     wrapper_mod := wrapper_mod o; lib := lib o |}.

Definition set_torch_func (v : option TorchFunc) (o : Operator) : Operator :=
  {| class_name := class_name o; name := name o; target := target o;
     prim_func_mod := prim_func_mod o; optimized_mod := optimized_mod o; rt_mod := rt_mod o;
     time_evaluator := time_evaluator o; torch_func := v; arch := arch o;
     dynamic_range := dynamic_range o; pass_context := pass_context o;
     kernel_name_generator := kernel_name_generator o; lib_code := lib_code o;
     wrapper_mod := wrapper_mod o; lib := lib o |}.

Definition set_pass_context (v : gmap string PassValue) (o : Operator) : Operator :=
  {| class_name := class_name o; name := name o; target := target o;
     prim_func_mod := prim_func_mod o; optimized_mod := optimized_mod o; rt_mod := rt_mod o;
     time_evaluator := time_evaluator o; torch_func := torch_func o; arch := arch o;
     dynamic_range := dynamic_range o; pass_context := v;
     kernel_name_generator := kernel_name_generator o; lib_code := lib_code o;
     wrapper_mod := wrapper_mod o; lib := lib o |}.

Definition set_lib_code (v : option string) (o : Operator) : Operator :=
  {| class_name := class_name o; name := name o; target := target o;
     prim_func_mod := prim_func_mod o; optimized_mod := optimized_mod o; rt_mod := rt_mod o;
     time_evaluator := time_evaluator o; torch_func := torch_func o; arch := arch o;
     dynamic_range := dynamic_range o; pass_context := pass_context o;
     kernel_name_generator := kernel_name_generator o; lib_code := v;
     wrapper_mod := wrapper_mod o; lib := lib o |}.

Definition set_wrapper_mod (v : option IRModule) (o : Operator) : Operator :=
  {| class_name := class_name o; name := name o; target := target o;
     prim_func_mod := prim_func_mod o; optimized_mod := optimized_mod o; rt_mod := rt_mod o;
     time_evaluator := time_evaluator o; torch_func := torch_func o; arch := arch o;
     dynamic_range := dynamic_range o; pass_context := pass_context o;
     kernel_name_generator := kernel_name_generator o; lib_code := lib_code o;
     wrapper_mod := v; lib := lib o |}.

Definition set_lib (v : option Lib) (o : Operator) : Operator :=
  {| class_name := class_name o; name := name o; target := target o;
     prim_func_mod := prim_func_mod o; optimized_mod := optimized_mod o; rt_mod := rt_mod o;
     time_evaluator := time_evaluator o; torch_func := torch_func o; arch := arch o;
     dynamic_range := dynamic_range o; pass_context := pass_context o;
     kernel_name_generator := kernel_name_generator o; lib_code := lib_code o;
     wrapper_mod := wrapper_mod o; lib := v |}.

(** ** Messages *)

(** [str(target)]. *)
Definition str_of_target (target : option Target) : string :=
  match target with
  | Some t => target_repr t
  | None => "None"
  end.

Definition repr_of_arg (a : pyarg) : string :=
  match a with
  | PStr s => PyStr.repr s
  | PType n => "<class '" ++ n ++ "'>"
  end.

Definition str_of_arg (a : pyarg) : string :=
  match a with
  | PStr s => s
  | PType n => "<class '" ++ n ++ "'>"
  end.

Fixpoint join_args (l : list pyarg) : string :=
  match l with
  | [] => ""
  | [a] => repr_of_arg a
  | a :: rest => repr_of_arg a ++ ", " ++ join_args rest
  end.

(** [str(e)]. *)
Definition str_of_exn (e : exn) : string :=
  match e with
  | AssertionError msg | AttributeError msg | IndexError msg | ValueError msg
  | TypeError msg | ZeroDivisionError msg | ToolchainError msg => msg
  | RuntimeError [] => ""
  | RuntimeError [a] => str_of_arg a
  | RuntimeError args => "(" ++ join_args args ++ ")"
  end.

(** [APPLY_SCHEDULE_FAILED_MESSAGE.format(op, target, hint, error)]. *)
Definition APPLY_SCHEDULE_FAILED_MESSAGE (op target hint error : string) : string :=
  "Failed to apply default schedule for operator " ++ op ++ " "
  ++ "With target " ++ target ++ " and hint " ++ hint ++ ". " ++ nl
  ++ "The error message: " ++ error ++ " "
  ++ "Please perform hardware-aware tuning manually.".

(** [BUILD_RUNTIME_LIBRARY_FAILED_MESSAGE.format(op, target, hint, error)]. *)
Definition BUILD_RUNTIME_LIBRARY_FAILED_MESSAGE (op target hint error : string) : string :=
  "Failed to build runtime library for operator " ++ op ++ " "
  ++ "With target " ++ target ++ " and hint " ++ hint ++ ". " ++ nl
  ++ "The error message: " ++ error ++ " "
  ++ "Please perform hardware-aware tuning manually.".

(** ** The services of the toolchain that [operator.py] calls *)

Record Toolchain : Type := {
  (** [bitblas.ApplyDefaultSchedule(Matmul, GEMV, Reduction, GeneralReduction,
      Fallback)(mod)] under [with target:]. *)
  apply_schedule_passes : IRModule → Target → result (option IRModule);
  (** [kernel_name_generator.generate(hint)]. *)
  generate : KernelNameGenerator → option Hint → result string;
  (** [tvm.build(mod, target=target)] under [PassContext(config=...)]. *)
  build_module : IRModule → option Target → gmap string PassValue → result RtModule;
  (** [tvm.build(func, target=target, name=name)]. *)
  build_func : PrimFunc → option Target → string → result RtModule;
  (** [rt_mod.time_evaluator(rt_mod.entry_name, device, number=number)]. *)
  make_time_evaluator : RtModule → Device → Z → result TimeEvaluator;
  to_pytorch_func : RtModule → result TorchFunc;
  (** [rt_mod.imported_modules[0].get_source()]. *)
  imported_source : RtModule → result string;
  (** [wrapper.wrap(source, is_dynamic)] for the module assigned to it. *)
  wrap : option IRModule → option string → bool → result string;
  compile_lib : string → result unit;
  load_lib : string → result Lib;
  lib_init : Lib → result unit;
  (** [fast_tune(func, target, topk=, parallel_build=)], second component. *)
  fast_tune : PrimFunc → option Target → Z → bool → result (option TuneResult);
  fast_tune_with_dynamic_range :
    PrimFunc → option Target → Z → bool → gmap string (list Z) →
    option KernelNameGenerator → result (option IRModule);
}.

(** ** The methods of [Operator] *)

Section OperatorMethods.

Variable tc : Toolchain.

(** [self.target], where a parameter of the method is called [target] too. *)
Definition self_target (o : Operator) : option Target := target o.

(** The [prim_func] property. *)
Definition prim_func : M PrimFunc :=
  o ← get_self;
  call (resolve_prim_func (prim_func_mod o)).

(** [update_func]: [self.prim_func_mod["main"] = func]. *)
Definition update_func (func : PrimFunc) : M unit :=
  o ← get_self;
  set_self (set_prim_func_mod (<["main" := func]> (prim_func_mod o))).

(** [self.arch.platform]. *)
Definition self_arch_platform : M string :=
  o ← get_self;
  match arch o with
  | Some a => mret (arch_platform a)
  | None => raise (AttributeError "'NoneType' object has no attribute 'platform'")
  end.

(** [self.arch.device]. *)
Definition self_arch_device : M Device :=
  o ← get_self;
  match arch o with
  | Some a => call (arch_device a)
  | None => raise (AttributeError "'NoneType' object has no attribute 'device'")
  end.

(** [get_source], with the method that builds the runtime module on demand
    as a parameter: [get_source] and [_build_runtime_module] call each
    other. *)
Definition get_source_via (build : option Target → M (option RtModule))
    (target : option Target) (kenrel_only : bool) : M (option string) :=
  o ← get_self;
  let target := match target with None => self_target o | Some t => Some t end in
  if bool_decide (is_Some (lib_code o)) && negb kenrel_only then mret (lib_code o)
  else
    _ ← (match rt_mod o with
         | None => _ ← build target; mret tt
         | Some _ => mret tt
         end);
    o ← get_self;
    match rt_mod o with
    | Some rt => src ← call (imported_source tc rt); mret (Some src)
    | None => mret None
    end.

(** Stands for the build on demand at the call of [get_source] inside
    [_build_runtime_module]: there [self.rt_mod] has just been assigned, and
    the branch that would build is not taken (see [get_source_via_built]). *)
Definition no_rebuild (target : option Target) : M (option RtModule) := mret None.

(** The [try] block of [_build_runtime_module] that wraps the generated
    source into a library. *)
Definition _build_runtime_library (target : option Target) : M unit :=
  o ← get_self;
  is_dynamic ← call (match dynamic_range o with
                     | None => Ok false
                     | Some _ =>
                         match optimized_mod o with
                         | Some om => Ok (bool_decide (1 < size om)%nat)
                         | None => Raise (AttributeError
                                     "'NoneType' object has no attribute 'functions'")
                         end
                     end);
  _ ← set_self (set_wrapper_mod (optimized_mod o));
  source ← get_source_via no_rebuild target true;
  wrapped_source ← call (wrap tc (optimized_mod o) source is_dynamic);
  _ ← set_self (set_lib_code (Some wrapped_source));
  _ ← call (compile_lib tc wrapped_source);
  l ← call (load_lib tc wrapped_source);
  _ ← set_self (set_lib (Some l));
  call (lib_init tc l).

(** The statements of [_build_runtime_module] after the platform branch,
    from [if rt_mod:] to [return rt_mod]. *)
Definition _setup_runtime (target : option Target) (rt_mod : option RtModule)
    : M (option RtModule) :=
  match rt_mod with
  | Some rt =>
      _ ← set_self (set_rt_mod (Some rt));
      device ← self_arch_device;
      te ← call (make_time_evaluator tc rt device 10);
      _ ← set_self (set_time_evaluator (Some te));
      tf ← call (to_pytorch_func tc rt);
      _ ← set_self (set_torch_func (Some tf));
      platform ← self_arch_platform;
      _ ← (if String.eqb platform "CUDA" then
             try_except (_build_runtime_library target)
               (fun e => logger DEBUG ("Failed to build runtime library " ++ str_of_exn e))
           else mret tt);
      mret (Some rt)
  | None => mret None
  end.

(** The configuration the optimized module is built under. *)
Definition build_config (pass_context : gmap string PassValue) : gmap string PassValue :=
  pass_context ∪ <["tir.use_async_copy" := PassBool true]>
                   (<["tir.disable_cse_tir" := PassBool true]> ∅).

(** [_build_runtime_module]. *)
Definition _build_runtime_module (target : option Target) : M (option RtModule) :=
  platform ← self_arch_platform;
  if String.eqb platform "CUDA" then
    o ← get_self;
    match optimized_mod o with
    | None => mret None
    | Some om =>
        _ ← register_cuda_postproc;
        rt_mod ← try_except
          (rt ← call (build_module tc om target (build_config (pass_context o)));
           mret (Some rt))
          (fun _ =>
             _ ← logger DEBUG
                   (BUILD_RUNTIME_LIBRARY_FAILED_MESSAGE (class_name o)
                      (str_of_target target) "optimized"
                      "Failed to build optimized module");
             mret None);
        _setup_runtime target rt_mod
    end
  else
    func ← prim_func;
    o ← get_self;
    rt ← call (build_func tc func target (name o));
    _setup_runtime target (Some rt).

(** [get_source]. *)
Definition get_source (target : option Target) (kenrel_only : bool) : M (option string) :=
  get_source_via _build_runtime_module target kenrel_only.

(** [apply_default_schedule]. *)
Definition apply_default_schedule (func_mod : IRModule) (target : option Target)
    : M (option IRModule) :=
  let mod_for_opt := func_mod in
  match target with
  | Some t => call (apply_schedule_passes tc mod_for_opt t)
  | None => raise (TypeError
                     "'NoneType' object does not support the context manager protocol")
  end.

(** [_update_optimized_mod]. *)
Definition _update_optimized_mod (optimized_mod : IRModule) : M unit :=
  set_self (set_optimized_mod (Some optimized_mod)).

(** [assert cond, msg]. *)
Definition py_assert (cond : bool) (msg : string) : M unit :=
  if cond then mret tt else raise (AssertionError msg).

(** The statements that [_build_default_module] and
    [hardware_aware_finetune] both run on a scheduled module: the two
    assertions, the kernel name, and the single-entry module stored as the
    optimized one. *)
Definition _adopt_scheduled_mod (scheduled_mod : option IRModule) (hint : option Hint)
    : M unit :=
  sm ← (match scheduled_mod with
        | Some sm => mret sm
        | None => raise (AttributeError
                    "'NoneType' object has no attribute 'get_global_vars'")
        end);
  _ ← py_assert (length (get_global_vars sm) =? 1)%nat
        "The optimized module should only have one global variable for default schedule.";
  _ ← py_assert (mod_contains sm "main")
        "The optimized module should have a function named 'main' for default schedule.";
  o ← get_self;
  default_kernal_name ←
    (match kernel_name_generator o with
     | Some g => call (generate tc g hint)
     | None => raise (AttributeError "'NoneType' object has no attribute 'generate'")
     end);
  main ← call (mod_lookup sm "main");
  let func := with_global_symbol main default_kernal_name in
  let optimized_mod : IRModule := {[ default_kernal_name := func ]} in
  _update_optimized_mod optimized_mod.

(** The [try] block of [_build_default_module]. *)
Definition _apply_default (target : option Target) : M unit :=
  o ← get_self;
  scheduled_mod ← apply_default_schedule (prim_func_mod o) target;
  _adopt_scheduled_mod scheduled_mod None.

(** [_build_default_module]. *)
Definition _build_default_module (target : option Target) : M unit :=
  _ ← try_except (_apply_default target)
        (fun apply_schedule_error =>
           _ ← set_self (set_optimized_mod None);
           o ← get_self;
           logger WARNING
             (APPLY_SCHEDULE_FAILED_MESSAGE (class_name o) (str_of_target target)
                "default" (str_of_exn apply_schedule_error)));
  _ ← _build_runtime_module target;
  mret tt.

(** [apply_fast_tuning]. *)
Definition apply_fast_tuning (func : PrimFunc) (target : option Target) (topk : Z)
    (parallel_build : bool) : M (option IRModule * option Hint) :=
  best ← call (fast_tune tc func target topk parallel_build);
  pc ← (match best with
        | Some b => mret (hint_pass_context (config b))
        | None => raise (AttributeError "'NoneType' object has no attribute 'config'")
        end);
  _ ← set_self (set_pass_context pc);
  match best with
  | Some b => mret (Some (sch_mod b), Some (config b))
  | None => mret (None, None)
  end.

(** [apply_fast_tuning_with_dynamic_range]. *)
Definition apply_fast_tuning_with_dynamic_range (func : PrimFunc)
    (target : option Target) (topk : Z) (dynamic_range : gmap string (list Z))
    : M (option IRModule) :=
  o ← get_self;
  call (fast_tune_with_dynamic_range tc func target topk true dynamic_range
          (kernel_name_generator o)).

(** [hardware_aware_finetune]. *)
Definition hardware_aware_finetune (topk : Z) (target : option Target)
    (parallel_build : bool) : M unit :=
  o ← get_self;
  let target := match target with None => self_target o | Some t => Some t end in
  let dynamic_range := dynamic_range o in
  func ← prim_func;
  _ ← (match dynamic_range with
       | Some dr =>
           om ← apply_fast_tuning_with_dynamic_range func target topk dr;
           set_self (set_optimized_mod om)
       | None =>
           '(scheduled_mod, best_hint) ← apply_fast_tuning func target topk parallel_build;
           _adopt_scheduled_mod scheduled_mod best_hint
       end);
  o ← get_self;
  _ ← _build_runtime_module (self_target o);
  mret tt.

(** The closure [var_warpper] of [get_profile_tensors], with the variables
    it captures, [func] and [dynamic_symbolic_constraints], as parameters. *)
Definition var_warpper (func : PrimFunc) (dynamic_symbolic_constraints : gmap string Z)
    (v : PrimExpr) : M Z :=
  match v with
  | Var v_name =>
      match dynamic_symbolic_constraints !! v_name with
      | Some c => mret c
      | None =>
          match opt_shapes func with
          | None => raise (AssertionError "")
          | Some shapes =>
              match shapes !! v_name with
              | None => raise (AssertionError "")
              | Some (OptIntImm value) => mret value
              | Some (OptArray values) =>
                  let avg_shape := fold_left Z.add values 0 in
                  if (length values =? 0)%nat
                  then raise (ZeroDivisionError "integer division or modulo by zero")
                  else
                    let avg_shape := avg_shape `div` Z.of_nat (length values) in
                    let _info_message :=
                      "Doesn't provide dynamic symbolic constrains for " ++ v_name
                      ++ " when do benchmarking, use average shape " ++ pretty avg_shape in
                    _ ← logger INFO _info_message;
                    mret avg_shape
              | Some (OptOther type_name) =>
                  raise (RuntimeError [PStr "Not supported type: "; PType type_name])
              end
          end
      end
  | IntImm value => mret value
  | OtherExpr type_name =>
      raise (RuntimeError [PStr "Not supported type: "; PType type_name])
  end.

(** The closure [map_numpy_type] of [get_profile_tensors]. *)
Definition map_numpy_type (intype : string) : string :=
  if String.eqb intype "e4m3_float8" then "float8_e4m3fn"
  else if String.eqb intype "e5m2_float8" then "float8_e5m2"
  else intype.

(** [[f(x) for x in l]]. *)
Fixpoint for_each {A B : Type} (f : A → M B) (l : list A) : M (list B) :=
  match l with
  | [] => mret []
  | x :: rest => y ← f x; ys ← for_each f rest; mret (y :: ys)
  end.

(** A profiling tensor: its random contents are left out. *)
Record Tensor : Type := {
  tensor_shape : list Z;
  tensor_dtype : string;
  tensor_device : Device;
}.

(** [np.random.uniform(0, 1, shape)]: an array of that shape, refused when
    an extent is negative. *)
Definition np_random_uniform (shape : list Z) : M unit :=
  if forallb (Z.leb 0) shape then mret tt
  else raise (ValueError "negative dimensions are not allowed").

(** [get_profile_tensors]. *)
Definition get_profile_tensors (dynamic_symbolic_constraints : option (gmap string Z))
    : M (list Tensor) :=
  let dynamic_symbolic_constraints := default ∅ dynamic_symbolic_constraints in
  func ← prim_func;
  device ← self_arch_device;
  tensors ← for_each
    (fun param =>
       match buffer_map func !! param with
       | None => mret None
       | Some arg =>
           let numpy_dtype := map_numpy_type (buf_dtype arg) in
           shape ← for_each (var_warpper func dynamic_symbolic_constraints) (buf_shape arg);
           _ ← np_random_uniform shape;
           mret (Some {| tensor_shape := shape; tensor_dtype := numpy_dtype;
                         tensor_device := device |})
       end)
    (params func);
  mret (omap id tensors).

End OperatorMethods.

(** ** The CPU executor ([OPExecutorCPU]) *)

Section Executor.

(** The values handed from stage to stage, and the state the stages act on. *)
Variables V S : Type.

(** An operator as the executor sees it: [op.forward] applied to the
    unpacked argument list. *)
Record Stage : Type := {
  stage_forward : list V → S → result V * S;
}.

Record OPExecutorCPU : Type := {
  operators : list Stage;
}.

(** [OPExecutorCPU.__init__]. *)
Definition OPExecutorCPU_init (operators : option (list Stage)) : OPExecutorCPU :=
  {| operators := default [] operators |}.

(** [append]. *)
Definition append (ex : OPExecutorCPU) (op : Stage) : OPExecutorCPU :=
  {| operators := operators ex ++ [op] |}.

(** [is_none]. *)
Definition is_none (ex : OPExecutorCPU) : bool := (length (operators ex) =? 0)%nat.

(** The [size] property. *)
Definition size_of (ex : OPExecutorCPU) : nat := length (operators ex).

(** The loop of [forward]: for each [op], [inputs] becomes the one-element
    list of what [op.forward] returns on the unpacked [inputs]. *)
Fixpoint forward_loop (ops : list Stage) (inputs : list V) (s : S)
    : result (list V) * S :=
  match ops with
  | [] => (Ok inputs, s)
  | op :: rest =>
      match stage_forward op inputs s with
      | (Ok out, s') => forward_loop rest [out] s'
      | (Raise e, s') => (Raise e, s')
      end
  end.

(** [forward]. *)
Definition forward (ex : OPExecutorCPU) (weight : V) (s : S) : result V * S :=
  let inputs := [weight] in
  match forward_loop (operators ex) inputs s with
  | (Ok inputs, s') => (list_get inputs (Nat.pred (length inputs)), s')
  | (Raise e, s') => (Raise e, s')
  end.

(** The chain the executor is to run: each stage is called once, on the one
    value its predecessor returned, and a stage that raises ends the run. *)
Inductive runs : list Stage → V → S → result V → S → Prop :=
| runs_nil x s : runs [] x s (Ok x) s
| runs_step op rest x s y s' r s'' :
    stage_forward op [x] s = (Ok y, s') →
    runs rest y s' r s'' →
    runs (op :: rest) x s r s''
| runs_raise op rest x s e s' :
    stage_forward op [x] s = (Raise e, s') →
    runs (op :: rest) x s (Raise e) s'.

End Executor.

Arguments stage_forward {V S} _ _ _.
Arguments Build_Stage {V S} _.
Arguments Build_OPExecutorCPU {V S} _.
Arguments operators {V S} _.
Arguments forward {V S} _ _ _.
Arguments forward_loop {V S} _ _ _.
Arguments append {V S} _ _.
Arguments runs {V S} _ _ _ _ _.

(** ** Sequences of method calls *)

(** A call of a method of [Operator] by its owner. *)
Inductive MethodCall : Type :=
| Call_prim_func
| Call_update_func (func : PrimFunc)
| Call_get_source (target : option Target) (kenrel_only : bool)
| Call_build_runtime_module (target : option Target)
| Call_build_default_module (target : option Target)
| Call_hardware_aware_finetune (topk : Z) (target : option Target) (parallel_build : bool)
| Call_get_profile_tensors (dynamic_symbolic_constraints : option (gmap string Z)).

(** The state after a call, whether it returned or raised. *)
Definition after_call (tc : Toolchain) (c : MethodCall) (w : World) : World :=
  match c with
  | Call_prim_func => (prim_func w).2
  | Call_update_func func => (update_func func w).2
  | Call_get_source target kenrel_only => (get_source tc target kenrel_only w).2
  | Call_build_runtime_module target => (_build_runtime_module tc target w).2
  | Call_build_default_module target => (_build_default_module tc target w).2
  | Call_hardware_aware_finetune topk target parallel_build =>
      (hardware_aware_finetune tc topk target parallel_build w).2
  | Call_get_profile_tensors constraints => (get_profile_tensors constraints w).2
  end.

Definition after_calls (tc : Toolchain) (cs : list MethodCall) (w : World) : World :=
  fold_left (λ w c, after_call tc c w) cs w.

(** A method that leaves the attribute read by [attr] as it is, however it
    ends. *)
Definition keeps {A B : Type} (attr : Operator → B) (m : M A) : Prop :=
  ∀ w, attr (self (m w).2) = attr (self w).

(** An attribute that the assignments made while a runtime module is set up
    do not touch. *)
Definition artifact_independent {B : Type} (attr : Operator → B) : Prop :=
  (∀ v o, attr (set_rt_mod v o) = attr o)
  ∧ (∀ v o, attr (set_time_evaluator v o) = attr o)
  ∧ (∀ v o, attr (set_torch_func v o) = attr o)
  ∧ (∀ v o, attr (set_lib_code v o) = attr o)
  ∧ (∀ v o, attr (set_wrapper_mod v o) = attr o)
  ∧ (∀ v o, attr (set_lib v o) = attr o).

(** An attribute that no assignment of a method touches. *)
Definition assignment_independent {B : Type} (attr : Operator → B) : Prop :=
  artifact_independent attr
  ∧ (∀ v o, attr (set_prim_func_mod v o) = attr o)
  ∧ (∀ v o, attr (set_optimized_mod v o) = attr o)
  ∧ (∀ v o, attr (set_pass_context v o) = attr o).

(** A string of code points below 128. *)
Definition is_ascii (s : string) : bool :=
  PyStr.all_chars (λ c, (nat_of_ascii c <? 128)%nat) s.

(** ** The rest of [operator.py] *)

(** [TransformKind], an [IntEnum]. *)
Inductive TransformKind : Type :=
| NonTransform
| InterWarpTransform
| IntraWarpTransform
| LDMatrixTransform.

(** [int(kind)]. *)
Definition TransformKind_value (kind : TransformKind) : Z :=
  match kind with
  | NonTransform => 0
  | InterWarpTransform => 1
  | IntraWarpTransform => 2
  | LDMatrixTransform => 3
  end.

(** [list(TransformKind)]: the members in the order of their declaration. *)
Definition TransformKind_members : list TransformKind :=
  [NonTransform; InterWarpTransform; IntraWarpTransform; LDMatrixTransform].

(** [TransformKind(value)]: the member with that value is looked up. *)
Definition TransformKind_of_value (value : Z) : result TransformKind :=
  match find (λ kind, TransformKind_value kind =? value) TransformKind_members with
  | Some kind => Ok kind
  | None => Raise (ValueError (pretty value ++ " is not a valid TransformKind"))
  end.

(** What a concrete operator class supplies: its name and its two hooks,
    which see the attributes assigned so far. *)
Record OperatorClass : Type := {
  cls_name : string;
  _select_implementation : Operator → result IRModule;
  get_kernel_name_generator : Operator → result (option KernelNameGenerator);
}.

(** [Operator.get_kernel_name_generator], the hook of the base class. *)
Definition base_get_kernel_name_generator (o : Operator)
    : result (option KernelNameGenerator) := Ok None.

(** What [Operator.__init__] calls outside [operator.py]: [get_arch], and
    the constructors [LibraryGenerator] and [TIRWrapper], of which the
    attributes that the methods read later are returned. *)
Record Builders : Type := {
  get_arch : Target → result TileDevice;
  LibraryGenerator : option TileDevice → result (option string);
  TIRWrapper : option TileDevice → result (option IRModule);
}.

(** A constructed operator with the two counts [__init__] stores. *)
Record Constructed : Type := {
  constructed : Operator;
  num_args : nat;
  num_output_args : Z;
}.

Definition set_arch (v : option TileDevice) (o : Operator) : Operator :=
  {| class_name := class_name o; name := name o; target := target o;
     prim_func_mod := prim_func_mod o; optimized_mod := optimized_mod o; rt_mod := rt_mod o;
     time_evaluator := time_evaluator o; torch_func := torch_func o; arch := v;
     dynamic_range := dynamic_range o; pass_context := pass_context o;
     kernel_name_generator := kernel_name_generator o; lib_code := lib_code o;
     wrapper_mod := wrapper_mod o; lib := lib o |}.

Definition set_kernel_name_generator (v : option KernelNameGenerator) (o : Operator)
    : Operator :=
  {| class_name := class_name o; name := name o; target := target o;
     prim_func_mod := prim_func_mod o; optimized_mod := optimized_mod o; rt_mod := rt_mod o;
     time_evaluator := time_evaluator o; torch_func := torch_func o; arch := arch o;
     dynamic_range := dynamic_range o; pass_context := pass_context o;
     kernel_name_generator := v; lib_code := lib_code o;
     wrapper_mod := wrapper_mod o; lib := lib o |}.

(** [Operator.__init__].  [torch_func] is not assigned: [None] stands for
    the missing attribute. *)
Definition Operator_init (Target_of_str : string → result Target) (bd : Builders)
    (cls : OperatorClass) (name : string) (target : option target_arg)
    : result Constructed :=
  target ← match target with
           | Some (TargetStr s) => t ← Target_of_str s; Ok (Some t)
           | Some (TargetHandle t) => Ok (Some t)
           | None => Ok None
           end;
  let o := {| class_name := cls_name cls; name := name; target := target;
              prim_func_mod := ∅; optimized_mod := None; rt_mod := None;
              time_evaluator := None; torch_func := None; arch := None;
              dynamic_range := None; pass_context := ∅;
              kernel_name_generator := None; lib_code := None;
              wrapper_mod := None; lib := None |} in
  md ← _select_implementation cls o;
  let o := set_prim_func_mod md o in
  a ← match target with
      | Some t => a ← get_arch bd t; Ok (Some a)
      | None => Ok None
      end;
  let o := set_arch a o in
  func ← resolve_prim_func (prim_func_mod o);
  let num_args := length (params func) in
  g ← get_kernel_name_generator cls o;
  let o := set_kernel_name_generator g o in
  code ← LibraryGenerator bd a;
  let o := set_lib_code code o in
  wrapped ← TIRWrapper bd a;
  let o := set_wrapper_mod wrapped o in
  Ok {| constructed := o; num_args := num_args; num_output_args := 1 |}.

(** Arguments of a call into a loaded library: a Python [int] passed as it
    is, or a [ctypes.c_void_p] object. *)
Inductive CArg : Type :=
| PyInt (z : Z)
| VoidPtr (address : Z).

(** [ctypes.c_void_p(value)] for an [int]: the pointer keeps the value
    modulo 2^64. *)
Definition c_void_p (value : Z) : CArg := VoidPtr (value `mod` 2 ^ 64).

(** Arguments of [_forward_from_prebuild_lib]: an [int], an array with a
    [data_ptr()], or an object of another type. *)
Inductive HostArg : Type :=
| IntArg (z : Z)
| ArrayArg (data_ptr : Z)
| ObjectArg (type_name : string).

(** What [update_runtime_module] calls outside [operator.py]: the setters of
    the library generator and [ctypes.CDLL]. *)
Record Loader : Type := {
  set_src_path : string → result unit;
  set_lib_path : string → result unit;
  CDLL : string → result Lib;
}.

Section Invocation.

(** The values a kernel is called on, and the memory they live in. *)
Variables V S : Type.

(** Calling the interop adapter and a loaded library. *)
Variable torch_call : TorchFunc → list V → S → result unit * S.
Variable lib_call : Lib → list CArg → S → result unit * S.

(** [_forward_from_torch_func]: the kernel writes through its arguments,
    and the last argument is returned.  [self.torch_func] is assigned by a
    successful build only; before, the attribute does not exist. *)
Definition _forward_from_torch_func (o : Operator) (args : list V) (s : S)
    : result V * S :=
  match torch_func o with
  | None =>
      (Raise (AttributeError
                ("'" ++ class_name o ++ "' object has no attribute 'torch_func'")), s)
  | Some f =>
      match torch_call f args s with
      | (Ok _, s') =>
          (match last args with
           | Some out => Ok out
           | None => Raise (IndexError "tuple index out of range")
           end, s')
      | (Raise e, s') => (Raise e, s')
      end
  end.

(** [Operator.forward] and [Operator.__call__]. *)
Definition Operator_forward (o : Operator) (args : list V) (s : S) : result V * S :=
  _forward_from_torch_func o args s.

Definition Operator_call (o : Operator) (args : list V) (s : S) : result V * S :=
  Operator_forward o args s.

(** An operator of the base class as a stage of the executor. *)
Definition operator_stage (o : Operator) : Stage V S :=
  {| stage_forward := Operator_forward o |}.

(** One element of the list comprehension of [_forward_from_prebuild_lib]. *)
Definition to_ctypes (arr : HostArg) : result CArg :=
  match arr with
  | IntArg z => Ok (PyInt z)
  | ArrayArg p => Ok (c_void_p p)
  | ObjectArg type_name =>
      Raise (AttributeError ("'" ++ type_name ++ "' object has no attribute 'data_ptr'"))
  end.

Fixpoint to_ctypes_all (args : list HostArg) : result (list CArg) :=
  match args with
  | [] => Ok []
  | arr :: rest => c ← to_ctypes arr; cs ← to_ctypes_all rest; Ok (c :: cs)
  end.

(** [self.lib.call] on an unpacked argument list. *)
Definition self_lib_call (o : Operator) (args : list CArg) (s : S) : result unit * S :=
  match lib o with
  | Some l => lib_call l args s
  | None => (Raise (AttributeError "'NoneType' object has no attribute 'call'"), s)
  end.

(** [_forward_from_prebuild_lib]. *)
Definition _forward_from_prebuild_lib (o : Operator) (args : list HostArg) (stream : Z)
    (s : S) : result unit * S :=
  match to_ctypes_all args with
  | Ok ctypes_args =>
      let ctypes_args := (ctypes_args ++ [c_void_p stream])%list in
      self_lib_call o ctypes_args s
  | Raise e => (Raise e, s)
  end.

(** [call_lib]. *)
Definition call_lib (o : Operator) (args : list CArg) (stream : Z) (s : S)
    : result unit * S :=
  self_lib_call o (args ++ [c_void_p stream])%list s.

End Invocation.

Arguments _forward_from_torch_func {V S} _ _ _ _.
Arguments Operator_forward {V S} _ _ _ _.
Arguments Operator_call {V S} _ _ _ _.
Arguments operator_stage {V S} _ _.
Arguments self_lib_call {S} _ _ _ _.
Arguments _forward_from_prebuild_lib {S} _ _ _ _ _.
Arguments call_lib {S} _ _ _ _ _.

(** [post_process], the hook of the base class. *)
Definition post_process (code : string) : string := code.

(** [update_runtime_module]. *)
Definition update_runtime_module (tc : Toolchain) (ld : Loader) (rt : RtModule)
    (srcpath libpath : option string) : M unit :=
  _ ← set_self (set_rt_mod (Some rt));
  device ← self_arch_device;
  te ← call (make_time_evaluator tc rt device 10);
  _ ← set_self (set_time_evaluator (Some te));
  tf ← call (to_pytorch_func tc rt);
  _ ← set_self (set_torch_func (Some tf));
  _ ← (match srcpath with
       | Some p => call (set_src_path ld p)
       | None => mret tt
       end);
  match libpath with
  | Some p =>
      _ ← call (set_lib_path ld p);
      l ← call (CDLL ld p);
      _ ← set_self (set_lib (Some l));
      call (lib_init tc l)
  | None => mret tt
  end.

(** ** The operator list of an executor as a shared object *)

Section SharedOperators.

Variable Op : Type.

(** The list objects of the program, by identity. *)
Definition ListHeap : Type := gmap nat (list Op).

(** An executor holds a reference to its operator list. *)
Record ExecutorRef : Type := {
  operators_ref : nat;
}.

(** [OPExecutorCPU.__init__]: without an argument a new empty list is made;
    a list that is passed is kept, not copied. *)
Definition ExecutorRef_init (operators : option nat) (h : ListHeap)
    : ExecutorRef * ListHeap :=
  match operators with
  | None =>
      let l := fresh (dom h) in
      ({| operators_ref := l |}, <[l := []]> h)
  | Some l => ({| operators_ref := l |}, h)
  end.

(** [self.operators] read as a list. *)
Definition operators_of (ex : ExecutorRef) (h : ListHeap) : list Op :=
  default [] (h !! operators_ref ex).

(** [append]: the list object is changed in place. *)
Definition append_ref (ex : ExecutorRef) (op : Op) (h : ListHeap) : ListHeap :=
  alter (λ l, l ++ [op])%list (operators_ref ex) h.

(** The [size] property and [is_none]. *)
Definition size_ref (ex : ExecutorRef) (h : ListHeap) : nat :=
  length (operators_of ex h).

Definition is_none_ref (ex : ExecutorRef) (h : ListHeap) : bool :=
  (length (operators_of ex h) =? 0)%nat.

End SharedOperators.

Arguments ExecutorRef_init {Op} _ _.
Arguments operators_of {Op} _ _.
Arguments append_ref {Op} _ _ _.
Arguments size_ref {Op} _ _.
Arguments is_none_ref {Op} _ _.

(** ** Predicates on the state of an operator *)

(** An attribute that only an assignment to the primary module could touch:
    the assignments made while scheduling, tuning and building leave it. *)
Definition tuning_independent {B : Type} (attr : Operator → B) : Prop :=
  artifact_independent attr
  ∧ (∀ v o, attr (set_optimized_mod v o) = attr o)
  ∧ (∀ v o, attr (set_pass_context v o) = attr o).

(** The primary function of the operator can be determined. *)
Definition has_entry (w : World) : Prop :=
  ∃ func, resolve_prim_func (prim_func_mod (self w)) = Ok func.

(** The world a newly constructed operator starts in. *)
Definition initial_world (o : Operator) : World :=
  {| self := o; logged := []; cuda_postproc_registered := false |}.

(** What [var_warpper] returns for a shape element: the integer itself, and
    for a variable the caller's constraint when there is one. *)
Definition resolves_to (constraints : gmap string Z) (extent : Z) (v : PrimExpr) : Prop :=
  match v with
  | IntImm value => extent = value
  | Var v_name => ∀ c, constraints !! v_name = Some c → extent = c
  | OtherExpr _ => False
  end.

(** The buffers of the parameters of a function that are bound to one, in
    the order of the parameters. *)
Definition bound_buffers (func : PrimFunc) : list Buffer :=
  omap (λ param, buffer_map func !! param) (params func).

(** A profiling tensor made for a buffer. *)
Definition tensor_for (constraints : gmap string Z) (device : Device)
    (t : Tensor) (buf : Buffer) : Prop :=
  tensor_dtype t = map_numpy_type (buf_dtype buf)
  ∧ tensor_device t = device
  ∧ Forall2 (resolves_to constraints) (tensor_shape t) (buf_shape buf).

(** * The progress files of [examples/relax_nerf.py]

    [write_code] reaches the file system through [os.path.exists],
    [os.makedirs] and [open(fname, "w")].  The file system is external: a
    run keeps the calls made on it, and what a call answers may depend on
    all the calls before it. *)
Module RelaxNerf.

Inductive OsCall : Type :=
| PathExists (path : string)
| Makedirs (path : string)
| OpenWrite (fname code : string).

#[global] Instance OsCall_eq_dec : EqDecision OsCall.
Proof. solve_decision. Defined.

Record FileSystem : Type := {
  path_exists : list OsCall → string → bool;
  makedirs : list OsCall → string → option exn;
  open_write : list OsCall → string → string → option exn;
}.

(** The module-level [count] and the calls made so far. *)
Record Script : Type := {
  count : nat;
  os_calls : list OsCall;
}.

Definition Run (A : Type) : Type := Script → result A * Script.

#[global] Instance Run_ret : MRet Run := fun A a st => (Ok a, st).
#[global] Instance Run_bind : MBind Run := fun A B k m st =>
  match m st with
  | (Ok a, st') => k a st'
  | (Raise e, st') => (Raise e, st')
  end.

Definition get_count : Run nat := fun st => (Ok (count st), st).

Definition set_count (n : nat) : Run unit := fun st =>
  (Ok tt, {| count := n; os_calls := os_calls st |}).

Definition rendered {A : Type} (r : result A) : Run A := fun st => (r, st).

Definition os_call {A : Type} (c : OsCall) (reply : list OsCall → result A) : Run A :=
  fun st => (reply (os_calls st),
             {| count := count st; os_calls := os_calls st ++ [c] |}).

Definition completed (failure : option exn) : result unit :=
  match failure with
  | None => Ok tt
  | Some e => Raise e
  end.

(** [s.endswith(p)]. *)
Definition endswith (s p : string) : bool :=
  (String.length p <=? String.length s)%nat
  && String.eqb (substring (String.length s - String.length p) (String.length p) s) p.

(** [os.path.join(a, b)] of [posixpath]. *)
Definition os_path_join (a b : string) : string :=
  if PyStr.startswith b "/" then b
  else if String.eqb a "" || endswith a "/" then a ++ b
  else a ++ "/" ++ b.

Definition write_code (fs : FileSystem) (code path fname : string) : Run unit :=
  count ← get_count;
  let fname := pretty count ++ "." ++ fname in
  _ ← set_count (count + 1);
  present ← os_call (PathExists path) (fun calls => Ok (path_exists fs calls path));
  _ ← (if negb present
       then os_call (Makedirs path) (fun calls => completed (makedirs fs calls path))
       else mret tt);
  let fname := os_path_join path fname in
  os_call (OpenWrite fname code) (fun calls => completed (open_write fs calls fname code)).

(** The two renderings of a module or of a schedule: [mod.script(...)] or
    [sch.mod["main"].script()], and [mod.astext(...)] or [sch.mod.astext()]. *)
Record Renderings : Type := {
  script : result string;
  astext : result string;
}.

Definition write_sch (fs : FileSystem) (sch : Renderings) (path fname : string) : Run unit :=
  let py_fname := fname ++ ".py" in
  code ← rendered (script sch);
  _ ← write_code fs code path py_fname;
  let cu_fname := fname ++ ".cu" in
  code ← rendered (astext sch);
  write_code fs code path cu_fname.

Definition write_mod (fs : FileSystem) (md : Renderings) (path fname : string) : Run unit :=
  let py_fname := fname ++ ".py" in
  code ← rendered (script md);
  _ ← write_code fs code path py_fname;
  let cu_fname := fname ++ ".cu" in
  code ← rendered (astext md);
  write_code fs code path cu_fname.

(** The state in which the script starts: [count = 0]. *)
Definition start : Script := {| count := 0; os_calls := [] |}.

(** The path names opened for writing, in order, with what was written. *)
Definition written (st : Script) : list (string * string) :=
  omap (fun c => match c with OpenWrite fname code => Some (fname, code) | _ => None end)
       (os_calls st).

(** The file a call of [write_code] opens when [count] is [n]. *)
Definition progress_file (path : string) (n : nat) (fname : string) : string :=
  os_path_join path (pretty n ++ "." ++ fname).

(** Every path name opened so far carries a number below [count], and no
    path name was opened twice.  Path names are compared as strings. *)
Definition numbered (path : string) (st : Script) : Prop :=
  NoDup (written st).*1
  ∧ ∀ file, file ∈ (written st).*1 →
      ∃ n fname, (n < count st)%nat ∧ file = progress_file path n fname.

End RelaxNerf.

(** ** Sample data

    Concrete targets, devices, modules and toolchains on which the
    definitions above are run. *)

Definition gfx942_target : Target :=
  {| target_repr := "hip -mcpu=gfx942"; target_arch := "gfx942";
     l2_cache_size_bytes := 4194304 |}.

Definition gfx90a_target : Target :=
  {| target_repr := "hip -mcpu=gfx90a"; target_arch := "gfx90a";
     l2_cache_size_bytes := 8388608 |}.

(** A parser that knows the two descriptions above. *)
Definition sample_Target_of_str (s : string) : result Target :=
  if String.eqb s "hip --mcpu=gfx90a" then Ok gfx90a_target
  else if String.eqb s "hip --mcpu=gfx942" then Ok gfx942_target
  else Raise (ToolchainError ("Cannot parse target " ++ s)).

(** A toolchain built without the "hip" target kind. *)
Definition rocm_Target_of_str (s : string) : result Target :=
  if PyStr.startswith s "rocm" then Ok gfx90a_target
  else Raise (ToolchainError ("Cannot parse target " ++ s)).

Definition present_device : Device :=
  {| exist := true; max_shared_memory_per_block := 65536;
     multi_processor_count := 304; dev_warp_size := 64; compute_version := "9.4" |}.

Definition absent_device : Device :=
  {| exist := false; max_shared_memory_per_block := 0;
     multi_processor_count := 0; dev_warp_size := 0; compute_version := "" |}.

(** A backend with one device, and one with none. *)
Definition one_device_hip (i : Z) : Device :=
  if (i =? 0) then present_device else absent_device.

Definition no_device_hip (i : Z) : Device := absent_device.

(** Two tensor programs, told apart by their bodies. *)
Definition sample_func (n : nat) : PrimFunc :=
  {| params := ["a"; "b"; "c"]; buffer_map := ∅; opt_shapes := None;
     global_symbol := None; body := n |}.

(** A module whose one function is not called "main", as in
    [examples/single_op_tune.py]. *)
Definition fused_module : IRModule := {[ "fused_dense_relu" := sample_func 0 ]}.

(** A module of two functions, none of them called "main". *)
Definition two_kernel_module : IRModule :=
  <[ "gemv" := sample_func 2 ]> {[ "matmul" := sample_func 1 ]}.

(** A module whose one function is called "main". *)
Definition main_module : IRModule := {[ "main" := sample_func 0 ]}.

(** A freshly constructed operator on a profile of the given platform. *)
Definition sample_operator (platform : string) (md : IRModule) : Operator :=
  {| class_name := "Matmul"; name := "matmul"; target := Some gfx942_target;
     prim_func_mod := md; optimized_mod := None; rt_mod := None;
     time_evaluator := None; torch_func := None;
     arch := Some (ArchOther platform present_device);
     dynamic_range := None; pass_context := ∅;
     kernel_name_generator := Some (NameGenerator 0);
     lib_code := None; wrapper_mod := None; lib := None |}.

Definition sample_world (o : Operator) : World :=
  {| self := o; logged := []; cuda_postproc_registered := false |}.

(** A toolchain on which scheduling and building fail and tuning finds
    nothing. *)
Definition failing_tc : Toolchain :=
  {| apply_schedule_passes := fun _ _ => Raise (ToolchainError "no schedule rule applies");
     generate := fun _ _ => Ok "matmul_kernel";
     build_module := fun _ _ _ => Raise (ToolchainError "nvcc failed");
     build_func := fun _ _ _ => Raise (ToolchainError "hipcc failed");
     make_time_evaluator := fun rt dev number => Ok (TimeEvaluatorOf rt dev number);
     to_pytorch_func := fun rt => Ok (TorchFuncOf rt);
     imported_source := fun _ => Ok "__global__ void main() {}";
     wrap := fun _ _ _ => Ok "extern C";
     compile_lib := fun _ => Ok tt;
     load_lib := fun _ => Ok (LibHandle 0);
     lib_init := fun _ => Ok tt;
     fast_tune := fun _ _ _ _ => Ok None;
     fast_tune_with_dynamic_range := fun _ _ _ _ _ _ => Ok None |}.

(** A toolchain on which every service succeeds: scheduling returns the
    module it is given. *)
Definition working_tc : Toolchain :=
  {| apply_schedule_passes := fun md _ => Ok (Some md);
     generate := fun _ _ => Ok "matmul_kernel";
     build_module := fun _ _ _ => Ok (RtHandle 1);
     build_func := fun _ _ _ => Ok (RtHandle 2);
     make_time_evaluator := fun rt dev number => Ok (TimeEvaluatorOf rt dev number);
     to_pytorch_func := fun rt => Ok (TorchFuncOf rt);
     imported_source := fun _ => Ok "__global__ void main() {}";
     wrap := fun _ _ _ => Ok "extern C";
     compile_lib := fun _ => Ok tt;
     load_lib := fun _ => Ok (LibHandle 0);
     lib_init := fun _ => Ok tt;
     fast_tune := fun func _ _ _ =>
       Ok (Some {| sch_mod := {[ "main" := func ]};
                   config := {| hint_id := 0;
                                hint_pass_context := {[ "tir.merge_static_smem" := PassBool true ]} |} |});
     fast_tune_with_dynamic_range := fun func _ _ _ _ _ => Ok (Some {[ "main" := func ]}) |}.

(** A toolchain on a machine without the CUDA compiler. *)
Definition no_compiler_tc : Toolchain :=
  {| apply_schedule_passes := apply_schedule_passes working_tc;
     generate := generate working_tc;
     build_module := build_module working_tc;
     build_func := build_func working_tc;
     make_time_evaluator := make_time_evaluator working_tc;
     to_pytorch_func := to_pytorch_func working_tc;
     imported_source := imported_source working_tc;
     wrap := wrap working_tc;
     compile_lib := fun _ => Raise (ToolchainError "nvcc: command not found");
     load_lib := load_lib working_tc;
     lib_init := lib_init working_tc;
     fast_tune := fast_tune working_tc;
     fast_tune_with_dynamic_range := fast_tune_with_dynamic_range working_tc |}.

(** An operator on a "CUDA" profile whose optimized module is in place. *)
Definition scheduled_operator : Operator :=
  set_optimized_mod (Some main_module) (sample_operator "CUDA" main_module).

(** A tensor program with a symbolic dimension "m", for which three
    candidate extents are recorded, and a fixed dimension. *)
Definition dynamic_func : PrimFunc :=
  {| params := ["a"];
     buffer_map := {[ "a" := {| buf_shape := [Var "m"; IntImm 64]; buf_dtype := "float16" |} ]};
     opt_shapes := Some {[ "m" := OptArray [64; 128; 192] ]};
     global_symbol := None; body := 3 |}.

(** A stage of one positional argument that computes [f] and records its
    call, with its index and the arguments it got, in the state. *)
Definition recording_stage (i : nat) (f : Z → Z) : Stage Z (list (nat * list Z)) :=
  {| stage_forward := fun args calls =>
       (match args with
        | [x] => Ok (f x)
        | _ => Raise (TypeError "forward() takes 2 positional arguments")
        end,
        (calls ++ [(i, args)])%list) |}.

Definition three_stages : list (Stage Z (list (nat * list Z))) :=
  [recording_stage 0 (λ x, x + 1); recording_stage 1 (λ x, 2 * x);
   recording_stage 2 (λ x, x - 3)].

(** An operator without target, and so without hardware profile. *)
Definition unprofiled_operator : Operator :=
  {| class_name := "Matmul"; name := "matmul"; target := None;
     prim_func_mod := main_module; optimized_mod := None; rt_mod := None;
     time_evaluator := None; torch_func := None; arch := None;
     dynamic_range := None; pass_context := ∅;
     kernel_name_generator := None; lib_code := None; wrapper_mod := None;
     lib := None |}.

(** A concrete operator class whose implementation is the module with the
    symbolic dimension, and the constructors it is built with. *)
Definition sample_class (md : IRModule) : OperatorClass :=
  {| cls_name := "Matmul";
     _select_implementation := fun _ => Ok md;
     get_kernel_name_generator := base_get_kernel_name_generator |}.

Definition sample_builders : Builders :=
  {| get_arch := fun t => Ok (ArchOther "CUDA" present_device);
     LibraryGenerator := fun _ => Ok None;
     TIRWrapper := fun _ => Ok None |}.

(** A toolchain on which no timing harness can be made. *)
Definition no_harness_tc : Toolchain :=
  {| apply_schedule_passes := apply_schedule_passes working_tc;
     generate := generate working_tc;
     build_module := build_module working_tc;
     build_func := build_func working_tc;
     make_time_evaluator := fun _ _ _ => Raise (ToolchainError "no device");
     to_pytorch_func := to_pytorch_func working_tc;
     imported_source := imported_source working_tc;
     wrap := wrap working_tc;
     compile_lib := compile_lib working_tc;
     load_lib := load_lib working_tc;
     lib_init := lib_init working_tc;
     fast_tune := fast_tune working_tc;
     fast_tune_with_dynamic_range := fast_tune_with_dynamic_range working_tc |}.

(** An operator with a dynamic range for its dimension "m". *)
Definition dynamic_operator : Operator :=
  {| class_name := "Matmul"; name := "matmul"; target := Some gfx942_target;
     prim_func_mod := {[ "main" := dynamic_func ]}; optimized_mod := None;
     rt_mod := None; time_evaluator := None; torch_func := None;
     arch := Some (ArchOther "CUDA" present_device);
     dynamic_range := Some {[ "m" := [64; 128; 192] ]}; pass_context := ∅;
     kernel_name_generator := Some (NameGenerator 0);
     lib_code := None; wrapper_mod := None; lib := None |}.

(** A loader on which every call succeeds. *)
Definition working_loader : Loader :=
  {| set_src_path := fun _ => Ok tt;
     set_lib_path := fun _ => Ok tt;
     CDLL := fun _ => Ok (LibHandle 1) |}.

(** An interop adapter and a library that record the calls they get. *)
Definition recording_torch_call (f : TorchFunc) (args : list Z) (calls : list (list Z))
    : result unit * list (list Z) :=
  (Ok tt, (calls ++ [args])%list).

Definition recording_lib_call (l : Lib) (args : list CArg) (calls : list (list CArg))
    : result unit * list (list CArg) :=
  (Ok tt, (calls ++ [args])%list).

(** An operator that was built and whose library is loaded. *)
Definition built_operator : Operator :=
  set_lib (Some (LibHandle 0))
    (set_torch_func (Some (TorchFuncOf (RtHandle 1)))
       (set_rt_mod (Some (RtHandle 1)) scheduled_operator)).

(** A stage that raises, recording its call all the same. *)
Definition failing_stage (i : nat) : Stage Z (list (nat * list Z)) :=
  {| stage_forward := fun args calls =>
       (Raise (ToolchainError "kernel launch failed"), (calls ++ [(i, args)])%list) |}.

(** A directory that exists once it has been made; every write succeeds. *)
Definition fresh_directory : RelaxNerf.FileSystem :=
  {| RelaxNerf.path_exists := fun calls path => bool_decide (RelaxNerf.Makedirs path ∈ calls);
     RelaxNerf.makedirs := fun _ _ => None;
     RelaxNerf.open_write := fun _ _ _ => None |}.

Definition relay_mod : RelaxNerf.Renderings :=
  {| RelaxNerf.script := Ok "# from tvm.script import ir as I";
     RelaxNerf.astext := Ok "def @main()" |}.

(* end of sample data *)

(** * Properties *)

(** ** Strings *)

Lemma replace_strip_gfx (s : string) :
  PyStr.replace ("gfx" ++ s) "gfx" "" = PyStr.replace s "gfx" "".
Proof. reflexivity. Qed.

Lemma replace_absent (old new s : string) :
  PyStr.contains s old = false → PyStr.replace s old new = s.
Proof.
  unfold PyStr.replace. induction s as [|c rest IH]; intros H; [reflexivity|].
  cbn [PyStr.contains] in H. apply orb_false_iff in H as [Hs Hc].
  cbn [PyStr.replace_from]. rewrite Hs. f_equal. auto.
Qed.

Lemma digit_is_not_g (c : ascii) :
  PyStr.is_ascii_digit c = true → Ascii.eqb "g" c = false.
Proof.
  intros H. destruct (Ascii.eqb_spec "g" c) as [<-|]; [discriminate H|reflexivity].
Qed.

Lemma decimal_has_no_gfx (s : string) :
  PyStr.all_chars PyStr.is_ascii_digit s = true → PyStr.contains s "gfx" = false.
Proof.
  induction s as [|c rest IH]; [reflexivity|].
  cbn [PyStr.all_chars PyStr.contains]. intros [Hc Hr]%andb_true_iff.
  rewrite (IH Hr), orb_false_r. cbn [PyStr.startswith].
  by rewrite (digit_is_not_g c Hc).
Qed.

Lemma is_decimal_isdigit (s : string) :
  PyStr.is_decimal s = true → PyStr.isdigit s = true.
Proof.
  destruct s as [|c0 s0]; [discriminate|]. unfold PyStr.is_decimal, PyStr.isdigit.
  generalize (String c0 s0). clear. intros s. induction s as [|c rest IH]; [reflexivity|].
  cbn [PyStr.all_chars]. intros [Hc Hr]%andb_true_iff.
  unfold PyStr.isdigit_char at 1. by rewrite Hc, (IH Hr).
Qed.

Lemma is_decimal_all (s : string) :
  PyStr.is_decimal s = true → PyStr.all_chars PyStr.is_ascii_digit s = true.
Proof. destruct s; [discriminate|exact id]. Qed.

Lemma leading_decimals_all (s : string) :
  PyStr.all_chars PyStr.is_ascii_digit s = true →
  PyStr.leading_decimals s = String.length s.
Proof.
  induction s as [|c rest IH]; [reflexivity|].
  cbn [PyStr.all_chars PyStr.leading_decimals String.length].
  intros [Hc Hr]%andb_true_iff. by rewrite Hc, (IH Hr).
Qed.

(** [int] on a run of digits 0-9: its value up to 4300 digits, and the
    refusal beyond. *)
Lemma int_decimal (s : string) :
  PyStr.is_decimal s = true → (String.length s ≤ 4300)%nat →
  PyStr.int s = Ok (PyStr.decimal_value 0 s).
Proof.
  intros Hd Hlen. unfold PyStr.int, PyStr.int_max_str_digits.
  rewrite (leading_decimals_all s (is_decimal_all s Hd)), Hd.
  destruct (Z.ltb_spec 4300 (Z.of_nat (String.length s))) as [Hlt|_]; [lia|done].
Qed.

Lemma int_too_long (s : string) :
  PyStr.is_decimal s = true → (4300 < String.length s)%nat →
  ∃ msg, PyStr.int s = Raise (ValueError msg).
Proof.
  intros Hd Hlen. unfold PyStr.int, PyStr.int_max_str_digits.
  rewrite (leading_decimals_all s (is_decimal_all s Hd)).
  destruct (Z.ltb_spec 4300 (Z.of_nat (String.length s))) as [_|Hge]; [by eexists|lia].
Qed.

Lemma int_not_decimal (s : string) :
  PyStr.is_decimal s = false → ∃ msg, PyStr.int s = Raise (ValueError msg).
Proof.
  intros Hd. unfold PyStr.int. rewrite Hd.
  destruct (_ <? _); by eexists.
Qed.

(** What [int] returns and what it raises. *)
Lemma int_outcome (s : string) :
  match PyStr.int s with
  | Ok v => PyStr.is_decimal s = true ∧ (String.length s ≤ 4300)%nat
            ∧ v = PyStr.decimal_value 0 s
  | Raise e => ∃ msg, e = ValueError msg
  end.
Proof.
  destruct (PyStr.is_decimal s) eqn:Hd.
  - destruct (Nat.le_gt_cases (String.length s) 4300) as [Hlen|Hlen].
    + by rewrite (int_decimal s Hd Hlen).
    + destruct (int_too_long s Hd Hlen) as [msg ->]. by exists msg.
  - destruct (int_not_decimal s Hd) as [msg ->]. by exists msg.
Qed.

Lemma decimal_value_nonneg (s : string) (acc : Z) :
  0 ≤ acc → PyStr.all_chars PyStr.is_ascii_digit s = true →
  0 ≤ PyStr.decimal_value acc s.
Proof.
  revert acc. induction s as [|c rest IH]; intros acc Hacc Hs; [done|].
  cbn [PyStr.all_chars] in Hs. apply andb_true_iff in Hs as [Hc Hr].
  cbn [PyStr.decimal_value]. apply IH; [|done].
  unfold PyStr.is_ascii_digit in Hc. apply andb_true_iff in Hc as [Hc _].
  apply Nat.leb_le in Hc. lia.
Qed.

(** ** Hardware profiles *)

(** The parser returns -1 or a number that is not negative, and raises
    nothing but a [ValueError]. *)
Lemma check_gfx_version_outcome (arch : string) :
  match check_gfx_version arch with
  | Ok v => v = -1 ∨ 0 ≤ v
  | Raise e => ∃ msg, e = ValueError msg
  end.
Proof.
  unfold check_gfx_version. destruct (PyStr.isdigit _); [|by left].
  pose proof (int_outcome (PyStr.replace arch "gfx" "")) as Hint.
  destruct (PyStr.int _) as [v|e]; [|done].
  destruct Hint as (Hd & _ & ->). right.
  apply decimal_value_nonneg; [done|by apply is_decimal_all].
Qed.




(** A run of digits needs no side condition: "gfx" does not occur in it. *)
Lemma check_gfx_version_decimal (suffix : string) :
  PyStr.is_decimal suffix = true → (String.length suffix ≤ 4300)%nat →
  check_gfx_version ("gfx" ++ suffix) = Ok (PyStr.decimal_value 0 suffix).
Proof.
  intros Hd Hlen. unfold check_gfx_version.
  rewrite replace_strip_gfx, replace_absent
    by apply decimal_has_no_gfx, is_decimal_all, Hd.
  by rewrite (is_decimal_isdigit _ Hd), (int_decimal _ Hd Hlen).
Qed.


(** C9, as the code has it.  When device 0 does not exist, constructing a
    runtime-probed profile returns no profile, whatever the target: it
    raises.  What it raises is decided in the order of the constructor: the
    toolchain's exception when it refuses the target description; else the
    [ValueError] of the version parser when the architecture version of the
    target does not parse; and only else the exception reporting that HIP
    device 0 cannot be found.  The fixed profile does not consult the device
    backend, but it does ask the toolchain for its target: it is constructed
    when the toolchain accepts the description "hip --mcpu=gfx90a", and
    construction raises the toolchain's exception when it does not. *)
Theorem RDNA_init_no_device (Target_of_str : string → result Target) (hip : Z → Device)
    (Habsent : exist (hip 0) = false) :
  (∀ target, ∃ e, RDNA_init Target_of_str hip target = Raise e)
  ∧ (∀ t v, check_gfx_version (target_arch t) = Ok v →
       RDNA_init Target_of_str hip (TargetHandle t)
       = Raise (RuntimeError [PStr "Cannot find HIP device 0."]))
  ∧ (∀ s t v, Target_of_str s = Ok t → check_gfx_version (target_arch t) = Ok v →
       RDNA_init Target_of_str hip (TargetStr s)
       = Raise (RuntimeError [PStr "Cannot find HIP device 0."]))
  ∧ (∀ s e, Target_of_str s = Raise e →
       RDNA_init Target_of_str hip (TargetStr s) = Raise e)
  ∧ (∀ target t e,
       match target with
       | TargetHandle t' => t' = t
       | TargetStr s => Target_of_str s = Ok t
       end →
       check_gfx_version (target_arch t) = Raise e →
       RDNA_init Target_of_str hip target = Raise e ∧ ∃ msg, e = ValueError msg)
  ∧ (∀ t, Target_of_str "hip --mcpu=gfx90a" = Ok t →
       ∃ p, MI250_init Target_of_str = Ok p
            ∧ MI250.target p = t ∧ MI250.max_smem_usage p = 0
            ∧ MI250.smem_cap p = 65536 ∧ MI250.compute_capability p = "gfx90a")
  ∧ (∀ e, Target_of_str "hip --mcpu=gfx90a" = Raise e →
       MI250_init Target_of_str = Raise e).
Proof.
  split; [|split; [|split; [|split; [|split; [|split]]]]].
  - intros target. unfold RDNA_init.
    destruct (match target with TargetStr s => _ | TargetHandle t => _ end) as [t|e];
      [|by eexists].
    cbn. destruct (check_gfx_version (target_arch t)) as [v|e]; [|by eexists].
    cbn. rewrite Habsent. by eexists.
  - intros t v Hv. unfold RDNA_init. cbn. rewrite Hv. cbn. by rewrite Habsent.
  - intros s t v Hs Hv. unfold RDNA_init. rewrite Hs. cbn. rewrite Hv. cbn.
    by rewrite Habsent.
  - intros s e Hs. unfold RDNA_init. by rewrite Hs.
  - intros target t e Ht Hv. split.
    + unfold RDNA_init. destruct target as [t'|s]; [subst t'|rewrite Ht]; cbn;
        by rewrite Hv.
    + pose proof (check_gfx_version_outcome (target_arch t)) as Hout.
      by rewrite Hv in Hout.
  - intros t Ht. unfold MI250_init. rewrite Ht. cbn. eexists. repeat split.
  - intros e He. unfold MI250_init. by rewrite He.
Qed.

Lemma RDNA_init_no_device_witness :
  exist (no_device_hip 0) = false
  ∧ RDNA_init sample_Target_of_str no_device_hip (TargetHandle gfx942_target)
    = Raise (RuntimeError [PStr "Cannot find HIP device 0."])
  ∧ ∃ p, MI250_init sample_Target_of_str = Ok p.
Proof.
  pose proof (RDNA_init_no_device sample_Target_of_str no_device_hip eq_refl)
    as (_ & Hhandle & _ & _ & _ & Hfixed & _).
  split; [reflexivity|]. split.
  - apply (Hhandle gfx942_target 942). reflexivity.
  - destruct (Hfixed gfx90a_target eq_refl) as (p & Hp & _). by exists p.
Defined.

(** C9, as stated, fails twice.  With device 0 missing, a target
    description that the toolchain refuses ends the construction of a
    runtime-probed profile in the toolchain's exception, not in the report
    of a missing device.  And the fixed profile can fail: on a toolchain
    that does not know the target kind "hip", its construction raises. *)
Lemma profile_construction_other_failures :
  exist (no_device_hip 0) = false
  ∧ RDNA_init sample_Target_of_str no_device_hip (TargetStr "hip --mcpu=gfx1100")
    = Raise (ToolchainError "Cannot parse target hip --mcpu=gfx1100")
  ∧ RDNA_init sample_Target_of_str no_device_hip (TargetStr "hip --mcpu=gfx1100")
    ≠ Raise (RuntimeError [PStr "Cannot find HIP device 0."])
  ∧ MI250_init rocm_Target_of_str
    = Raise (ToolchainError "Cannot parse target hip --mcpu=gfx90a").
Proof. repeat split; try reflexivity. discriminate. Qed.

(** ** Modules and the primary function *)

Lemma get_global_vars_length (md : IRModule) :
  length (get_global_vars md) = size md.
Proof. unfold get_global_vars. by rewrite length_fmap, length_map_to_list. Qed.

Lemma map_size_1_singleton (md : IRModule) :
  size md = 1%nat → ∃ name f, md = {[ name := f ]}.
Proof.
  intros Hsz.
  destruct (map_size_ne_0_lookup_1 md) as [name [f Hf]]; [lia|].
  exists name, f.
  rewrite <- (insert_delete_id md name f Hf).
  assert (Hd : size (delete name md) = 0%nat).
  { rewrite (map_size_delete_Some name md) by eauto. lia. }
  apply map_size_empty_inv in Hd. rewrite Hd. reflexivity.
Qed.

Lemma resolve_prim_func_singleton (name : string) (f : PrimFunc) :
  resolve_prim_func {[ name := f ]} = Ok f.
Proof.
  unfold resolve_prim_func, get_global_vars. rewrite map_to_list_singleton. cbn.
  unfold mod_lookup. by rewrite lookup_singleton_eq.
Qed.

Lemma resolve_prim_func_main (md : IRModule) (f : PrimFunc) :
  size md ≠ 1%nat → md !! "main" = Some f → resolve_prim_func md = Ok f.
Proof.
  intros Hsz Hm. unfold resolve_prim_func. rewrite get_global_vars_length.
  destruct (Nat.eqb_spec (size md) 1) as [?|_]; [done|].
  unfold mod_contains, mod_lookup. rewrite Hm.
  rewrite bool_decide_eq_true_2 by eauto. reflexivity.
Qed.

Lemma resolve_prim_func_ambiguous (md : IRModule) :
  size md ≠ 1%nat → md !! "main" = None →
  resolve_prim_func md = Raise (ValueError "Unable to determine primary function.").
Proof.
  intros Hsz Hm. unfold resolve_prim_func. rewrite get_global_vars_length.
  destruct (Nat.eqb_spec (size md) 1) as [?|_]; [done|].
  unfold mod_contains. rewrite Hm.
  rewrite bool_decide_eq_false_2; [reflexivity|]. by intros [? ?].
Qed.

(** [entry_name] is the name [resolve_prim_func] looks up. *)
Lemma entry_name_resolves (md : IRModule) (f : PrimFunc) :
  resolve_prim_func md = Ok f ↔ ∃ n, entry_name md = Some n ∧ md !! n = Some f.
Proof.
  unfold resolve_prim_func, entry_name. rewrite get_global_vars_length.
  destruct (Nat.eqb_spec (size md) 1) as [Hsz|Hsz].
  - destruct (map_size_1_singleton _ Hsz) as (name & g & ->).
    unfold get_global_vars. rewrite map_to_list_singleton. cbn.
    unfold mod_lookup. rewrite lookup_singleton_eq. split.
    + intros [= ->]. exists name. by rewrite lookup_singleton_eq.
    + intros (n & [= <-] & Hn). rewrite lookup_singleton_eq in Hn. by simplify_eq.
  - unfold mod_contains, mod_lookup. case_bool_decide as Hm.
    + destruct Hm as [g Hg]. rewrite Hg. split.
      * intros [= ->]. by exists "main".
      * intros (n & [= <-] & Hn). by simplify_eq.
    + split; [done|]. by intros (n & ? & _).
Qed.

Lemma prim_func_eq (w : World) :
  prim_func w = (resolve_prim_func (prim_func_mod (self w)), w).
Proof. reflexivity. Qed.

(** C2.  The [prim_func] accessor leaves the operator as it is and resolves
    the entry point of the primary module: the one global function of a
    module that has exactly one, whatever its name; otherwise the function
    named "main"; otherwise it raises "Unable to determine primary
    function.", as it does for every module of several functions none of
    which is named "main". *)
Theorem prim_func_resolution (w : World) :
  let md := prim_func_mod (self w) in
  (∀ name f, md = {[ name := f ]} → prim_func w = (Ok f, w))
  ∧ (size md = 1%nat → ∃ name f, md = {[ name := f ]} ∧ prim_func w = (Ok f, w))
  ∧ (∀ f, size md ≠ 1%nat → md !! "main" = Some f → prim_func w = (Ok f, w))
  ∧ (size md ≠ 1%nat → md !! "main" = None →
     prim_func w = (Raise (ValueError "Unable to determine primary function."), w))
  ∧ ((1 < size md)%nat → md !! "main" = None →
     prim_func w = (Raise (ValueError "Unable to determine primary function."), w)).
Proof.
  cbn zeta. rewrite prim_func_eq.
  split; [|split; [|split; [|split]]].
  - intros name f ->. by rewrite resolve_prim_func_singleton.
  - intros Hsz. destruct (map_size_1_singleton _ Hsz) as (name & f & Hmd).
    exists name, f. split; [done|]. by rewrite Hmd, resolve_prim_func_singleton.
  - intros f Hsz Hm. by rewrite (resolve_prim_func_main _ f).
  - intros Hsz Hm. by rewrite resolve_prim_func_ambiguous.
  - intros Hsz Hm. rewrite resolve_prim_func_ambiguous; [done|lia|done].
Qed.

Lemma prim_func_resolution_witness :
  prim_func (sample_world (sample_operator "CUDA" fused_module))
  = (Ok (sample_func 0), sample_world (sample_operator "CUDA" fused_module))
  ∧ prim_func (sample_world (sample_operator "CUDA" two_kernel_module))
    = (Raise (ValueError "Unable to determine primary function."),
       sample_world (sample_operator "CUDA" two_kernel_module)).
Proof.
  split.
  - pose proof (prim_func_resolution
                  (sample_world (sample_operator "CUDA" fused_module)))
      as (Hone & _).
    apply (Hone "fused_dense_relu"). reflexivity.
  - pose proof (prim_func_resolution
                  (sample_world (sample_operator "CUDA" two_kernel_module)))
      as (_ & _ & _ & Hnone & _).
    apply Hnone; [vm_compute; lia|reflexivity].
Defined.

Lemma update_func_eq (f : PrimFunc) (w : World) :
  update_func f w
  = (Ok tt, {| self := set_prim_func_mod (<["main" := f]> (prim_func_mod (self w))) (self w);
               logged := logged w;
               cuda_postproc_registered := cuda_postproc_registered w |}).
Proof. reflexivity. Qed.

Lemma resolve_prim_func_insert_main (md : IRModule) (f : PrimFunc) :
  resolve_prim_func (<["main" := f]> md) = Ok f.
Proof.
  destruct (decide (size (<["main" := f]> md) = 1%nat)) as [Hsz|Hsz].
  - destruct (map_size_1_singleton _ Hsz) as (name & g & Hmd).
    assert (Hm : (<["main" := f]> md) !! "main" = Some f) by apply lookup_insert_eq.
    rewrite Hmd in Hm |- *. apply lookup_singleton_Some in Hm as [-> ->].
    apply resolve_prim_func_singleton.
  - apply resolve_prim_func_main; [done|apply lookup_insert_eq].
Qed.

(** C6, as the code has it.  [update_func f] stores [f] under the name
    "main", and afterwards [f] is the operator's primary definition, whatever
    the module was.  When the old entry point was the function "main", it is
    overwritten and not kept: the module has the same names as before, and
    its other functions are as they were. *)
Theorem update_func_entry (f : PrimFunc) (w : World) :
  let md := prim_func_mod (self w) in
  let w' := (update_func f w).2 in
  let md' := prim_func_mod (self w') in
  (update_func f w).1 = Ok tt
  ∧ prim_func w' = (Ok f, w')
  ∧ md' !! "main" = Some f
  ∧ (entry_name md = Some "main" →
     dom md' = dom md
     ∧ size md' = size md
     ∧ ∀ n, n ≠ "main" → md' !! n = md !! n).
Proof.
  cbn zeta. rewrite update_func_eq. cbn [fst snd].
  rewrite prim_func_eq. cbn [self prim_func_mod set_prim_func_mod].
  split; [done|]. split; [by rewrite resolve_prim_func_insert_main|].
  split; [apply lookup_insert_eq|].
  intros He.
  assert (Hin : is_Some (prim_func_mod (self w) !! "main")).
  { unfold entry_name in He. rewrite get_global_vars_length in He.
    destruct (Nat.eqb_spec (size (prim_func_mod (self w))) 1) as [Hsz|_].
    - destruct (map_size_1_singleton _ Hsz) as (name & g & Hmd).
      rewrite Hmd in He |- *. unfold get_global_vars in He.
      rewrite map_to_list_singleton in He. cbn in He. injection He as ->.
      rewrite lookup_singleton_eq. by eexists.
    - unfold mod_contains in He. by case_bool_decide. }
  split; [|split].
  - rewrite dom_insert_L.
    by apply subseteq_union_1_L, singleton_subseteq_l, elem_of_dom.
  - by apply map_size_insert_Some.
  - intros n Hn. by apply lookup_insert_ne.
Qed.

Lemma update_func_entry_witness :
  entry_name main_module = Some "main"
  ∧ dom (prim_func_mod (self (update_func (sample_func 7)
           (sample_world (sample_operator "CUDA" main_module))).2))
    = dom main_module.
Proof.
  split; [reflexivity|].
  apply (update_func_entry (sample_func 7)
           (sample_world (sample_operator "CUDA" main_module))).
  reflexivity.
Defined.

(** C6, as stated, fails: after [update_func] on an operator whose one
    function is called "fused_dense_relu", that function is still a global
    function of the module, next to the new "main". *)
Lemma update_func_keeps_other_name :
  let w := sample_world (sample_operator "CUDA" fused_module) in
  let w' := (update_func (sample_func 7) w).2 in
  prim_func w = (Ok (sample_func 0), w)
  ∧ prim_func w' = (Ok (sample_func 7), w')
  ∧ prim_func_mod (self w') !! "fused_dense_relu" = Some (sample_func 0)
  ∧ size (prim_func_mod (self w')) = 2%nat.
Proof. cbn zeta. repeat split; vm_compute; reflexivity. Qed.

(** ** Running methods *)

Lemma bind_eq {A B : Type} (m : M A) (k : A → M B) (w : World) :
  (m ≫= k) w = match m w with
               | (Ok a, w') => k a w'
               | (Raise e, w') => (Raise e, w')
               end.
Proof. reflexivity. Qed.

Lemma self_arch_platform_eq (w : World) (a : TileDevice) :
  arch (self w) = Some a → self_arch_platform w = (Ok (arch_platform a), w).
Proof. intros H. unfold self_arch_platform. rewrite bind_eq. cbn. by rewrite H. Qed.

(** ** Attributes that methods leave alone *)

Section Keeps.

Context {B : Type} (attr : Operator → B).

Lemma keeps_ret {A : Type} (a : A) : keeps attr (mret a).
Proof. by intros w. Qed.

Lemma keeps_raise {A : Type} (e : exn) : keeps attr (@raise A e).
Proof. by intros w. Qed.

Lemma keeps_call {A : Type} (r : result A) : keeps attr (call r).
Proof. by intros w. Qed.

Lemma keeps_get_self : keeps attr get_self.
Proof. by intros w. Qed.

Lemma keeps_logger (lvl : LogLevel) (msg : string) : keeps attr (logger lvl msg).
Proof. by intros w. Qed.

Lemma keeps_register : keeps attr register_cuda_postproc.
Proof. by intros w. Qed.

Lemma keeps_set_self (f : Operator → Operator) :
  (∀ o, attr (f o) = attr o) → keeps attr (set_self f).
Proof. intros Hf w. apply Hf. Qed.

Lemma keeps_bind {A A' : Type} (m : M A) (k : A → M A') :
  keeps attr m → (∀ a, keeps attr (k a)) → keeps attr (m ≫= k).
Proof.
  intros Hm Hk w. rewrite bind_eq. specialize (Hm w).
  destruct (m w) as [[a|e] w1]; cbn [snd] in *; [|done].
  by rewrite (Hk a w1).
Qed.

Lemma keeps_try {A : Type} (m : M A) (h : exn → M A) :
  keeps attr m → (∀ e, keeps attr (h e)) → keeps attr (try_except m h).
Proof.
  intros Hm Hh w. unfold try_except. specialize (Hm w).
  destruct (m w) as [[a|e] w1]; cbn [snd] in *; [done|].
  by rewrite (Hh e w1).
Qed.

Lemma keeps_assert (cond : bool) (msg : string) : keeps attr (py_assert cond msg).
Proof. by destruct cond. Qed.

Lemma keeps_for_each {A A' : Type} (f : A → M A') (l : list A) :
  (∀ a, keeps attr (f a)) → keeps attr (for_each f l).
Proof.
  intros Hf. induction l as [|a rest IH]; [apply keeps_ret|].
  cbn [for_each]. apply keeps_bind; [apply Hf|]. intros b.
  apply keeps_bind; [apply IH|]. intros bs. apply keeps_ret.
Qed.

End Keeps.

Create HintDb keeps_db.

(** Decomposes a method into its steps; methods already dealt with are
    found in [keeps_db]. *)
Ltac keeps :=
  repeat first
    [ solve [auto 2 with keeps_db nocore]
    | apply keeps_ret | apply keeps_raise | apply keeps_call | apply keeps_get_self
    | apply keeps_logger | apply keeps_register | apply keeps_assert
    | apply keeps_set_self; solve [auto]
    | apply keeps_bind; [|intros ?]
    | apply keeps_try; [|intros ?]
    | apply keeps_for_each; intros ?
    | progress case_match ].

Section KeepsMethods.

Context {B : Type} (attr : Operator → B) (tc : Toolchain).

Lemma keeps_prim_func : keeps attr prim_func.
Proof. unfold prim_func. keeps. Qed.

Lemma keeps_platform : keeps attr self_arch_platform.
Proof. unfold self_arch_platform. keeps. Qed.

Lemma keeps_device : keeps attr self_arch_device.
Proof. unfold self_arch_device. keeps. Qed.

Lemma keeps_var_warpper (func : PrimFunc) (constraints : gmap string Z) (v : PrimExpr) :
  keeps attr (var_warpper func constraints v).
Proof. unfold var_warpper. keeps. Qed.

Lemma keeps_np_random_uniform (shape : list Z) : keeps attr (np_random_uniform shape).
Proof. unfold np_random_uniform. keeps. Qed.

Hint Resolve keeps_prim_func keeps_platform keeps_device keeps_var_warpper
  keeps_np_random_uniform : keeps_db.

Lemma keeps_get_profile_tensors (constraints : option (gmap string Z)) :
  keeps attr (get_profile_tensors constraints).
Proof. unfold get_profile_tensors. keeps. Qed.

Lemma keeps_get_source_via (build : option Target → M (option RtModule))
    (target : option Target) (kenrel_only : bool) :
  (∀ t, keeps attr (build t)) → keeps attr (get_source_via tc build target kenrel_only).
Proof. intros Hb. unfold get_source_via. keeps; apply Hb. Qed.

(** Building the runtime module. *)

Hypothesis Hartifact : artifact_independent attr.

Lemma keeps_build_runtime_library (target : option Target) :
  keeps attr (_build_runtime_library tc target).
Proof.
  destruct Hartifact as (? & ? & ? & ? & ? & ?).
  unfold _build_runtime_library. keeps.
Qed.

Hint Resolve keeps_build_runtime_library : keeps_db.

Lemma keeps_setup_runtime (target : option Target) (rt : option RtModule) :
  keeps attr (_setup_runtime tc target rt).
Proof.
  destruct Hartifact as (? & ? & ? & ? & ? & ?). unfold _setup_runtime. keeps.
Qed.

Hint Resolve keeps_setup_runtime : keeps_db.

Lemma keeps_build_runtime_module (target : option Target) :
  keeps attr (_build_runtime_module tc target).
Proof. unfold _build_runtime_module. keeps. Qed.

Hint Resolve keeps_build_runtime_module : keeps_db.

Lemma keeps_get_source (target : option Target) (kenrel_only : bool) :
  keeps attr (get_source tc target kenrel_only).
Proof. apply keeps_get_source_via, keeps_build_runtime_module. Qed.

End KeepsMethods.

Lemma optimized_mod_artifact_independent : artifact_independent optimized_mod.
Proof. repeat split; by intros ? []. Qed.

Lemma arch_assignment_independent : assignment_independent arch.
Proof. repeat split; by intros ? []. Qed.

(** ** Messages and failures *)

(** Unfolds the sequencing of a method at the state it is run in. *)
Ltac run :=
  repeat progress
    (cbv beta iota zeta delta
       [mbind M_bind mret M_ret get_self call set_self logger raise
        register_cuda_postproc try_except py_assert];
     cbn [self logged cuda_postproc_registered fst snd
          class_name name target prim_func_mod optimized_mod rt_mod time_evaluator
          torch_func arch dynamic_range pass_context kernel_name_generator lib_code
          wrapper_mod lib self_target
          set_optimized_mod set_prim_func_mod set_rt_mod set_time_evaluator
          set_torch_func set_pass_context set_lib_code set_wrapper_mod set_lib]).

Lemma string_app_assoc (a b c : string) : (a ++ b) ++ c = a ++ (b ++ c).
Proof.
  induction a as [|ch a IH]; [reflexivity|].
  change (String ch ((a ++ b) ++ c) = String ch (a ++ (b ++ c))). by f_equal.
Qed.

Lemma occurs_in_here (x b : string) : occurs_in x (x ++ b).
Proof. by exists "", b. Qed.

Lemma occurs_in_app_r (a s x : string) : occurs_in x s → occurs_in x (a ++ s).
Proof.
  intros (a' & b' & ->). exists (a ++ a'), b'. by rewrite string_app_assoc.
Qed.

Lemma occurs_in_app_l (s b x : string) : occurs_in x s → occurs_in x (s ++ b).
Proof.
  intros (a' & b' & ->). exists a', (b' ++ b). by rewrite !string_app_assoc.
Qed.

(** Finds a part of a message that is a concatenation. *)
Ltac find_part := repeat (apply occurs_in_here || apply occurs_in_app_r).

Lemma occurs_in_build_message (op target hint error : string) :
  let msg := BUILD_RUNTIME_LIBRARY_FAILED_MESSAGE op target hint error in
  occurs_in op msg ∧ occurs_in target msg ∧ occurs_in hint msg ∧ occurs_in error msg.
Proof. cbv zeta. unfold BUILD_RUNTIME_LIBRARY_FAILED_MESSAGE. repeat split; find_part. Qed.

Lemma occurs_in_schedule_message (op target hint error : string) :
  let msg := APPLY_SCHEDULE_FAILED_MESSAGE op target hint error in
  occurs_in op msg ∧ occurs_in target msg ∧ occurs_in hint msg ∧ occurs_in error msg.
Proof. cbv zeta. unfold APPLY_SCHEDULE_FAILED_MESSAGE. repeat split; find_part. Qed.

Lemma prim_func_run (w : World) (func : PrimFunc) :
  resolve_prim_func (prim_func_mod (self w)) = Ok func → prim_func w = (Ok func, w).
Proof. intros H. by rewrite prim_func_eq, H. Qed.

(** C3.  On a profile whose platform is "CUDA", an exception raised while
    the optimized module is built does not leave [_build_runtime_module]:
    the call returns [None], the operator is as before, so that its runtime
    artifact stays absent if it was, and one DEBUG record is logged, which
    names the operator class, the target and the hint "optimized".  On a
    profile of any other platform, an exception raised while the primary
    function is built leaves the call as it is, with the state as before. *)
Theorem build_runtime_module_failure (tc : Toolchain) (target : option Target)
    (w : World) (a : TileDevice) (e : exn) (Harch : arch (self w) = Some a) :
  (∀ om,
     arch_platform a = "CUDA" →
     optimized_mod (self w) = Some om →
     build_module tc om target (build_config (pass_context (self w))) = Raise e →
     let msg := BUILD_RUNTIME_LIBRARY_FAILED_MESSAGE (class_name (self w))
                  (str_of_target target) "optimized" "Failed to build optimized module" in
     let w' := {| self := self w;
                  logged := logged w ++ [{| level := DEBUG; message := msg |}];
                  cuda_postproc_registered := true |} in
     _build_runtime_module tc target w = (Ok None, w')
     ∧ (rt_mod (self w) = None → rt_mod (self w') = None)
     ∧ occurs_in (class_name (self w)) msg
     ∧ occurs_in (str_of_target target) msg
     ∧ occurs_in "optimized" msg)
  ∧ (∀ func,
       arch_platform a ≠ "CUDA" →
       resolve_prim_func (prim_func_mod (self w)) = Ok func →
       build_func tc func target (name (self w)) = Raise e →
       _build_runtime_module tc target w = (Raise e, w)).
Proof.
  split.
  - intros om Hp Hom Hb msg w'. split; [|split; [done|]].
    + unfold _build_runtime_module.
      rewrite bind_eq, (self_arch_platform_eq w a Harch), Hp.
      cbn [String.eqb Ascii.eqb Bool.eqb]. run. rewrite Hom. run. rewrite Hb. run.
      reflexivity.
    + pose proof (occurs_in_build_message (class_name (self w)) (str_of_target target)
                    "optimized" "Failed to build optimized module") as (? & ? & ? & _).
      done.
  - intros func Hp Hf Hb. unfold _build_runtime_module.
    rewrite bind_eq, (self_arch_platform_eq w a Harch).
    apply String.eqb_neq in Hp. rewrite Hp.
    rewrite bind_eq, (prim_func_run w func Hf). run. by rewrite Hb.
Qed.

Ltac run_in H :=
  repeat progress
    (cbv beta iota zeta delta
       [mbind M_bind mret M_ret get_self call set_self logger raise
        register_cuda_postproc try_except py_assert] in H;
     cbn [self logged cuda_postproc_registered fst snd
          class_name name target prim_func_mod optimized_mod rt_mod time_evaluator
          torch_func arch dynamic_range pass_context kernel_name_generator lib_code
          wrapper_mod lib self_target
          set_optimized_mod set_prim_func_mod set_rt_mod set_time_evaluator
          set_torch_func set_pass_context set_lib_code set_wrapper_mod set_lib] in H).

(** A scheduled module is adopted in the last step only: when the steps
    before it raise, the state is as it was. *)
Lemma adopt_scheduled_mod_raise (tc : Toolchain) (scheduled_mod : option IRModule)
    (hint : option Hint) (w w1 : World) (e : exn) :
  _adopt_scheduled_mod tc scheduled_mod hint w = (Raise e, w1) → w1 = w.
Proof.
  unfold _adopt_scheduled_mod, _update_optimized_mod. intros H. run_in H.
  repeat case_match; simplify_eq; done.
Qed.

Lemma apply_default_raise (tc : Toolchain) (target : option Target)
    (w w1 : World) (e : exn) :
  _apply_default tc target w = (Raise e, w1) → w1 = w.
Proof.
  unfold _apply_default, apply_default_schedule. rewrite !bind_eq. intros H. run_in H.
  destruct target as [t|]; run_in H; [|by simplify_eq].
  destruct (apply_schedule_passes tc (prim_func_mod (self w)) t) as [sm|e0];
    [|by simplify_eq].
  by apply adopt_scheduled_mod_raise in H.
Qed.

(** C1.  When the [try] block of [_build_default_module] raises [e], at
    whichever step, the exception does not leave the method: the optimized
    module is set to [None], one WARNING record is logged that names the
    operator class, the target, the hint "default" and [e], and the method
    goes on to [_build_runtime_module] in that state, which leaves the
    optimized module absent however it ends; on a "CUDA" profile the whole
    call then returns normally.  The block raises in particular when
    the pass pipeline raises or returns nothing, when the scheduled module
    has not exactly one global function, when it has no "main", and when the
    kernel name cannot be generated. *)
Theorem build_default_module_schedule_failure (tc : Toolchain)
    (target : option Target) (w : World) :
  (∀ e w1,
     _apply_default tc target w = (Raise e, w1) →
     let msg := APPLY_SCHEDULE_FAILED_MESSAGE (class_name (self w))
                  (str_of_target target) "default" (str_of_exn e) in
     let w2 := {| self := set_optimized_mod None (self w);
                  logged := logged w ++ [{| level := WARNING; message := msg |}];
                  cuda_postproc_registered := cuda_postproc_registered w |} in
     _build_default_module tc target w
     = (_ ← _build_runtime_module tc target; mret tt) w2
     ∧ optimized_mod (self w2) = None
     ∧ occurs_in (class_name (self w)) msg
     ∧ occurs_in (str_of_target target) msg
     ∧ occurs_in "default" msg
     ∧ occurs_in (str_of_exn e) msg
     ∧ (∀ a, arch (self w) = Some a → arch_platform a = "CUDA" →
          _build_default_module tc target w = (Ok tt, w2))
     ∧ optimized_mod (self (_build_default_module tc target w).2) = None)
  ∧ (∀ t, target = Some t →
       let scheduled := apply_schedule_passes tc (prim_func_mod (self w)) t in
       (∀ e, scheduled = Raise e → _apply_default tc target w = (Raise e, w))
       ∧ (scheduled = Ok None → ∃ e, _apply_default tc target w = (Raise e, w))
       ∧ (∀ sm, scheduled = Ok (Some sm) → size sm ≠ 1%nat →
            _apply_default tc target w
            = (Raise (AssertionError
                 "The optimized module should only have one global variable for default schedule."),
               w))
       ∧ (∀ sm, scheduled = Ok (Some sm) → size sm = 1%nat → sm !! "main" = None →
            _apply_default tc target w
            = (Raise (AssertionError
                 "The optimized module should have a function named 'main' for default schedule."),
               w))
       ∧ (∀ sm g e, scheduled = Ok (Some sm) → size sm = 1%nat → is_Some (sm !! "main") →
            kernel_name_generator (self w) = Some g → generate tc g None = Raise e →
            _apply_default tc target w = (Raise e, w))
       ∧ (∀ sm, scheduled = Ok (Some sm) → size sm = 1%nat → is_Some (sm !! "main") →
            kernel_name_generator (self w) = None →
            ∃ e, _apply_default tc target w = (Raise e, w))).
Proof.
  split.
  - intros e w1 Hraise msg w2.
    pose proof (apply_default_raise _ _ _ _ _ Hraise) as ->.
    assert (Hrun : _build_default_module tc target w
                   = (_ ← _build_runtime_module tc target; mret tt) w2).
    { unfold _build_default_module. rewrite bind_eq. unfold try_except at 1.
      rewrite Hraise. run. reflexivity. }
    split; [exact Hrun|]. split; [reflexivity|].
    pose proof (occurs_in_schedule_message (class_name (self w)) (str_of_target target)
                  "default" (str_of_exn e)) as (? & ? & ? & ?).
    do 4 (split; [done|]). split.
    + intros a Ha Hp. rewrite Hrun. unfold _build_runtime_module.
      rewrite !bind_eq, (self_arch_platform_eq w2 a Ha), Hp.
      cbn [String.eqb Ascii.eqb Bool.eqb]. run. reflexivity.
    + rewrite Hrun.
      assert (Hkeep : keeps optimized_mod (_ ← _build_runtime_module tc target; mret tt)).
      { apply keeps_bind; [|intros ?; apply keeps_ret].
        apply keeps_build_runtime_module, optimized_mod_artifact_independent. }
      by rewrite (Hkeep w2).
  - intros t -> scheduled. subst scheduled.
    unfold _apply_default, apply_default_schedule, _adopt_scheduled_mod,
      _update_optimized_mod.
    repeat split.
    + intros e He. run. by rewrite He.
    + intros He. run. rewrite He. by eexists.
    + intros sm He Hsz. run. rewrite He, get_global_vars_length.
      by destruct (Nat.eqb_spec (size sm) 1).
    + intros sm He Hsz Hm. run. rewrite He, get_global_vars_length, Hsz.
      unfold mod_contains. rewrite Hm.
      rewrite bool_decide_eq_false_2; [done|]. by intros [? ?].
    + intros sm g e He Hsz Hm Hg Hgen. run. rewrite He, get_global_vars_length, Hsz.
      unfold mod_contains. rewrite bool_decide_eq_true_2 by done. cbn.
      by rewrite Hg, Hgen.
    + intros sm He Hsz Hm Hg. run. rewrite He, get_global_vars_length, Hsz.
      unfold mod_contains. rewrite bool_decide_eq_true_2 by done. cbn.
      rewrite Hg. by eexists.
Qed.

Lemma build_default_module_schedule_failure_witness :
  let w := sample_world (sample_operator "CUDA" main_module) in
  _apply_default failing_tc (Some gfx942_target) w
  = (Raise (ToolchainError "no schedule rule applies"), w)
  ∧ ∃ w2, _build_default_module failing_tc (Some gfx942_target) w = (Ok tt, w2)
          ∧ optimized_mod (self w2) = None
          ∧ length (logged w2) = 1%nat.
Proof.
  cbn zeta. split; [reflexivity|].
  pose proof (build_default_module_schedule_failure failing_tc (Some gfx942_target)
                (sample_world (sample_operator "CUDA" main_module))) as [Hcatch _].
  specialize (Hcatch (ToolchainError "no schedule rule applies") _ eq_refl).
  cbn zeta in Hcatch. destruct Hcatch as (_ & Hopt & _ & _ & _ & _ & Hcuda & _).
  eexists. split; [|split].
  - apply (Hcuda (ArchOther "CUDA" present_device)); reflexivity.
  - exact Hopt.
  - reflexivity.
Defined.

Lemma build_runtime_module_failure_witness :
  (∃ w', _build_runtime_module failing_tc (Some gfx942_target)
           (sample_world scheduled_operator) = (Ok None, w')
         ∧ rt_mod (self w') = None)
  ∧ _build_runtime_module failing_tc (Some gfx942_target)
      (sample_world (sample_operator "RDNA" main_module))
    = (Raise (ToolchainError "hipcc failed"),
       sample_world (sample_operator "RDNA" main_module)).
Proof.
  split.
  - pose proof (build_runtime_module_failure failing_tc (Some gfx942_target)
                  (sample_world scheduled_operator) (ArchOther "CUDA" present_device)
                  (ToolchainError "nvcc failed") eq_refl) as [Hcuda _].
    specialize (Hcuda main_module eq_refl eq_refl eq_refl). cbn zeta in Hcuda.
    destruct Hcuda as (Hrun & Hrt & _). eexists. split; [exact Hrun|].
    apply Hrt. reflexivity.
  - pose proof (build_runtime_module_failure failing_tc (Some gfx942_target)
                  (sample_world (sample_operator "RDNA" main_module))
                  (ArchOther "RDNA" present_device)
                  (ToolchainError "hipcc failed") eq_refl) as [_ Hother].
    apply (Hother (sample_func 0)); [discriminate|reflexivity|reflexivity].
Defined.

(** C10.  When the fast-tune search returns no best result,
    [apply_fast_tuning] raises an [AttributeError], since it reads the pass
    context of the result before it tests the result for [None]; so does
    [hardware_aware_finetune] for an operator without dynamic range.  Neither
    returns with an absent optimized module, and the state after the call is
    the state before it: the stored optimized module and pass context are
    untouched. *)
Theorem fast_tuning_without_result (tc : Toolchain) (w : World) (func : PrimFunc)
    (topk : Z) (parallel_build : bool) :
  (∀ target,
     fast_tune tc func target topk parallel_build = Ok None →
     apply_fast_tuning tc func target topk parallel_build w
     = (Raise (AttributeError "'NoneType' object has no attribute 'config'"), w))
  ∧ (∀ target,
       let target' := match target with None => self_target (self w) | Some t => Some t end in
       dynamic_range (self w) = None →
       resolve_prim_func (prim_func_mod (self w)) = Ok func →
       fast_tune tc func target' topk parallel_build = Ok None →
       ∃ w', hardware_aware_finetune tc topk target parallel_build w
             = (Raise (AttributeError "'NoneType' object has no attribute 'config'"), w')
             ∧ w' = w
             ∧ optimized_mod (self w') = optimized_mod (self w)
             ∧ pass_context (self w') = pass_context (self w))
  ∧ (∀ target,
       dynamic_range (self w) = None →
       (∀ f t, fast_tune tc f t topk parallel_build = Ok None) →
       ∃ e, hardware_aware_finetune tc topk target parallel_build w = (Raise e, w)).
Proof.
  assert (Hfast : ∀ target,
     fast_tune tc func target topk parallel_build = Ok None →
     apply_fast_tuning tc func target topk parallel_build w
     = (Raise (AttributeError "'NoneType' object has no attribute 'config'"), w)).
  { intros target Hft. unfold apply_fast_tuning. run. by rewrite Hft. }
  split; [exact Hfast|]. split.
  - intros target target' Hdr Hf Hft. exists w. split; [|done].
    unfold hardware_aware_finetune. rewrite bind_eq. unfold get_self at 1.
    rewrite bind_eq, (prim_func_run w func Hf), Hdr.
    rewrite bind_eq. fold target'. rewrite bind_eq, (Hfast target' Hft). reflexivity.
  - intros target Hdr Hnone.
    unfold hardware_aware_finetune, apply_fast_tuning. rewrite bind_eq.
    unfold get_self at 1. rewrite bind_eq, prim_func_eq.
    destruct (resolve_prim_func (prim_func_mod (self w))) as [f|e]; [|by eexists].
    rewrite Hdr. run. rewrite Hnone. by eexists.
Qed.

Lemma fast_tuning_without_result_witness :
  let w := sample_world (sample_operator "CUDA" main_module) in
  hardware_aware_finetune failing_tc 20 None true w
  = (Raise (AttributeError "'NoneType' object has no attribute 'config'"), w).
Proof.
  cbn zeta.
  pose proof (fast_tuning_without_result failing_tc
                (sample_world (sample_operator "CUDA" main_module))
                (sample_func 0) 20 true) as (_ & Hfine & _).
  destruct (Hfine None eq_refl eq_refl eq_refl) as (w' & Hrun & -> & _).
  exact Hrun.
Defined.

(** ** Profiling *)

Lemma fold_left_add_nonneg (values : list Z) (acc : Z) :
  0 ≤ acc → Forall (λ x, 0 ≤ x) values → 0 ≤ fold_left Z.add values acc.
Proof.
  revert acc. induction values as [|x rest IH]; intros acc Hacc Hall; [done|].
  inversion Hall; subst. cbn. apply IH; [lia|done].
Qed.

(** C4.  [var_warpper] resolves a symbolic dimension in this order: the
    caller's constraint for its name, if there is one; else the recorded
    opt shape when that is a single value; else, when it is a list of
    values, their sum divided by their number, rounded down, which for
    extents that are not negative is the truncated mean, and then one INFO
    record is logged that names the dimension and the value used; a recorded
    entry of another type, and a shape element that is neither a variable
    nor an integer, raise a [RuntimeError] that names the type.  The
    candidates 64, 128 and 192 resolve to 128. *)
Theorem var_warpper_priority (func : PrimFunc) (constraints : gmap string Z)
    (v_name : string) (w : World) :
  (∀ c, constraints !! v_name = Some c →
        var_warpper func constraints (Var v_name) w = (Ok c, w))
  ∧ (∀ shapes, constraints !! v_name = None → opt_shapes func = Some shapes →
       (∀ value, shapes !! v_name = Some (OptIntImm value) →
                 var_warpper func constraints (Var v_name) w = (Ok value, w))
       ∧ (∀ values, shapes !! v_name = Some (OptArray values) → values ≠ [] →
            let total := fold_left Z.add values 0 in
            let avg := total `div` Z.of_nat (length values) in
            let msg := "Doesn't provide dynamic symbolic constrains for " ++ v_name
                       ++ " when do benchmarking, use average shape " ++ pretty avg in
            var_warpper func constraints (Var v_name) w
            = (Ok avg, {| self := self w;
                          logged := logged w ++ [{| level := INFO; message := msg |}];
                          cuda_postproc_registered := cuda_postproc_registered w |})
            ∧ occurs_in v_name msg
            ∧ (Forall (λ x, 0 ≤ x) values →
               avg = total `quot` Z.of_nat (length values)))
       ∧ (shapes !! v_name = Some (OptArray [64; 128; 192]) →
          (var_warpper func constraints (Var v_name) w).1 = Ok 128)
       ∧ (∀ type_name, shapes !! v_name = Some (OptOther type_name) →
            var_warpper func constraints (Var v_name) w
            = (Raise (RuntimeError [PStr "Not supported type: "; PType type_name]), w)))
  ∧ (∀ type_name,
       var_warpper func constraints (OtherExpr type_name) w
       = (Raise (RuntimeError [PStr "Not supported type: "; PType type_name]), w)
       ∧ occurs_in type_name
           (str_of_exn (RuntimeError [PStr "Not supported type: "; PType type_name]))).
Proof.
  split; [|split].
  - intros c Hc. unfold var_warpper. by rewrite Hc.
  - intros shapes Hc Hs. unfold var_warpper. rewrite Hc, Hs.
    split; [|split; [|split]].
    + intros value ->. reflexivity.
    + intros values -> Hne. split; [|split].
      * destruct values as [|x rest]; [done|]. reflexivity.
      * find_part.
      * intros Hall. symmetry. apply Z.quot_div_nonneg.
        -- by apply fold_left_add_nonneg.
        -- destruct values; [done|]. cbn. lia.
    + intros ->. reflexivity.
    + intros type_name ->. reflexivity.
  - intros type_name. split; [reflexivity|].
    cbn. apply occurs_in_app_r, occurs_in_app_l. find_part.
Qed.

Lemma var_warpper_priority_witness :
  (var_warpper dynamic_func ∅ (Var "m")
     (sample_world (sample_operator "CUDA" {[ "main" := dynamic_func ]}))).1 = Ok 128.
Proof.
  pose proof (var_warpper_priority dynamic_func ∅ "m"
                (sample_world (sample_operator "CUDA" {[ "main" := dynamic_func ]})))
    as (_ & Hrec & _).
  destruct (Hrec {[ "m" := OptArray [64; 128; 192] ]} eq_refl eq_refl)
    as (_ & _ & Hmean & _).
  apply Hmean. reflexivity.
Defined.

(** ** The executor *)

Section ExecutorFacts.

Context {V S : Type}.
Implicit Types (ops : list (Stage V S)) (op : Stage V S) (x y : V) (s : S).

Lemma forward_loop_runs ops x s :
  match forward_loop ops [x] s with
  | (Ok l, s') => ∃ y, l = [y] ∧ runs ops x s (Ok y) s'
  | (Raise e, s') => runs ops x s (Raise e) s'
  end.
Proof.
  revert x s. induction ops as [|op rest IH]; intros x s; cbn.
  - exists x. split; [done|constructor].
  - destruct (stage_forward op [x] s) as [[out|e] s1] eqn:Hop.
    + specialize (IH out s1). destruct (forward_loop rest [out] s1) as [[l|e] s2].
      * destruct IH as (y & -> & Hruns). exists y. split; [done|].
        by eapply runs_step.
      * by eapply runs_step.
    + by apply runs_raise.
Qed.

Lemma runs_deterministic ops x s r1 s1 r2 s2 :
  runs ops x s r1 s1 → runs ops x s r2 s2 → r1 = r2 ∧ s1 = s2.
Proof.
  intros H1. revert r2 s2. induction H1 as [| op rest x s y s' r s'' Hop _ IH | op rest x s e s' Hop];
    intros r2 s2 H2; inversion H2; subst; try done.
  - apply IH. congruence.
  - congruence.
  - congruence.
  - split; congruence.
Qed.

Lemma forward_runs ops x s :
  runs ops x s (forward {| operators := ops |} x s).1 (forward {| operators := ops |} x s).2.
Proof.
  unfold forward. cbn [operators]. pose proof (forward_loop_runs ops x s) as H.
  destruct (forward_loop ops [x] s) as [[l|e] s']; [|exact H].
  destruct H as (y & -> & H). exact H.
Qed.

Lemma forward_loop_app ops op (inputs : list V) s :
  forward_loop (ops ++ [op]) inputs s
  = match forward_loop ops inputs s with
    | (Ok l, s') => forward_loop [op] l s'
    | (Raise e, s') => (Raise e, s')
    end.
Proof.
  revert inputs s. induction ops as [|o rest IH]; intros inputs s; [reflexivity|].
  cbn [forward_loop app]. destruct (stage_forward o inputs s) as [[out|e] s1]; [|done].
  apply IH.
Qed.

End ExecutorFacts.

(** C5.  On an empty operator list [forward] returns its input, and the
    state, unchanged.  On a list of operators it runs the chain: the first
    operator is called on the input alone, every further operator on the one
    value its predecessor returned, each once and in list order, and what the
    last one returns is returned; an operator that raises ends the run with
    its exception.  The chain has one outcome, which is the one [forward]
    returns.  Appending an operator feeds it the output of the chain so
    far. *)
Theorem executor_forward_chain {V S : Type} (ops : list (Stage V S)) (x : V) (s : S) :
  forward {| operators := [] |} x s = (Ok x, s)
  ∧ runs ops x s (forward {| operators := ops |} x s).1
                 (forward {| operators := ops |} x s).2
  ∧ (∀ r s', runs ops x s r s' → forward {| operators := ops |} x s = (r, s'))
  ∧ (∀ op, forward (append {| operators := ops |} op) x s
           = match forward {| operators := ops |} x s with
             | (Ok y, s') => stage_forward op [y] s'
             | (Raise e, s') => (Raise e, s')
             end).
Proof.
  split; [reflexivity|]. split; [apply forward_runs|]. split.
  - intros r s' Hruns.
    destruct (runs_deterministic _ _ _ _ _ _ _ Hruns (forward_runs ops x s)) as [-> ->].
    by destruct (forward _ x s).
  - intros op. unfold forward, append. cbn [operators]. rewrite forward_loop_app.
    pose proof (forward_loop_runs ops x s) as H.
    destruct (forward_loop ops [x] s) as [[l|e] s']; [|reflexivity].
    destruct H as (y & -> & _). cbn.
    by destruct (stage_forward op [y] s') as [[out|e] s''].
Qed.

Lemma executor_forward_chain_witness :
  forward {| operators := three_stages |} 5 []
  = (Ok 9, [(0%nat, [5]); (1%nat, [6]); (2%nat, [12])]).
Proof.
  pose proof (executor_forward_chain three_stages 5 []) as (_ & _ & Hchain & _).
  apply Hchain.
  eapply runs_step; [reflexivity|].
  eapply runs_step; [reflexivity|].
  eapply runs_step; [reflexivity|].
  apply runs_nil.
Defined.

(** ** The profile of an operator is never replaced *)

Section KeepsArch.

Context (tc : Toolchain).

Let Hartifact : artifact_independent arch := proj1 arch_assignment_independent.

Lemma keeps_update_func (func : PrimFunc) : keeps arch (update_func func).
Proof. unfold update_func. keeps. Qed.

Lemma keeps_adopt_scheduled_mod (scheduled_mod : option IRModule) (hint : option Hint) :
  keeps arch (_adopt_scheduled_mod tc scheduled_mod hint).
Proof. unfold _adopt_scheduled_mod, _update_optimized_mod. keeps. Qed.

Lemma keeps_build_default_module (target : option Target) :
  keeps arch (_build_default_module tc target).
Proof.
  unfold _build_default_module, _apply_default, apply_default_schedule.
  pose proof (keeps_build_runtime_module arch tc Hartifact).
  pose proof keeps_adopt_scheduled_mod. keeps.
Qed.

Lemma keeps_apply_fast_tuning (func : PrimFunc) (target : option Target)
    (topk : Z) (parallel_build : bool) :
  keeps arch (apply_fast_tuning tc func target topk parallel_build).
Proof. unfold apply_fast_tuning. keeps. Qed.

Lemma keeps_hardware_aware_finetune (topk : Z) (target : option Target)
    (parallel_build : bool) :
  keeps arch (hardware_aware_finetune tc topk target parallel_build).
Proof.
  unfold hardware_aware_finetune, apply_fast_tuning_with_dynamic_range.
  pose proof (keeps_build_runtime_module arch tc Hartifact).
  pose proof keeps_adopt_scheduled_mod. pose proof keeps_apply_fast_tuning.
  pose proof (keeps_prim_func arch). keeps.
Qed.

Lemma after_call_arch (c : MethodCall) (w : World) :
  arch (self (after_call tc c w)) = arch (self w).
Proof.
  destruct c; cbn [after_call].
  - apply keeps_prim_func.
  - apply keeps_update_func.
  - by apply keeps_get_source.
  - by apply keeps_build_runtime_module.
  - apply keeps_build_default_module.
  - apply keeps_hardware_aware_finetune.
  - apply keeps_get_profile_tensors.
Qed.

Lemma after_calls_arch (cs : list MethodCall) (w : World) :
  arch (self (after_calls tc cs w)) = arch (self w).
Proof.
  unfold after_calls. revert w. induction cs as [|c rest IH]; intros w; [done|].
  cbn [fold_left]. by rewrite IH, after_call_arch.
Qed.

End KeepsArch.

(** A superscript digit passes [isdigit] and is refused by [int]. *)
Example check_gfx_version_superscript :
  check_gfx_version ("gfx" ++ String (ascii_of_nat 178) "")
  = Raise (ValueError ("invalid literal for int() with base 10: '"
                       ++ String (ascii_of_nat 178) "" ++ "'")).
Proof. reflexivity. Qed.

(** C8.  A runtime-probed profile that was constructed has a shared-memory
    usage budget of exactly twice the shared memory per block probed from
    device 0, which is also its [smem_cap].  An operator that holds the
    profile never replaces it: after any sequence of calls of its methods,
    whether they return or raise, it holds the same profile, and so the same
    budget and capacity. *)
Theorem RDNA_max_smem_usage (Target_of_str : string → result Target) (hip : Z → Device)
    (target : target_arg) (p : RDNA.t)
    (Hinit : RDNA_init Target_of_str hip target = Ok p) :
  RDNA.max_smem_usage p = 2 * max_shared_memory_per_block (hip 0)
  ∧ RDNA.smem_cap p = max_shared_memory_per_block (hip 0)
  ∧ RDNA.device p = hip 0
  ∧ exist (hip 0) = true
  ∧ (∀ tc w cs, arch (self w) = Some (ArchRDNA p) →
       arch (self (after_calls tc cs w)) = Some (ArchRDNA p)).
Proof.
  unfold RDNA_init in Hinit.
  destruct (match target with TargetStr s => _ | TargetHandle t => _ end) as [t|e];
    [|discriminate Hinit]. cbn in Hinit.
  destruct (check_gfx_version (target_arch t)) as [v|e]; [|discriminate Hinit].
  cbn in Hinit. destruct (exist (hip 0)) eqn:Hex; [|discriminate Hinit].
  cbn in Hinit. injection Hinit as <-. cbn. do 4 (split; [done|]).
  intros tc w cs Hw. by rewrite after_calls_arch.
Qed.

Lemma RDNA_max_smem_usage_witness :
  RDNA.max_smem_usage
    {| RDNA.target := gfx942_target; RDNA.gfx_version := 942;
       RDNA.device := present_device; RDNA.platform := "RDNA"; RDNA.smem_cap := 65536;
       RDNA.compute_max_core := 304; RDNA.warp_size := 64;
       RDNA.compute_capability := "94"; RDNA.reg_cap := 32768;
       RDNA.max_smem_usage := 131072; RDNA.sm_partition := 4;
       RDNA.l2_cache_size := 4194304; RDNA.transaction_size := [32; 128];
       RDNA.bandwidth := [1300; 14000] |}
  = 2 * max_shared_memory_per_block (one_device_hip 0).
Proof.
  apply (RDNA_max_smem_usage sample_Target_of_str one_device_hip
           (TargetStr "hip --mcpu=gfx942")).
  reflexivity.
Defined.

(** ** The methods on the sample toolchains *)

(** Inside [_build_runtime_module] the runtime module is present when
    [get_source] is called, and the method that would build it is not
    consulted. *)
Lemma get_source_via_built (tc : Toolchain)
    (build1 build2 : option Target → M (option RtModule))
    (target : option Target) (kenrel_only : bool) (w : World) (rt : RtModule) :
  rt_mod (self w) = Some rt →
  get_source_via tc build1 target kenrel_only w
  = get_source_via tc build2 target kenrel_only w.
Proof. intros Hrt. unfold get_source_via. run. by rewrite Hrt. Qed.

(** The default schedule on a "CUDA" profile, every service succeeding: the
    one function is renamed, the runtime module built and the library
    loaded, and nothing is logged. *)
Example default_build_on_cuda :
  let w' := (_build_default_module working_tc (Some gfx942_target)
               (sample_world (sample_operator "CUDA" main_module))).2 in
  optimized_mod (self w')
  = Some {[ "matmul_kernel" := with_global_symbol (sample_func 0) "matmul_kernel" ]}
  ∧ rt_mod (self w') = Some (RtHandle 1)
  ∧ lib_code (self w') = Some "extern C"
  ∧ lib (self w') = Some (LibHandle 0)
  ∧ logged w' = [].
Proof. cbn zeta. repeat split; vm_compute; reflexivity. Qed.

(** On another platform the primary function is built, and [get_source]
    then reads the source of the runtime module. *)
Example default_build_on_rdna :
  let w' := (_build_default_module working_tc (Some gfx942_target)
               (sample_world (sample_operator "RDNA" main_module))).2 in
  rt_mod (self w') = Some (RtHandle 2)
  ∧ lib (self w') = None
  ∧ (get_source working_tc None false w').1 = Ok (Some "__global__ void main() {}").
Proof. cbn zeta. repeat split; vm_compute; reflexivity. Qed.

(** After a failed default schedule on a platform other than "CUDA",
    [get_source] builds the primary function on demand. *)
Example get_source_after_failed_schedule :
  let tc := {| apply_schedule_passes := apply_schedule_passes failing_tc;
               generate := generate working_tc;
               build_module := build_module working_tc;
               build_func := build_func working_tc;
               make_time_evaluator := make_time_evaluator working_tc;
               to_pytorch_func := to_pytorch_func working_tc;
               imported_source := imported_source working_tc;
               wrap := wrap working_tc;
               compile_lib := compile_lib working_tc;
               load_lib := load_lib working_tc;
               lib_init := lib_init working_tc;
               fast_tune := fast_tune working_tc;
               fast_tune_with_dynamic_range := fast_tune_with_dynamic_range working_tc |} in
  let w' := (_build_default_module tc (Some gfx942_target)
               (sample_world (sample_operator "RDNA" main_module))).2 in
  optimized_mod (self w') = None
  ∧ length (logged w') = 1%nat
  ∧ (get_source tc None false w').1 = Ok (Some "__global__ void main() {}").
Proof. cbn zeta. repeat split; vm_compute; reflexivity. Qed.

(** Tuning with a result stores the pass context of the result and the
    renamed function. *)
Example finetune_on_cuda :
  let w' := (hardware_aware_finetune working_tc 20 None true
               (sample_world (sample_operator "CUDA" fused_module))).2 in
  pass_context (self w') = {[ "tir.merge_static_smem" := PassBool true ]}
  ∧ optimized_mod (self w')
    = Some {[ "matmul_kernel" := with_global_symbol (sample_func 0) "matmul_kernel" ]}
  ∧ rt_mod (self w') = Some (RtHandle 1).
Proof. cbn zeta. repeat split; vm_compute; reflexivity. Qed.

(** The shape of a profiling tensor with a symbolic dimension. *)
Example profile_tensors_of_dynamic_func :
  let w := sample_world (sample_operator "CUDA" {[ "main" := dynamic_func ]}) in
  (get_profile_tensors None w).1
  = Ok [{| tensor_shape := [128; 64]; tensor_dtype := "float16";
           tensor_device := present_device |}]
  ∧ (get_profile_tensors (Some {[ "m" := 7 ]}) w).1
    = Ok [{| tensor_shape := [7; 64]; tensor_dtype := "float16";
             tensor_device := present_device |}]
  ∧ length (logged (get_profile_tensors None w).2) = 1%nat
  ∧ logged (get_profile_tensors (Some {[ "m" := 7 ]}) w).2 = [].
Proof. cbn zeta. repeat split; vm_compute; reflexivity. Qed.

(** * Further properties of the code *)

(** ** The version parser and the probed profile *)

Lemma all_chars_replace_from (p : ascii → bool) (old : string) (k : nat) (s : string) :
  PyStr.all_chars p s = true → PyStr.all_chars p (PyStr.replace_from old "" k s) = true.
Proof.
  revert k. induction s as [|c rest IH]; intros k Hs; [done|].
  cbn [PyStr.all_chars] in Hs. apply andb_true_iff in Hs as [Hc Hr].
  cbn [PyStr.replace_from]. destruct k as [|k]; [|by apply IH].
  destruct (PyStr.startswith (String c rest) old).
  - change ("" ++ ?x) with x. by apply IH.
  - cbn [PyStr.all_chars]. by rewrite Hc, IH.
Qed.

Lemma isdigit_ascii (s : string) :
  is_ascii s = true → PyStr.isdigit s = true → PyStr.is_decimal s = true.
Proof.
  destruct s as [|c0 s0]; [done|]. unfold PyStr.isdigit, PyStr.is_decimal, is_ascii.
  generalize (String c0 s0). clear. intros s. induction s as [|c rest IH]; [done|].
  cbn [PyStr.all_chars]. intros [Ha Hr]%andb_true_iff [Hd Hr']%andb_true_iff.
  rewrite (IH Hr Hr'), andb_true_r.
  unfold PyStr.isdigit_char in Hd. apply orb_true_iff in Hd as [Hd|Hd]; [done|].
  unfold PyStr.is_superscript_digit in Hd. apply Nat.ltb_lt in Ha.
  repeat (apply orb_true_iff in Hd as [Hd|Hd]); apply Nat.eqb_eq in Hd; lia.
Qed.

Lemma replace_from_length (old : string) (k : nat) (s : string) :
  (String.length (PyStr.replace_from old "" k s) ≤ String.length s)%nat.
Proof.
  revert k. induction s as [|c rest IH]; intros k; [done|].
  cbn [PyStr.replace_from String.length]. destruct k as [|k].
  - destruct (PyStr.startswith (String c rest) old).
    + change ("" ++ ?x) with x. specialize (IH (Nat.pred (String.length old))). lia.
    + cbn [String.length]. specialize (IH O). lia.
  - specialize (IH k). lia.
Qed.

(** X1.  Whatever [check_gfx_version] returns is -1 or not negative, so the
    sentinel cannot be taken for a version.  On an architecture string of at
    most 4300 ASCII characters it returns and does not raise; and what it
    raises on any other string is a [ValueError]. *)
Theorem check_gfx_version_range (arch : string) :
  (∀ v, check_gfx_version arch = Ok v → v = -1 ∨ 0 ≤ v)
  ∧ (is_ascii arch = true → (String.length arch ≤ 4300)%nat →
     ∃ v, check_gfx_version arch = Ok v)
  ∧ (∀ e, check_gfx_version arch = Raise e → ∃ msg, e = ValueError msg).
Proof.
  pose proof (check_gfx_version_outcome arch) as Hout.
  split; [|split].
  - intros v Hv. by rewrite Hv in Hout.
  - intros Ha Hlen. unfold check_gfx_version.
    assert (Hr : is_ascii (PyStr.replace arch "gfx" "") = true)
      by by apply all_chars_replace_from.
    destruct (PyStr.isdigit _) eqn:Hi; [|by eexists].
    rewrite int_decimal; [by eexists|by apply isdigit_ascii|].
    etrans; [apply replace_from_length|done].
  - intros e He. by rewrite He in Hout.
Qed.

Lemma check_gfx_version_range_witness :
  is_ascii "gfx1100" = true ∧ ∃ v, check_gfx_version "gfx1100" = Ok v.
Proof.
  pose proof (check_gfx_version_range "gfx1100") as (_ & Hreturns & _).
  split; [reflexivity|]. apply Hreturns; [reflexivity|]. cbn. lia.
Defined.

Lemma replace_dot_absent (s : string) :
  PyStr.contains (PyStr.replace s "." "") "." = false.
Proof.
  unfold PyStr.replace. induction s as [|c rest IH]; [reflexivity|].
  cbn [PyStr.replace_from PyStr.startswith String.length Nat.pred].
  destruct (Ascii.eqb "." c) eqn:Hc.
  - change ("" ++ ?x) with x. exact IH.
  - cbn [PyStr.contains PyStr.startswith]. by rewrite Hc, IH.
Qed.

(** X2.  The fields of a constructed runtime-probed profile agree with
    where they come from: the version is the parse of the architecture of
    the profile's own target, and so -1 or not negative; the L2 size is the
    target's; the device is device 0 and exists; the shared-memory capacity,
    the core count and the warp size are the ones probed from it; and the
    compute capability is the device's compute version without its dots: no
    dot is left in it. *)
Theorem RDNA_init_fields (Target_of_str : string → result Target) (hip : Z → Device)
    (target : target_arg) (p : RDNA.t)
    (Hinit : RDNA_init Target_of_str hip target = Ok p) :
  check_gfx_version (target_arch (RDNA.target p)) = Ok (RDNA.gfx_version p)
  ∧ (RDNA.gfx_version p = -1 ∨ 0 ≤ RDNA.gfx_version p)
  ∧ RDNA.l2_cache_size p = l2_cache_size_bytes (RDNA.target p)
  ∧ RDNA.device p = hip 0
  ∧ exist (RDNA.device p) = true
  ∧ RDNA.smem_cap p = max_shared_memory_per_block (RDNA.device p)
  ∧ RDNA.compute_max_core p = multi_processor_count (RDNA.device p)
  ∧ RDNA.warp_size p = dev_warp_size (RDNA.device p)
  ∧ RDNA.compute_capability p = PyStr.replace (compute_version (RDNA.device p)) "." ""
  ∧ PyStr.contains (RDNA.compute_capability p) "." = false
  ∧ match target with
    | TargetHandle t => RDNA.target p = t
    | TargetStr s => Target_of_str s = Ok (RDNA.target p)
    end.
Proof.
  unfold RDNA_init in Hinit.
  destruct (match target with TargetStr s => _ | TargetHandle t => _ end) as [t|e] eqn:Ht;
    [|discriminate Hinit]. cbn in Hinit.
  destruct (check_gfx_version (target_arch t)) as [v|e] eqn:Hv; [|discriminate Hinit].
  cbn in Hinit. destruct (exist (hip 0)) eqn:Hex; [|discriminate Hinit].
  cbn in Hinit. injection Hinit as <-. cbn.
  split; [done|].
  split; [pose proof (check_gfx_version_outcome (target_arch t)) as Hout;
          by rewrite Hv in Hout|].
  do 7 (split; [done|]). split; [apply replace_dot_absent|].
  destruct target; by simplify_eq.
Qed.

Lemma RDNA_init_fields_witness :
  ∃ p, RDNA_init sample_Target_of_str one_device_hip (TargetStr "hip --mcpu=gfx942") = Ok p
       ∧ RDNA.compute_capability p = "94" ∧ RDNA.gfx_version p = 942.
Proof.
  eexists. split; [reflexivity|].
  pose proof (RDNA_init_fields sample_Target_of_str one_device_hip
                (TargetStr "hip --mcpu=gfx942") _ eq_refl)
    as (_ & _ & _ & _ & _ & _ & _ & _ & Hcc & _).
  split; [exact Hcc|reflexivity].
Defined.

(** ** [TransformKind] *)

(** X4.  The values of [TransformKind] count up from 0 in the order of
    declaration: the member declared at position [i] has value [i].  So the
    lookup by value finds a member again from its value, a value that makes
    a member is that member's value, exactly the integers from 0 to 3 make
    one, and a member declared earlier has the smaller value. *)
Theorem TransformKind_round_trip :
  (∀ i kind, TransformKind_members !! i = Some kind →
             TransformKind_value kind = Z.of_nat i)
  ∧ (∀ kind, kind ∈ TransformKind_members
             ∧ TransformKind_of_value (TransformKind_value kind) = Ok kind)
  ∧ (∀ value kind, TransformKind_of_value value = Ok kind →
                   TransformKind_value kind = value)
  ∧ (∀ value, (∃ kind, TransformKind_of_value value = Ok kind) ↔ 0 ≤ value ≤ 3)
  ∧ (∀ i j k1 k2, TransformKind_members !! i = Some k1 →
                  TransformKind_members !! j = Some k2 →
                  (i < j)%nat ↔ TransformKind_value k1 < TransformKind_value k2).
Proof.
  assert (Hpos : ∀ i kind, TransformKind_members !! i = Some kind →
                           TransformKind_value kind = Z.of_nat i).
  { intros i kind. do 4 (destruct i as [|i]; [by intros [= <-]|]). done. }
  split; [exact Hpos|]. split; [|split; [|split]].
  - intros []; (split; [|reflexivity]); unfold TransformKind_members;
      repeat (first [apply list_elem_of_here | apply list_elem_of_further]).
  - intros value kind. unfold TransformKind_of_value.
    destruct (find _ _) as [kind'|] eqn:Hfind; [|done]. intros [= ->].
    apply find_some in Hfind as [_ Heq]. by apply Z.eqb_eq in Heq.
  - intros value. unfold TransformKind_of_value. split.
    + intros [kind Hkind].
      destruct (find _ _) as [kind'|] eqn:Hfind; [|done].
      apply find_some in Hfind as [_ Heq]. apply Z.eqb_eq in Heq.
      destruct kind'; cbn in Heq; lia.
    + intros Hrange.
      assert (value = 0 ∨ value = 1 ∨ value = 2 ∨ value = 3) as Hv by lia.
      destruct Hv as [Hv|[Hv|[Hv|Hv]]]; subst; by eexists.
  - intros i j k1 k2 H1 H2. rewrite (Hpos _ _ H1), (Hpos _ _ H2). lia.
Qed.

(** ** Scheduling, tuning and building *)

(** X5.  The configuration an optimized module is built under keeps every
    entry of the tuned pass context, also one that sets "tir.use_async_copy"
    or "tir.disable_cse_tir"; these two options are on when the pass context
    does not mention them; and no other option is added. *)
Theorem build_config_lookup (pass_context : gmap string PassValue) (k : string) :
  (∀ v, pass_context !! k = Some v → build_config pass_context !! k = Some v)
  ∧ (pass_context !! k = None →
     (k = "tir.use_async_copy" ∨ k = "tir.disable_cse_tir" →
      build_config pass_context !! k = Some (PassBool true))
     ∧ (k ≠ "tir.use_async_copy" → k ≠ "tir.disable_cse_tir" →
        build_config pass_context !! k = None)).
Proof.
  unfold build_config. split.
  - intros v Hv. by apply lookup_union_Some_l.
  - intros Hk. rewrite lookup_union_r by done. split.
    + intros [->| ->]; reflexivity.
    + intros H1 H2. rewrite !lookup_insert_ne by done. apply lookup_empty.
Qed.

Lemma build_config_lookup_witness :
  build_config {[ "tir.use_async_copy" := PassBool false ]} !! "tir.use_async_copy"
  = Some (PassBool false)
  ∧ build_config {[ "tir.use_async_copy" := PassBool false ]} !! "tir.disable_cse_tir"
    = Some (PassBool true).
Proof.
  split.
  - by apply (build_config_lookup {[ "tir.use_async_copy" := PassBool false ]}
                "tir.use_async_copy").
  - pose proof (build_config_lookup {[ "tir.use_async_copy" := PassBool false ]}
                  "tir.disable_cse_tir") as [_ Hdefault].
    destruct (Hdefault eq_refl) as [Hon _]. apply Hon. by right.
Defined.

(** When a scheduled module is adopted, it is the one function "main",
    stored under the generated kernel name, which is also its global
    symbol. *)
Lemma adopt_scheduled_mod_ok (tc : Toolchain) (scheduled_mod : option IRModule)
    (hint : option Hint) (w w1 : World) :
  _adopt_scheduled_mod tc scheduled_mod hint w = (Ok tt, w1) →
  ∃ main g n,
    scheduled_mod = Some {[ "main" := main ]}
    ∧ kernel_name_generator (self w) = Some g
    ∧ generate tc g hint = Ok n
    ∧ w1 = {| self := set_optimized_mod (Some {[ n := with_global_symbol main n ]}) (self w);
              logged := logged w;
              cuda_postproc_registered := cuda_postproc_registered w |}.
Proof.
  unfold _adopt_scheduled_mod, _update_optimized_mod. intros H. run_in H.
  destruct scheduled_mod as [sm|]; [|done]. run_in H.
  rewrite get_global_vars_length in H.
  destruct (Nat.eqb_spec (size sm) 1) as [Hsz|]; [|done]. run_in H.
  destruct (map_size_1_singleton _ Hsz) as (name & main & ->).
  unfold mod_contains in H. case_bool_decide as Hm; [|done]. run_in H.
  destruct Hm as [x Hx]. apply lookup_singleton_Some in Hx as [-> _].
  destruct (kernel_name_generator (self w)) as [g|] eqn:Hg; run_in H; [|discriminate H].
  destruct (generate tc g hint) as [n|e] eqn:Hn; run_in H; [|discriminate H].
  unfold mod_lookup in H. rewrite lookup_singleton_eq in H. run_in H.
  exists main, g, n. injection H as <-. repeat split; [exact Hn].
Qed.

Lemma pass_context_artifact_independent : artifact_independent pass_context.
Proof. repeat split; by intros ? []. Qed.

(** X6.  After [_build_default_module], however it ended, the optimized
    module is either absent or the one function "main" of the module that
    the default schedule returned for the primary module, stored under the
    kernel name generated without hint, with that name as its global
    symbol. *)
Theorem build_default_module_names_kernel (tc : Toolchain) (target : option Target)
    (w : World) :
  match optimized_mod (self (_build_default_module tc target w).2) with
  | None => True
  | Some md =>
      ∃ t main g n,
        target = Some t
        ∧ apply_schedule_passes tc (prim_func_mod (self w)) t = Ok (Some {[ "main" := main ]})
        ∧ kernel_name_generator (self w) = Some g
        ∧ generate tc g None = Ok n
        ∧ md = {[ n := with_global_symbol main n ]}
        ∧ global_symbol (with_global_symbol main n) = Some n
  end.
Proof.
  assert (Hkeep : keeps optimized_mod (_ ← _build_runtime_module tc target; mret tt)).
  { apply keeps_bind; [|intros ?; apply keeps_ret].
    apply keeps_build_runtime_module, optimized_mod_artifact_independent. }
  unfold _build_default_module. rewrite bind_eq. unfold try_except at 1.
  destruct (_apply_default tc target w) as [[[]|e] w1] eqn:Hrun.
  - rewrite (Hkeep w1).
    unfold _apply_default, apply_default_schedule in Hrun. run_in Hrun.
    destruct target as [t|]; run_in Hrun; [|done].
    destruct (apply_schedule_passes tc (prim_func_mod (self w)) t) as [sm|e] eqn:Hs;
      [|done].
    apply adopt_scheduled_mod_ok in Hrun as (main & g & n & -> & Hg & Hn & ->).
    cbn. by exists t, main, g, n.
  - run. specialize (Hkeep
      {| self := set_optimized_mod None (self w1);
         logged := logged w1 ++
           [{| level := WARNING;
               message := APPLY_SCHEDULE_FAILED_MESSAGE (class_name (self w1))
                            (str_of_target target) "default" (str_of_exn e) |}];
         cuda_postproc_registered := cuda_postproc_registered w1 |}).
    rewrite bind_eq in Hkeep. destruct (_build_runtime_module tc target _) as [[r|e'] w2];
      cbn in Hkeep |- *; by rewrite Hkeep.
Qed.

(** X7.  When [hardware_aware_finetune] returns for an operator without
    dynamic range, the search had a best result whose module was the one
    function "main"; the optimized module is that function under the kernel
    name generated for the best configuration, and the pass context is the
    one of the best configuration. *)
Theorem hardware_aware_finetune_result (tc : Toolchain) (topk : Z)
    (target : option Target) (parallel_build : bool) (w w' : World)
    (Hstatic : dynamic_range (self w) = None)
    (Hreturn : hardware_aware_finetune tc topk target parallel_build w = (Ok tt, w')) :
  let target' := match target with None => self_target (self w) | Some t => Some t end in
  ∃ func best main g n,
    resolve_prim_func (prim_func_mod (self w)) = Ok func
    ∧ fast_tune tc func target' topk parallel_build = Ok (Some best)
    ∧ sch_mod best = {[ "main" := main ]}
    ∧ kernel_name_generator (self w) = Some g
    ∧ generate tc g (Some (config best)) = Ok n
    ∧ optimized_mod (self w') = Some {[ n := with_global_symbol main n ]}
    ∧ pass_context (self w') = hint_pass_context (config best).
Proof.
  intros target'. unfold hardware_aware_finetune in Hreturn.
  rewrite bind_eq in Hreturn. unfold get_self at 1 in Hreturn.
  rewrite bind_eq, prim_func_eq in Hreturn.
  destruct (resolve_prim_func (prim_func_mod (self w))) as [func|e] eqn:Hf; [|done].
  rewrite Hstatic in Hreturn. fold target' in Hreturn.
  rewrite bind_eq in Hreturn.
  destruct ((apply_fast_tuning tc func target' topk parallel_build
             ≫= λ '(scheduled_mod, best_hint), _adopt_scheduled_mod tc scheduled_mod best_hint) w)
    as [[[]|e] w1] eqn:Htune; [|done].
  rewrite bind_eq in Htune. unfold apply_fast_tuning in Htune at 1. run_in Htune.
  destruct (fast_tune tc func target' topk parallel_build) as [[best|]|e] eqn:Hbest;
    run_in Htune; [|done|done].
  apply adopt_scheduled_mod_ok in Htune as (main & g & n & Hm & Hg & Hn & ->).
  cbn in Hg. exists func, best, main, g, n.
  split; [done|]. split; [done|]. split; [by simplify_eq|]. split; [done|].
  split; [done|].
  assert (Hw' : w' = ((_ ← _build_runtime_module tc (self_target (set_optimized_mod
                  (Some {[ n := with_global_symbol main n ]})
                  (set_pass_context (hint_pass_context (config best)) (self w))));
                mret tt)
               {| self := set_optimized_mod (Some {[ n := with_global_symbol main n ]})
                            (set_pass_context (hint_pass_context (config best)) (self w));
                  logged := logged w;
                  cuda_postproc_registered := cuda_postproc_registered w |}).2).
  { run_in Hreturn. rewrite bind_eq.
    destruct (_build_runtime_module tc _ _) as [[r|e] w2]; [|done].
    cbn in Hreturn |- *. by simplify_eq. }
  rewrite Hw'. split.
  - rewrite (keeps_bind optimized_mod _ _
               (keeps_build_runtime_module _ tc optimized_mod_artifact_independent _)
               (λ _, keeps_ret _ tt)). reflexivity.
  - rewrite (keeps_bind pass_context _ _
               (keeps_build_runtime_module _ tc pass_context_artifact_independent _)
               (λ _, keeps_ret _ tt)). reflexivity.
Qed.

Lemma hardware_aware_finetune_result_witness :
  let w := sample_world (sample_operator "CUDA" fused_module) in
  let w' := (hardware_aware_finetune working_tc 20 None true w).2 in
  pass_context (self w') = {[ "tir.merge_static_smem" := PassBool true ]}.
Proof.
  cbn zeta.
  assert (Hreturn : hardware_aware_finetune working_tc 20 None true
                      (sample_world (sample_operator "CUDA" fused_module))
                    = (Ok tt, (hardware_aware_finetune working_tc 20 None true
                                 (sample_world (sample_operator "CUDA" fused_module))).2))
    by (vm_compute; reflexivity).
  destruct (hardware_aware_finetune_result working_tc 20 None true
              (sample_world (sample_operator "CUDA" fused_module)) _ eq_refl Hreturn)
    as (func & best & main & g & n & _ & Hbest & _ & _ & _ & _ & Hpc).
  rewrite Hpc. injection Hbest as <-. reflexivity.
Defined.

(** The library step writes the wrapper's module, the library code and the
    library only, and logs nothing. *)
Lemma build_runtime_library_frame (tc : Toolchain) (target : option Target) (w : World) :
  let w1 := (_build_runtime_library tc target w).2 in
  rt_mod (self w1) = rt_mod (self w)
  ∧ time_evaluator (self w1) = time_evaluator (self w)
  ∧ torch_func (self w1) = torch_func (self w)
  ∧ optimized_mod (self w1) = optimized_mod (self w)
  ∧ logged w1 = logged w
  ∧ cuda_postproc_registered w1 = cuda_postproc_registered w.
Proof.
  cbn zeta. unfold _build_runtime_library, get_source_via, no_rebuild. run.
  repeat (case_match; run); simplify_eq; cbn; repeat split; congruence.
Qed.

(** X8.  On a "CUDA" profile, once the optimized module is built and the
    timing harness and the interop adapter are made, [_build_runtime_module]
    returns the runtime module and has stored all three, whatever happens
    while the library is wrapped, compiled, loaded and initialised.  When
    that block raises [e], exactly one record is added to the log, a DEBUG
    record with "Failed to build runtime library " followed by [str(e)], and
    nothing is raised; when it does not raise, nothing is logged.  The
    operator is left as the block left it. *)
Theorem build_runtime_module_library_failure (tc : Toolchain) (target : option Target)
    (w : World) (a : TileDevice) (device : Device) (om : IRModule) (rt : RtModule)
    (te : TimeEvaluator) (tf : TorchFunc)
    (Harch : arch (self w) = Some a) (Hcuda : arch_platform a = "CUDA")
    (Hdev : arch_device a = Ok device)
    (Hom : optimized_mod (self w) = Some om)
    (Hbuild : build_module tc om target (build_config (pass_context (self w))) = Ok rt)
    (Hte : make_time_evaluator tc rt device 10 = Ok te)
    (Htf : to_pytorch_func tc rt = Ok tf) :
  let w1 := {| self := set_torch_func (Some tf)
                         (set_time_evaluator (Some te) (set_rt_mod (Some rt) (self w)));
               logged := logged w;
               cuda_postproc_registered := true |} in
  let library := _build_runtime_library tc target w1 in
  ∃ w', _build_runtime_module tc target w = (Ok (Some rt), w')
        ∧ rt_mod (self w') = Some rt
        ∧ time_evaluator (self w') = Some te
        ∧ torch_func (self w') = Some tf
        ∧ self w' = self library.2
        ∧ logged w' =
            match library.1 with
            | Ok _ => logged w
            | Raise e =>
                (logged w ++
                   [{| level := DEBUG;
                       message := "Failed to build runtime library " ++ str_of_exn e |}])%list
            end.
Proof.
  intros w1 library.
  assert (Hrun : _build_runtime_module tc target w
                 = match library with
                   | (Ok _, w2) => (Ok (Some rt), w2)
                   | (Raise e, w2) =>
                       (Ok (Some rt),
                        {| self := self w2;
                           logged := (logged w2 ++
                             [{| level := DEBUG;
                                 message := "Failed to build runtime library "
                                            ++ str_of_exn e |}])%list;
                           cuda_postproc_registered := cuda_postproc_registered w2 |})
                   end).
  { unfold _build_runtime_module.
    rewrite bind_eq, (self_arch_platform_eq w a Harch), Hcuda.
    cbn [String.eqb Ascii.eqb Bool.eqb]. run. rewrite Hom. run. rewrite Hbuild. run.
    unfold _setup_runtime, self_arch_device, self_arch_platform. run.
    rewrite Harch. run. rewrite Hdev. run. rewrite Hte. run. rewrite Htf. run.
    rewrite Harch. run. rewrite Hcuda. cbn [String.eqb Ascii.eqb Bool.eqb].
    subst library w1. cbn [set_torch_func set_time_evaluator set_rt_mod].
    by destruct (_build_runtime_library tc target _) as [[[]|e] w2]. }
  pose proof (build_runtime_library_frame tc target w1) as Hframe.
  cbv zeta in Hframe. fold library in Hframe. rewrite Hrun.
  destruct library as [[[]|e] w2]; cbn in Hframe |- *;
    destruct Hframe as (Hrt & Hte' & Htf' & _ & Hlog & _);
    eexists; (split; [reflexivity|]); cbn; rewrite Hrt, Hte', Htf', ?Hlog; done.
Qed.

Lemma build_runtime_module_library_failure_witness :
  logged (_build_runtime_module no_compiler_tc (Some gfx942_target)
            (sample_world scheduled_operator)).2
  = [{| level := DEBUG;
        message := "Failed to build runtime library nvcc: command not found" |}].
Proof.
  edestruct (build_runtime_module_library_failure no_compiler_tc (Some gfx942_target)
               (sample_world scheduled_operator))
    as (w' & Hrun & _ & _ & _ & _ & Hlog); [reflexivity..|].
  rewrite Hrun. exact Hlog.
Defined.

(** X9.  On a profile of a platform other than "CUDA",
    [_build_runtime_module] does nothing with the library or the optimized
    module: the library, its code, the module assigned to the wrapper, the
    optimized module and the pass context are as before, nothing is logged,
    and no post-processing callback is registered, whether the call returns
    or raises. *)
Theorem build_runtime_module_other_platform (tc : Toolchain) (target : option Target)
    (w : World) (a : TileDevice)
    (Harch : arch (self w) = Some a) (Hother : arch_platform a ≠ "CUDA") :
  let w' := (_build_runtime_module tc target w).2 in
  lib (self w') = lib (self w)
  ∧ lib_code (self w') = lib_code (self w)
  ∧ wrapper_mod (self w') = wrapper_mod (self w)
  ∧ optimized_mod (self w') = optimized_mod (self w)
  ∧ pass_context (self w') = pass_context (self w)
  ∧ logged w' = logged w
  ∧ cuda_postproc_registered w' = cuda_postproc_registered w.
Proof.
  cbn zeta. unfold _build_runtime_module.
  rewrite bind_eq, (self_arch_platform_eq w a Harch).
  apply String.eqb_neq in Hother. rewrite Hother.
  rewrite bind_eq, prim_func_eq.
  destruct (resolve_prim_func (prim_func_mod (self w))) as [func|e]; [|done].
  run. destruct (build_func tc func target (name (self w))) as [rt|e]; [|done].
  unfold _setup_runtime, self_arch_device, self_arch_platform. run. rewrite Harch.
  destruct (arch_device a) as [device|e]; run; [|done].
  destruct (make_time_evaluator tc rt device 10) as [te|e]; run; [|done].
  destruct (to_pytorch_func tc rt) as [tf|e]; run; [|done].
  rewrite Harch. run. rewrite Hother. run. done.
Qed.

Lemma build_runtime_module_other_platform_witness :
  let w := sample_world (sample_operator "RDNA" main_module) in
  logged (_build_runtime_module working_tc (Some gfx942_target) w).2 = logged w
  ∧ lib (self (_build_runtime_module working_tc (Some gfx942_target) w).2) = None.
Proof.
  cbn zeta.
  pose proof (build_runtime_module_other_platform working_tc (Some gfx942_target)
                (sample_world (sample_operator "RDNA" main_module))
                (ArchOther "RDNA" present_device) eq_refl) as H.
  destruct H as (Hlib & _ & _ & _ & _ & Hlog & _); [discriminate|].
  split; [exact Hlog|exact Hlib].
Defined.

(** X10.  An operator without hardware profile, as one constructed without
    target is, cannot be built: [_build_runtime_module] raises an
    [AttributeError] before anything is done, so does [get_source] when it
    has to build, and [_build_default_module] ends in the same exception
    after its scheduling attempt. *)
Theorem build_without_profile (tc : Toolchain) (target : option Target) (w : World)
    (Hnone : arch (self w) = None) :
  let e := AttributeError "'NoneType' object has no attribute 'platform'" in
  _build_runtime_module tc target w = (Raise e, w)
  ∧ (rt_mod (self w) = None →
     ∀ kenrel_only, lib_code (self w) = None ∨ kenrel_only = true →
       get_source tc target kenrel_only w = (Raise e, w))
  ∧ (_build_default_module tc target w).1 = Raise e
  ∧ rt_mod (self (_build_default_module tc target w).2) = rt_mod (self w).
Proof.
  cbn zeta.
  assert (Hbuild : ∀ t w0, arch (self w0) = None →
            _build_runtime_module tc t w0
            = (Raise (AttributeError "'NoneType' object has no attribute 'platform'"), w0)).
  { intros t w0 H0. unfold _build_runtime_module, self_arch_platform. run.
    by rewrite H0. }
  split; [by apply Hbuild|]. split; [|split].
  - intros Hrt kenrel_only Hk. unfold get_source, get_source_via. run.
    assert (bool_decide (is_Some (lib_code (self w))) && negb kenrel_only = false) as ->.
    { destruct Hk as [-> | ->]; [done|]. apply andb_false_r. }
    rewrite Hrt. run. by rewrite Hbuild.
  - unfold _build_default_module. rewrite bind_eq. unfold try_except at 1.
    destruct (_apply_default tc target w) as [[[]|e] w1] eqn:Hrun.
    + assert (arch (self w1) = None) as H1.
      { unfold _apply_default, apply_default_schedule in Hrun. run_in Hrun.
        destruct target as [t|]; run_in Hrun; [|done].
        destruct (apply_schedule_passes tc (prim_func_mod (self w)) t); [|done].
        apply adopt_scheduled_mod_ok in Hrun as (? & ? & ? & _ & _ & _ & ->). done. }
      rewrite bind_eq, (Hbuild _ _ H1). reflexivity.
    + apply apply_default_raise in Hrun as ->. run. by rewrite Hbuild.
  - unfold _build_default_module. rewrite bind_eq. unfold try_except at 1.
    destruct (_apply_default tc target w) as [[[]|e] w1] eqn:Hrun.
    + unfold _apply_default, apply_default_schedule in Hrun. run_in Hrun.
      destruct target as [t|]; run_in Hrun; [|done].
      destruct (apply_schedule_passes tc (prim_func_mod (self w)) t); [|done].
      apply adopt_scheduled_mod_ok in Hrun as (? & ? & ? & _ & _ & _ & ->).
      rewrite bind_eq, Hbuild by done. reflexivity.
    + apply apply_default_raise in Hrun as ->. run. by rewrite Hbuild.
Qed.

Lemma build_without_profile_witness :
  get_source working_tc None false (sample_world unprofiled_operator)
  = (Raise (AttributeError "'NoneType' object has no attribute 'platform'"),
     sample_world unprofiled_operator).
Proof.
  pose proof (build_without_profile working_tc None (sample_world unprofiled_operator)
                eq_refl) as (_ & Hsrc & _).
  apply Hsrc; [reflexivity|by left].
Defined.

(** X11.  The kernel source is read from the runtime module that is there:
    once [get_source] with [kenrel_only] has returned a source, every further
    such call, for whatever target, returns the same source and changes
    nothing, without building again. *)
Theorem get_source_kernel_only_again (tc : Toolchain) (target target' : option Target)
    (w w' : World) (src : string)
    (Hfirst : get_source tc target true w = (Ok (Some src), w')) :
  get_source tc target' true w' = (Ok (Some src), w').
Proof.
  unfold get_source, get_source_via in *. run_in Hfirst. run.
  rewrite andb_false_r in *.
  assert (Hrt : ∃ rt, rt_mod (self w') = Some rt ∧ imported_source tc rt = Ok src).
  { destruct (rt_mod (self w)) as [rt|] eqn:Hrt; run_in Hfirst.
    - rewrite Hrt in Hfirst. destruct (imported_source tc rt) eqn:Hs; [|done].
      simplify_eq. eauto.
    - destruct (_build_runtime_module tc _ w) as [[r|e] w1]; [|done]. run_in Hfirst.
      destruct (rt_mod (self w1)) as [rt|] eqn:Hrt1; [|done].
      destruct (imported_source tc rt) eqn:Hs; [|done]. simplify_eq. eauto. }
  destruct Hrt as (rt & Hrt & Hs). rewrite Hrt. run. by rewrite Hrt, Hs.
Qed.

Lemma get_source_kernel_only_again_witness :
  let w' := (get_source working_tc None true
               (sample_world (sample_operator "RDNA" main_module))).2 in
  get_source working_tc (Some gfx90a_target) true w'
  = (Ok (Some "__global__ void main() {}"), w').
Proof.
  cbn zeta.
  apply (get_source_kernel_only_again working_tc None (Some gfx90a_target)
           (sample_world (sample_operator "RDNA" main_module))).
  reflexivity.
Defined.

(** X12.  [get_source] prefers the library code: when there is one and the
    kernel source is not asked for, it is returned and nothing is built or
    changed.  On a "CUDA" profile with neither an optimized nor a runtime
    module, asking for the kernel source, or for any source when there is no
    library code, returns [None] and changes nothing. *)
Theorem get_source_without_build (tc : Toolchain) (target : option Target) (w : World) :
  (∀ code, lib_code (self w) = Some code →
           get_source tc target false w = (Ok (Some code), w))
  ∧ (∀ a kenrel_only,
       arch (self w) = Some a → arch_platform a = "CUDA" →
       optimized_mod (self w) = None → rt_mod (self w) = None →
       lib_code (self w) = None ∨ kenrel_only = true →
       get_source tc target kenrel_only w = (Ok None, w)).
Proof.
  unfold get_source, get_source_via. split.
  - intros code Hc. run. by rewrite Hc.
  - intros a kenrel_only Ha Hp Hom Hrt Hk. run.
    assert (bool_decide (is_Some (lib_code (self w))) && negb kenrel_only = false) as ->.
    { destruct Hk as [-> | ->]; [done|]. apply andb_false_r. }
    rewrite Hrt. run. unfold _build_runtime_module.
    rewrite bind_eq, (self_arch_platform_eq w a Ha), Hp.
    cbn [String.eqb Ascii.eqb Bool.eqb]. run. rewrite Hom. run. by rewrite Hrt.
Qed.

Lemma get_source_without_build_witness :
  get_source failing_tc None false (sample_world (sample_operator "CUDA" main_module))
  = (Ok None, sample_world (sample_operator "CUDA" main_module)).
Proof.
  pose proof (get_source_without_build failing_tc None
                (sample_world (sample_operator "CUDA" main_module))) as [_ Hnone].
  apply (Hnone (ArchOther "CUDA" present_device)); try reflexivity. by left.
Defined.

(** ** What the methods leave of the primary module *)

Section KeepsTuning.

Context {B : Type} (attr : Operator → B) (tc : Toolchain).
Hypothesis Htuning : tuning_independent attr.

Lemma keeps_tuning_adopt (scheduled_mod : option IRModule) (hint : option Hint) :
  keeps attr (_adopt_scheduled_mod tc scheduled_mod hint).
Proof.
  destruct Htuning as (_ & ? & ?).
  unfold _adopt_scheduled_mod, _update_optimized_mod. keeps.
Qed.

Lemma keeps_tuning_build_default_module (target : option Target) :
  keeps attr (_build_default_module tc target).
Proof.
  pose proof keeps_tuning_adopt.
  pose proof (keeps_build_runtime_module attr tc (proj1 Htuning)).
  destruct Htuning as (_ & ? & ?).
  unfold _build_default_module, _apply_default, apply_default_schedule. keeps.
Qed.

Lemma keeps_tuning_apply_fast_tuning (func : PrimFunc) (target : option Target)
    (topk : Z) (parallel_build : bool) :
  keeps attr (apply_fast_tuning tc func target topk parallel_build).
Proof. destruct Htuning as (_ & ? & ?). unfold apply_fast_tuning. keeps. Qed.

Lemma keeps_tuning_finetune (topk : Z) (target : option Target) (parallel_build : bool) :
  keeps attr (hardware_aware_finetune tc topk target parallel_build).
Proof.
  pose proof keeps_tuning_adopt. pose proof keeps_tuning_apply_fast_tuning.
  pose proof (keeps_build_runtime_module attr tc (proj1 Htuning)).
  pose proof (keeps_prim_func attr).
  destruct Htuning as (_ & ? & ?).
  unfold hardware_aware_finetune, apply_fast_tuning_with_dynamic_range. keeps.
Qed.

End KeepsTuning.

Lemma prim_func_mod_tuning_independent : tuning_independent prim_func_mod.
Proof. repeat split; by intros ? []. Qed.

(** Every method but [update_func] leaves the primary module. *)
Lemma after_call_prim_func_mod (tc : Toolchain) (c : MethodCall) (w : World) :
  (∀ func, c ≠ Call_update_func func) →
  prim_func_mod (self (after_call tc c w)) = prim_func_mod (self w).
Proof.
  pose proof prim_func_mod_tuning_independent as Ht. pose proof (proj1 Ht) as Ha.
  intros Hc. destruct c; cbn [after_call].
  - apply keeps_prim_func.
  - by destruct (Hc func).
  - by apply keeps_get_source.
  - by apply keeps_build_runtime_module.
  - by apply keeps_tuning_build_default_module.
  - by apply keeps_tuning_finetune.
  - apply keeps_get_profile_tensors.
Qed.

(** X13.  Scheduling, tuning, building, profiling and reading the source
    never change the primary module: after a sequence of method calls
    without [update_func] it is the module the operator had.  And with
    [update_func] among them too, an operator whose primary function can be
    determined stays one: [prim_func] does not start to fail. *)
Theorem primary_module_preserved (tc : Toolchain) (cs : list MethodCall) (w : World) :
  (Forall (λ c, ∀ func, c ≠ Call_update_func func) cs →
   prim_func_mod (self (after_calls tc cs w)) = prim_func_mod (self w))
  ∧ (has_entry w → has_entry (after_calls tc cs w)).
Proof.
  unfold after_calls. split.
  - intros Hcs. revert w. induction Hcs as [|c rest Hc _ IH]; intros w; [done|].
    cbn [fold_left]. by rewrite IH, after_call_prim_func_mod.
  - revert w. induction cs as [|c rest IH]; intros w Hw; [done|].
    cbn [fold_left]. apply IH. unfold has_entry in *.
    assert (Hcases : (∃ func, c = Call_update_func func)
                     ∨ ∀ func, c ≠ Call_update_func func)
      by (destruct c; first [left; by eexists | right; intros ?; discriminate]).
    destruct Hcases as [[func ->]|Hc].
    + exists func. cbn [after_call]. rewrite update_func_eq. cbn.
      apply resolve_prim_func_insert_main.
    + by rewrite after_call_prim_func_mod.
Qed.

Lemma primary_module_preserved_witness :
  let w := sample_world (sample_operator "CUDA" fused_module) in
  let cs := [Call_build_default_module (Some gfx942_target);
             Call_update_func (sample_func 7);
             Call_hardware_aware_finetune 20 None true;
             Call_get_source None false] in
  has_entry w ∧ has_entry (after_calls working_tc cs w).
Proof.
  cbn zeta.
  assert (Hw : has_entry (sample_world (sample_operator "CUDA" fused_module)))
    by (exists (sample_func 0); reflexivity).
  split; [exact Hw|].
  by apply (primary_module_preserved working_tc).
Defined.

(** ** Construction *)

(** X14.  A constructed operator has a primary function that can be
    determined, and [num_args] is the number of its parameters; one output
    argument is assumed; there is no optimized module, runtime module, timing
    harness, interop adapter, library or dynamic range yet, and the pass
    context is empty; the operator has a hardware profile exactly when it was
    given a target.  When the selected module has several functions, or
    none, and no "main", no operator is constructed, whatever the target;
    and construction raises "Unable to determine primary function." for the
    default target [None] as well as for a target handle or description for
    which the toolchain delivers a hardware profile; the hook for the kernel
    name generator is not consulted. *)
Theorem Operator_init_fresh (Target_of_str : string → result Target) (bd : Builders)
    (cls : OperatorClass) (name : string) (target : option target_arg) :
  (∀ c, Operator_init Target_of_str bd cls name target = Ok c →
     let o := constructed c in
     has_entry (initial_world o)
     ∧ (∃ func, resolve_prim_func (prim_func_mod o) = Ok func
                ∧ num_args c = length (params func))
     ∧ num_output_args c = 1
     ∧ optimized_mod o = None ∧ rt_mod o = None ∧ time_evaluator o = None
     ∧ torch_func o = None ∧ lib o = None ∧ dynamic_range o = None
     ∧ pass_context o = ∅
     ∧ class_name o = cls_name cls
     ∧ (arch o = None ↔ target = None))
  ∧ (∀ md,
       (∀ o, _select_implementation cls o = Ok md) →
       size md ≠ 1%nat → md !! "main" = None →
       (∃ e, Operator_init Target_of_str bd cls name target = Raise e)
       ∧ (match target with
          | None => True
          | Some (TargetHandle t) => ∃ a, get_arch bd t = Ok a
          | Some (TargetStr s) => ∃ t a, Target_of_str s = Ok t ∧ get_arch bd t = Ok a
          end →
          Operator_init Target_of_str bd cls name target
          = Raise (ValueError "Unable to determine primary function."))).
Proof.
  split.
  - intros c Hc. unfold Operator_init in Hc.
    destruct (match target with Some (TargetStr s) => _ | Some (TargetHandle t) => _
              | None => _ end) as [tg|e] eqn:Ht; [|discriminate Hc]. cbn in Hc.
    destruct (_select_implementation cls _) as [md|e]; [|discriminate Hc]. cbn in Hc.
    destruct (match tg with Some t => _ | None => _ end) as [a|e] eqn:Ha;
      [|discriminate Hc]. cbn in Hc.
    destruct (resolve_prim_func md) as [func|e] eqn:Hf; [|discriminate Hc]. cbn in Hc.
    destruct (get_kernel_name_generator cls _) as [g|e]; [|discriminate Hc]. cbn in Hc.
    destruct (LibraryGenerator bd a) as [code|e]; [|discriminate Hc]. cbn in Hc.
    destruct (TIRWrapper bd a) as [wrapped|e]; [|discriminate Hc]. cbn in Hc.
    injection Hc as <-. cbn.
    split; [by exists func|]. split; [by exists func|].
    do 9 (split; [reflexivity|]).
    destruct tg as [t|].
    + cbn in Ha. destruct (get_arch bd t); [|discriminate Ha]. cbn in Ha.
      injection Ha as <-. split; [discriminate|].
      intros ->. discriminate Ht.
    + injection Ha as <-. split; [|reflexivity]. intros _.
      destruct target as [[t|s]|]; [discriminate Ht| |reflexivity].
      cbn in Ht. destruct (Target_of_str s); discriminate Ht.
  - intros md Hsel Hsz Hm. unfold Operator_init. split.
    + destruct (match target with Some (TargetStr s) => _ | Some (TargetHandle t) => _
                | None => _ end) as [tg|e]; [|by eexists]. cbn.
      rewrite Hsel. cbn.
      destruct (match tg with Some t => _ | None => _ end) as [a|e]; [|by eexists].
      cbn. rewrite resolve_prim_func_ambiguous by done. by eexists.
    + destruct target as [[t|s]|].
      * intros [a Ha]. cbn. rewrite Hsel. cbn. rewrite Ha. cbn.
        by rewrite resolve_prim_func_ambiguous.
      * intros (t & a & Ht & Ha). rewrite Ht. cbn. rewrite Hsel. cbn. rewrite Ha. cbn.
        by rewrite resolve_prim_func_ambiguous.
      * intros _. cbn. rewrite Hsel. cbn. by rewrite resolve_prim_func_ambiguous.
Qed.

Lemma Operator_init_fresh_witness :
  ∃ c, Operator_init sample_Target_of_str sample_builders (sample_class fused_module)
         "dense_relu" (Some (TargetStr "hip --mcpu=gfx942")) = Ok c
       ∧ num_args c = 3%nat
       ∧ Operator_init sample_Target_of_str sample_builders
           (sample_class two_kernel_module) "dense_relu"
           (Some (TargetHandle gfx942_target))
         = Raise (ValueError "Unable to determine primary function.").
Proof.
  pose proof (Operator_init_fresh sample_Target_of_str sample_builders
                (sample_class two_kernel_module) "dense_relu"
                (Some (TargetHandle gfx942_target))) as [_ Hfail].
  eexists. split; [reflexivity|]. split; [reflexivity|].
  destruct (Hfail two_kernel_module) as [_ Hraise];
    [reflexivity|vm_compute; lia|reflexivity|].
  apply Hraise. by eexists.
Defined.

(** ** Replacing the primary function *)

(** X15.  Of two calls of [update_func] the later one decides: calling it
    with [f] and then with [g] leaves the same state as calling it with [g]
    alone; and calling it with the function that is "main" already changes
    nothing. *)
Theorem update_func_twice (f g : PrimFunc) (w : World) :
  (update_func g (update_func f w).2).2 = (update_func g w).2
  ∧ (prim_func_mod (self w) !! "main" = Some f → (update_func f w).2 = w).
Proof.
  rewrite !update_func_eq. cbn. split.
  - by rewrite insert_insert_eq.
  - intros Hf. rewrite insert_id by done. by destruct w as [[] ? ?].
Qed.

Lemma update_func_twice_witness :
  (update_func (sample_func 0) (sample_world (sample_operator "CUDA" main_module))).2
  = sample_world (sample_operator "CUDA" main_module).
Proof.
  apply (update_func_twice (sample_func 0) (sample_func 0)). reflexivity.
Defined.

(** ** Tuning over a dynamic range *)

(** X16.  With a dynamic range, [hardware_aware_finetune] takes the module
    the range tuner returns as it is, without the checks and the renaming of
    the other path: the optimized module becomes that result, also when it
    is [None], and the pass context is not touched.  The [parallel_build]
    argument has no effect on this path.  When the tuner raises, the
    exception leaves the method and the state is as before. *)
Theorem hardware_aware_finetune_dynamic (tc : Toolchain) (topk : Z)
    (target : option Target) (parallel_build : bool) (w : World)
    (dr : gmap string (list Z)) (func : PrimFunc)
    (Hdynamic : dynamic_range (self w) = Some dr)
    (Hfunc : resolve_prim_func (prim_func_mod (self w)) = Ok func) :
  let target' := match target with None => self_target (self w) | Some t => Some t end in
  let tuned := fast_tune_with_dynamic_range tc func target' topk true dr
                 (kernel_name_generator (self w)) in
  let w' := (hardware_aware_finetune tc topk target parallel_build w).2 in
  (∀ om, tuned = Ok om →
     optimized_mod (self w') = om ∧ pass_context (self w') = pass_context (self w))
  ∧ (∀ e, tuned = Raise e →
       hardware_aware_finetune tc topk target parallel_build w = (Raise e, w))
  ∧ hardware_aware_finetune tc topk target parallel_build w
    = hardware_aware_finetune tc topk target (negb parallel_build) w.
Proof.
  cbn zeta.
  assert (Hrun : ∀ pb, hardware_aware_finetune tc topk target pb w
    = match fast_tune_with_dynamic_range tc func
              match target with None => self_target (self w) | Some t => Some t end
              topk true dr (kernel_name_generator (self w)) with
      | Ok om =>
          (_ ← _build_runtime_module tc (self_target (self w)); mret tt)
            {| self := set_optimized_mod om (self w); logged := logged w;
               cuda_postproc_registered := cuda_postproc_registered w |}
      | Raise e => (Raise e, w)
      end).
  { intros pb. unfold hardware_aware_finetune. rewrite bind_eq. unfold get_self at 1.
    rewrite bind_eq, (prim_func_run w func Hfunc), Hdynamic.
    unfold apply_fast_tuning_with_dynamic_range. run.
    destruct (fast_tune_with_dynamic_range _ _ _ _ _ _ _) as [om|e]; run; reflexivity. }
  split; [|split].
  - intros om Hom. rewrite Hrun, Hom. split.
    + rewrite (keeps_bind optimized_mod _ _
                 (keeps_build_runtime_module _ tc optimized_mod_artifact_independent _)
                 (λ _, keeps_ret _ tt)). reflexivity.
    + rewrite (keeps_bind pass_context _ _
                 (keeps_build_runtime_module _ tc pass_context_artifact_independent _)
                 (λ _, keeps_ret _ tt)). reflexivity.
  - intros e He. by rewrite Hrun, He.
  - by rewrite !Hrun.
Qed.

Lemma hardware_aware_finetune_dynamic_witness :
  optimized_mod (self (hardware_aware_finetune working_tc 20 None false
                         (sample_world dynamic_operator)).2)
  = Some {[ "main" := dynamic_func ]}.
Proof.
  pose proof (hardware_aware_finetune_dynamic working_tc 20 None false
                (sample_world dynamic_operator) {[ "m" := [64; 128; 192] ]}
                dynamic_func eq_refl eq_refl) as [Hok _].
  by apply Hok.
Defined.

(** ** Where a build on a "CUDA" profile can fail *)

Lemma build_runtime_module_cuda_raise (tc : Toolchain) (target : option Target)
    (w : World) (a : TileDevice) (e : exn) :
  arch (self w) = Some a → arch_platform a = "CUDA" →
  (_build_runtime_module tc target w).1 = Raise e →
  arch_device a = Raise e
  ∨ ∃ rt, (∃ device, make_time_evaluator tc rt device 10 = Raise e)
          ∨ to_pytorch_func tc rt = Raise e.
Proof.
  intros Harch Hcuda. unfold _build_runtime_module.
  rewrite bind_eq, (self_arch_platform_eq w a Harch), Hcuda.
  cbn [String.eqb Ascii.eqb Bool.eqb]. run.
  destruct (optimized_mod (self w)) as [om|]; run; [|discriminate].
  destruct (build_module tc om target _) as [rt|e0]; run; [|discriminate].
  unfold _setup_runtime, self_arch_device, self_arch_platform. run. rewrite Harch. run.
  destruct (arch_device a) as [device|e1] eqn:Hdev; run; [|intros [= ->]; by left].
  destruct (make_time_evaluator tc rt device 10) as [te|e1] eqn:Hte; run;
    [|intros [= ->]; right; exists rt; left; by exists device].
  destruct (to_pytorch_func tc rt) as [tf|e1] eqn:Htf; run;
    [|intros [= ->]; right; exists rt; by right].
  rewrite Harch. run. rewrite Hcuda. cbn [String.eqb Ascii.eqb Bool.eqb].
  match goal with
  | |- context [_build_runtime_library tc target ?w3] =>
      destruct (_build_runtime_library tc target w3) as [[[]|e1] w4]
  end; discriminate.
Qed.

(** X17.  On a "CUDA" profile a build raises only where the timing harness
    and the interop adapter are made: an exception that leaves
    [_build_runtime_module] or [_build_default_module] was raised by reading
    the device of the profile, by [time_evaluator] or by [to_pytorch_func];
    scheduling, building the optimized module and building the library
    never raise out of them. *)
Theorem build_on_cuda_raises_in_harness (tc : Toolchain) (target : option Target)
    (w : World) (a : TileDevice) (e : exn)
    (Harch : arch (self w) = Some a) (Hcuda : arch_platform a = "CUDA") :
  let harness_raises :=
    arch_device a = Raise e
    ∨ ∃ rt, (∃ device, make_time_evaluator tc rt device 10 = Raise e)
            ∨ to_pytorch_func tc rt = Raise e in
  ((_build_runtime_module tc target w).1 = Raise e → harness_raises)
  ∧ ((_build_default_module tc target w).1 = Raise e → harness_raises).
Proof.
  cbn zeta. split; [by apply build_runtime_module_cuda_raise|].
  unfold _build_default_module. rewrite bind_eq.
  assert (Hblock : ∃ w2, try_except (_apply_default tc target)
    (λ apply_schedule_error,
       _ ← set_self (set_optimized_mod None);
       o ← get_self;
       logger WARNING
         (APPLY_SCHEDULE_FAILED_MESSAGE (class_name o) (str_of_target target)
            "default" (str_of_exn apply_schedule_error))) w = (Ok tt, w2)
       ∧ arch (self w2) = Some a).
  { unfold try_except. destruct (_apply_default tc target w) as [[[]|e0] w1] eqn:Hrun.
    - exists w1. split; [done|].
      unfold _apply_default, apply_default_schedule in Hrun. run_in Hrun.
      destruct target as [t|]; run_in Hrun; [|discriminate Hrun].
      destruct (apply_schedule_passes tc (prim_func_mod (self w)) t);
        [|discriminate Hrun].
      apply adopt_scheduled_mod_ok in Hrun as (? & ? & ? & _ & _ & _ & ->). exact Harch.
    - apply apply_default_raise in Hrun as ->. run. eexists. split; [reflexivity|].
      exact Harch. }
  destruct Hblock as (w2 & -> & Harch2). rewrite bind_eq.
  intros Hraise. apply (build_runtime_module_cuda_raise tc target w2 a e Harch2 Hcuda).
  destruct (_build_runtime_module tc target w2) as [[r|e1] w3]; [discriminate Hraise|].
  cbn in Hraise |- *. by injection Hraise as ->.
Qed.

Lemma build_on_cuda_raises_in_harness_witness :
  (_build_default_module no_harness_tc (Some gfx942_target)
     (sample_world (sample_operator "CUDA" main_module))).1
  = Raise (ToolchainError "no device")
  ∧ ∃ rt device,
      make_time_evaluator no_harness_tc rt device 10 = Raise (ToolchainError "no device").
Proof.
  split; [reflexivity|].
  pose proof (build_on_cuda_raises_in_harness no_harness_tc (Some gfx942_target)
                (sample_world (sample_operator "CUDA" main_module))
                (ArchOther "CUDA" present_device) (ToolchainError "no device")
                eq_refl eq_refl) as [_ Hdefault].
  destruct (Hdefault eq_refl) as [Hd|(rt & [(device & Hte)|Htf])];
    [discriminate Hd| |discriminate Htf].
  exists rt, device. exact Hte.
Defined.

(** ** Binding a precompiled runtime module *)

(** X18.  [update_runtime_module] replaces the runtime module first and does
    not undo that when a later step raises; it never touches the optimized
    module, the library code, the primary module or the pass context.  So
    afterwards the kernel source is read from the new runtime module without
    any build, while the full source is still the library code of before,
    when there was one. *)
Theorem update_runtime_module_source (tc : Toolchain) (ld : Loader) (rt : RtModule)
    (srcpath libpath : option string) (w : World) :
  let w' := (update_runtime_module tc ld rt srcpath libpath w).2 in
  rt_mod (self w') = Some rt
  ∧ optimized_mod (self w') = optimized_mod (self w)
  ∧ lib_code (self w') = lib_code (self w)
  ∧ prim_func_mod (self w') = prim_func_mod (self w)
  ∧ pass_context (self w') = pass_context (self w)
  ∧ (∀ target, get_source tc target true w'
               = (src ← imported_source tc rt; Ok (Some src), w'))
  ∧ (∀ target code, lib_code (self w) = Some code →
                    get_source tc target false w' = (Ok (Some code), w')).
Proof.
  cbn zeta.
  assert (Hframe : let w' := (update_runtime_module tc ld rt srcpath libpath w).2 in
            rt_mod (self w') = Some rt
            ∧ optimized_mod (self w') = optimized_mod (self w)
            ∧ lib_code (self w') = lib_code (self w)
            ∧ prim_func_mod (self w') = prim_func_mod (self w)
            ∧ pass_context (self w') = pass_context (self w)).
  { cbn zeta. unfold update_runtime_module, self_arch_device. run.
    repeat (case_match; run); simplify_eq; cbn; repeat split; reflexivity. }
  cbn zeta in Hframe. destruct Hframe as (Hrt & Hom & Hcode & Hmd & Hpc).
  do 5 (split; [assumption|]). split.
  - intros target. unfold get_source, get_source_via. run.
    rewrite andb_false_r, Hrt. run. rewrite Hrt.
    by destruct (imported_source tc rt).
  - intros target code Hc. unfold get_source, get_source_via. run.
    by rewrite Hcode, Hc.
Qed.

Lemma update_runtime_module_source_witness :
  let w := sample_world (set_lib_code (Some "extern C") (sample_operator "CUDA" main_module)) in
  let w' := (update_runtime_module working_tc working_loader (RtHandle 9)
               (Some "/tmp/k.cu") (Some "/tmp/k.so") w).2 in
  get_source working_tc None false w' = (Ok (Some "extern C"), w').
Proof.
  cbn zeta.
  pose proof (update_runtime_module_source working_tc working_loader (RtHandle 9)
                (Some "/tmp/k.cu") (Some "/tmp/k.so")
                (sample_world (set_lib_code (Some "extern C")
                                 (sample_operator "CUDA" main_module))))
    as (_ & _ & _ & _ & _ & _ & Hstale).
  by apply Hstale.
Defined.

(** ** Calling an operator *)

Section InvocationFacts.

Context {V S : Type}.
Variable torch_call : TorchFunc → list V → S → result unit * S.
Variable lib_call : Lib → list CArg → S → result unit * S.

Lemma forward_loop_operators (os : list Operator) (x : V) (s s' : S) (l : list V) :
  forward_loop (map (operator_stage torch_call) os) [x] s = (Ok l, s') → l = [x].
Proof.
  revert s. induction os as [|o rest IH]; intros s; cbn [map forward_loop].
  - by intros [= <- _].
  - cbn [operator_stage stage_forward]. unfold Operator_forward, _forward_from_torch_func.
    destruct (torch_func o) as [f|]; [|discriminate].
    destruct (torch_call f [x] s) as [[[]|e] s1]; [|discriminate].
    cbn [last]. apply IH.
Qed.

(** X19.  [forward], and so calling the operator, returns its last
    argument, after the kernel has run on all of them; without arguments the
    kernel is still called and then an [IndexError] is raised; an operator
    that was never built raises the [AttributeError] of the missing
    attribute, which names the operator's class, and calls nothing.  An
    executor whose stages are such operators therefore returns the very value
    it was given, whenever it returns. *)
Theorem operator_forward_returns_last (o : Operator) (args : list V) (s : S) :
  Operator_call torch_call o args s = Operator_forward torch_call o args s
  ∧ (∀ y s', Operator_forward torch_call o args s = (Ok y, s') →
       last args = Some y
       ∧ ∃ f, torch_func o = Some f ∧ torch_call f args s = (Ok tt, s'))
  ∧ (∀ f s', torch_func o = Some f → torch_call f [] s = (Ok tt, s') →
       Operator_forward torch_call o [] s
       = (Raise (IndexError "tuple index out of range"), s'))
  ∧ (torch_func o = None →
     Operator_forward torch_call o args s
     = (Raise (AttributeError
                 ("'" ++ class_name o ++ "' object has no attribute 'torch_func'")), s))
  ∧ (∀ os x y s',
       forward {| operators := map (operator_stage torch_call) os |} x s = (Ok y, s') →
       y = x).
Proof.
  unfold Operator_call, Operator_forward, _forward_from_torch_func.
  split; [reflexivity|]. split; [|split; [|split]].
  - intros y s' H. destruct (torch_func o) as [f|]; [|discriminate H].
    destruct (torch_call f args s) as [[[]|e] s1] eqn:Hcall; [|discriminate H].
    destruct (last args) as [out|]; [|discriminate H]. injection H as <- <-.
    split; [reflexivity|]. by exists f.
  - intros f s' Hf Hcall. by rewrite Hf, Hcall.
  - intros Hf. by rewrite Hf.
  - intros os x y s' H. unfold forward in H. cbn [operators] in H.
    destruct (forward_loop _ [x] s) as [[l|e] s1] eqn:Hloop; [|discriminate H].
    apply forward_loop_operators in Hloop as ->. cbn in H. by injection H as <-.
Qed.

Lemma to_ctypes_all_length (args : list HostArg) (cs : list CArg) :
  to_ctypes_all args = Ok cs → length cs = length args.
Proof.
  revert cs. induction args as [|arr rest IH]; intros cs; cbn [to_ctypes_all].
  - by intros [= <-].
  - destruct (to_ctypes arr) as [c|e]; [|discriminate]. cbn.
    destruct (to_ctypes_all rest) as [cs'|e]; [|discriminate]. cbn.
    intros [= <-]. cbn. by rewrite (IH cs').
Qed.

Lemma to_ctypes_all_raise (before : list HostArg) (type_name : string)
    (after : list HostArg) :
  Forall (λ arr, ∀ t, arr ≠ ObjectArg t) before →
  to_ctypes_all (before ++ ObjectArg type_name :: after)
  = Raise (AttributeError ("'" ++ type_name ++ "' object has no attribute 'data_ptr'")).
Proof.
  induction 1 as [|arr rest Harr _ IH]; [reflexivity|].
  cbn [app to_ctypes_all]. destruct arr as [z|p|ty]; cbn; [| |by destruct (Harr ty)];
    by rewrite IH.
Qed.

Lemma first_object_arg (args : list HostArg) (type_name : string) :
  ObjectArg type_name ∈ args →
  ∃ before first after,
    args = (before ++ ObjectArg first :: after)%list
    ∧ Forall (λ arr, ∀ t, arr ≠ ObjectArg t) before.
Proof.
  induction args as [|arr rest IH]; [by intros ?%elem_of_nil|].
  intros Hin. destruct arr as [z|p|ty].
  - apply elem_of_cons in Hin as [?|Hin]; [done|].
    destruct (IH Hin) as (before & first & after & -> & Hb).
    exists (IntArg z :: before), first, after. split; [done|]. by constructor.
  - apply elem_of_cons in Hin as [?|Hin]; [done|].
    destruct (IH Hin) as (before & first & after & -> & Hb).
    exists (ArrayArg p :: before), first, after. split; [done|]. by constructor.
  - by exists [], ty, rest.
Qed.

(** X20.  [_forward_from_prebuild_lib] is [call_lib] on the converted
    arguments: integers are passed as they are and arrays as a pointer
    holding their data pointer modulo 2^64, one argument for each, in order,
    with the stream pointer added as the last argument.  The first argument
    that is neither an integer nor has a data pointer decides the outcome:
    the [AttributeError] naming its type is raised and the library is not
    called.  With no library loaded [call_lib] raises an
    [AttributeError]. *)
Theorem forward_from_prebuild_lib_calls (o : Operator) (args : list HostArg)
    (stream : Z) (s : S) :
  (∀ cs, to_ctypes_all args = Ok cs →
     _forward_from_prebuild_lib lib_call o args stream s = call_lib lib_call o cs stream s
     ∧ length cs = length args
     ∧ ∀ i, cs !! i = match args !! i with
                      | Some (IntArg z) => Some (PyInt z)
                      | Some (ArrayArg p) => Some (VoidPtr (p `mod` 2 ^ 64))
                      | _ => None
                      end)
  ∧ (∀ l cs, lib o = Some l →
       call_lib lib_call o cs stream s
       = lib_call l (cs ++ [VoidPtr (stream `mod` 2 ^ 64)]) s)
  ∧ (∀ before type_name after,
       args = (before ++ ObjectArg type_name :: after)%list →
       Forall (λ arr, ∀ t, arr ≠ ObjectArg t) before →
       _forward_from_prebuild_lib lib_call o args stream s
       = (Raise (AttributeError
                   ("'" ++ type_name ++ "' object has no attribute 'data_ptr'")), s))
  ∧ (∀ type_name, ObjectArg type_name ∈ args →
       ∃ first, ObjectArg first ∈ args
         ∧ _forward_from_prebuild_lib lib_call o args stream s
           = (Raise (AttributeError
                       ("'" ++ first ++ "' object has no attribute 'data_ptr'")), s))
  ∧ (lib o = None →
     ∀ cs, call_lib lib_call o cs stream s
           = (Raise (AttributeError "'NoneType' object has no attribute 'call'"), s)).
Proof.
  unfold _forward_from_prebuild_lib, call_lib, self_lib_call.
  split; [|split; [|split; [|split]]].
  - intros cs Hcs. rewrite Hcs. split; [reflexivity|].
    split; [by apply to_ctypes_all_length|].
    revert cs Hcs. induction args as [|arr rest IH]; intros cs; cbn [to_ctypes_all].
    + intros [= <-] i. by destruct i.
    + destruct arr as [z|p|ty]; cbn; [| |discriminate];
        (destruct (to_ctypes_all rest) as [cs'|e]; [|discriminate]); cbn;
        intros [= <-] [|i]; cbn; try reflexivity; by apply IH.
  - intros l cs Hl. by rewrite Hl.
  - intros before type_name after -> Hbefore.
    by rewrite (to_ctypes_all_raise before type_name after Hbefore).
  - intros type_name Hin.
    destruct (first_object_arg args type_name Hin) as (before & first & after & -> & Hb).
    exists first. split.
    + apply elem_of_app. right. apply list_elem_of_here.
    + by rewrite (to_ctypes_all_raise before first after Hb).
  - intros Hl cs. by rewrite Hl.
Qed.

End InvocationFacts.

Lemma operator_forward_returns_last_witness :
  Operator_forward recording_torch_call built_operator [1; 42] [] = (Ok 42, [[1; 42]])
  ∧ torch_func built_operator = Some (TorchFuncOf (RtHandle 1))
  ∧ (∀ y s', forward {| operators := map (operator_stage recording_torch_call)
                                       [built_operator; built_operator] |} 42 []
             = (Ok y, s') → y = 42).
Proof.
  pose proof (operator_forward_returns_last recording_torch_call built_operator [1; 42] [])
    as (_ & Hlast & _ & _ & Hexec).
  split; [reflexivity|]. split.
  - destruct (Hlast 42 [[1; 42]] eq_refl) as (_ & f & Hf & _). reflexivity.
  - intros y s'. apply Hexec.
Defined.

Lemma forward_from_prebuild_lib_calls_witness :
  _forward_from_prebuild_lib recording_lib_call built_operator
    [ArrayArg 4096; IntArg 128] 0 []
  = (Ok tt, [[VoidPtr 4096; PyInt 128; VoidPtr 0]]).
Proof.
  pose proof (forward_from_prebuild_lib_calls recording_lib_call built_operator
                [ArrayArg 4096; IntArg 128] 0 []) as (Hconv & Hcall & _).
  destruct (Hconv [VoidPtr 4096; PyInt 128] eq_refl) as (-> & _).
  by rewrite (Hcall (LibHandle 0)).
Defined.

(** ** Profiling tensors *)

Lemma fold_left_add_acc (values : list Z) (acc : Z) :
  fold_left Z.add values acc = acc + fold_left Z.add values 0.
Proof.
  revert acc. induction values as [|x rest IH]; intros acc; cbn; [lia|].
  rewrite (IH (acc + x)), (IH (0 + x)). lia.
Qed.

Lemma fold_left_add_bounds (values : list Z) (lo hi : Z) :
  Forall (λ x, lo ≤ x ≤ hi) values →
  Z.of_nat (length values) * lo ≤ fold_left Z.add values 0
  ≤ Z.of_nat (length values) * hi.
Proof.
  induction 1 as [|x rest Hx _ IH]; [cbn; lia|].
  cbn [fold_left length]. rewrite fold_left_add_acc. lia.
Qed.

(** X21.  When the extent of a symbolic dimension is averaged from the
    recorded candidates, it lies between the smallest and the largest of
    them: for candidates that all lie between [lo] and [hi], so does the
    extent [var_warpper] returns. *)
Theorem var_warpper_average_bounds (func : PrimFunc) (constraints : gmap string Z)
    (v_name : string) (w : World) (shapes : gmap string ShapeEntry) (values : list Z)
    (lo hi : Z)
    (Hfree : constraints !! v_name = None)
    (Hshapes : opt_shapes func = Some shapes)
    (Hentry : shapes !! v_name = Some (OptArray values))
    (Hne : values ≠ [])
    (Hbounds : Forall (λ x, lo ≤ x ≤ hi) values) :
  ∃ avg, (var_warpper func constraints (Var v_name) w).1 = Ok avg ∧ lo ≤ avg ≤ hi.
Proof.
  unfold var_warpper. rewrite Hfree, Hshapes, Hentry.
  destruct values as [|x rest]; [done|]. run.
  change (length (x :: rest) =? 0)%nat with false. run.
  eexists. split; [reflexivity|].
  pose proof (fold_left_add_bounds _ _ _ Hbounds) as [Hlo Hhi].
  set (n := Z.of_nat (length (x :: rest))) in *.
  assert (0 < n) by (subst n; cbn; lia). split.
  - apply Z.div_le_lower_bound; [done|lia].
  - apply Z.div_le_upper_bound; [done|lia].
Qed.

Lemma var_warpper_average_bounds_witness :
  ∃ avg, (var_warpper dynamic_func ∅ (Var "m")
            (sample_world (sample_operator "CUDA" {[ "main" := dynamic_func ]}))).1 = Ok avg
         ∧ 64 ≤ avg ≤ 192.
Proof.
  apply (var_warpper_average_bounds dynamic_func ∅ "m" _
           {[ "m" := OptArray [64; 128; 192] ]} [64; 128; 192]); try reflexivity.
  - discriminate.
  - repeat constructor; lia.
Defined.

Lemma for_each_Forall2 {A B : Type} (f : A → M B) (R : B → A → Prop) (l : list A) :
  (∀ a w b w1, f a w = (Ok b, w1) → R b a) →
  ∀ w bs w1, for_each f l w = (Ok bs, w1) → Forall2 R bs l.
Proof.
  intros Hf. induction l as [|a rest IH]; intros w bs w1; cbn [for_each].
  - intros [= <- _]. constructor.
  - rewrite bind_eq. destruct (f a w) as [[b|e] w2] eqn:Ha; [|discriminate].
    rewrite bind_eq. destruct (for_each f rest w2) as [[bs'|e] w3] eqn:Hrest;
      [|discriminate].
    intros [= <- _]. constructor; [by eapply Hf|by eapply IH].
Qed.

Lemma var_warpper_resolves (func : PrimFunc) (constraints : gmap string Z)
    (v : PrimExpr) (w w1 : World) (extent : Z) :
  var_warpper func constraints v w = (Ok extent, w1) → resolves_to constraints extent v.
Proof.
  destruct v as [v_name|value|type_name]; cbn; [|by intros [= <- _]|discriminate].
  destruct (constraints !! v_name) as [c|]; [|by intros _ c [=]].
  by intros [= <- _] c' [= <-].
Qed.

(** X22.  When [get_profile_tensors] returns, there is one tensor for each
    parameter that is bound to a buffer, in the order of the parameters;
    parameters without buffer are skipped.  Each tensor has the buffer's
    dtype, mapped to its numpy name, lives on the device of the profile, and
    has one extent for each dimension of the buffer: the integer itself for
    a fixed dimension, the caller's constraint for a symbolic one that has a
    constraint.  No extent is negative.  The operator is not changed. *)
Theorem get_profile_tensors_shapes (constraints : option (gmap string Z))
    (w w' : World) (ts : list Tensor)
    (Hreturn : get_profile_tensors constraints w = (Ok ts, w')) :
  ∃ func a device,
    resolve_prim_func (prim_func_mod (self w)) = Ok func
    ∧ arch (self w) = Some a ∧ arch_device a = Ok device
    ∧ Forall2 (tensor_for (default ∅ constraints) device) ts (bound_buffers func)
    ∧ length ts = length (bound_buffers func)
    ∧ self w' = self w
    ∧ Forall (λ t, Forall (Z.le 0) (tensor_shape t)) ts.
Proof.
  pose proof (keeps_get_profile_tensors id constraints w) as Hself.
  rewrite Hreturn in Hself. cbn in Hself.
  unfold get_profile_tensors in Hreturn. rewrite bind_eq, prim_func_eq in Hreturn.
  destruct (resolve_prim_func (prim_func_mod (self w))) as [func|e] eqn:Hf;
    [|discriminate Hreturn].
  rewrite bind_eq in Hreturn. unfold self_arch_device in Hreturn at 1. run_in Hreturn.
  destruct (arch (self w)) as [a|] eqn:Ha; run_in Hreturn; [|discriminate Hreturn].
  destruct (arch_device a) as [device|e] eqn:Hd; run_in Hreturn; [|discriminate Hreturn].
  match type of Hreturn with
  | context [for_each ?f ?l ?w0] =>
      destruct (for_each f l w0) as [[ots|e] w1] eqn:Hloop; [|discriminate Hreturn];
      apply (for_each_Forall2 f
               (λ ot param, match buffer_map func !! param, ot with
                            | None, None => True
                            | Some buf, Some t =>
                                tensor_for (default ∅ constraints) device t buf
                                ∧ Forall (Z.le 0) (tensor_shape t)
                            | _, _ => False
                            end)) in Hloop
  end.
  - injection Hreturn as <- <-.
    assert (HF : Forall2 (λ t buf, tensor_for (default ∅ constraints) device t buf
                                   ∧ Forall (Z.le 0) (tensor_shape t))
                   (omap id ots) (bound_buffers func)).
    { unfold bound_buffers. induction Hloop as [|ot param ots' ps Hhd _ IH];
        [constructor|]. cbn.
      destruct (buffer_map func !! param) as [buf|], ot as [t|]; try done.
      by constructor. }
    exists func, a, device. do 3 (split; [done|]).
    split; [by eapply Forall2_impl; [exact HF|intros ?? [? _]]|].
    split; [by eapply Forall2_length|]. split; [done|].
    clear -HF. induction HF as [|t buf ts bufs [_ Ht] _ IH]; by constructor.
  - intros param w0 ot w2. destruct (buffer_map func !! param) as [buf|]; run;
      [|by intros [= <- _]].
    match goal with
    | |- context [for_each ?g ?l ?w3] =>
        destruct (for_each g l w3) as [[shape|e] w4] eqn:Hshape; [|discriminate];
        apply (for_each_Forall2 g (resolves_to (default ∅ constraints))) in Hshape
    end.
    + unfold np_random_uniform.
      destruct (forallb (Z.leb 0) shape) eqn:Hnonneg; run; [|discriminate].
      intros [= <- _]. repeat split; [done|]. cbn.
      apply Forall_forall. intros extent Hin%list_elem_of_In.
      rewrite forallb_forall in Hnonneg. apply Z.leb_le. by apply Hnonneg.
    + intros v w5 extent w6. apply var_warpper_resolves.
Qed.

Lemma get_profile_tensors_shapes_witness :
  let w := sample_world (sample_operator "CUDA" {[ "main" := dynamic_func ]}) in
  ∃ func, resolve_prim_func (prim_func_mod (self w)) = Ok func
          ∧ length (bound_buffers func) = 1%nat.
Proof.
  cbn zeta.
  assert (Hreturn : get_profile_tensors (Some {[ "m" := 7 ]})
                      (sample_world (sample_operator "CUDA" {[ "main" := dynamic_func ]}))
                    = (Ok [{| tensor_shape := [7; 64]; tensor_dtype := "float16";
                              tensor_device := present_device |}],
                       sample_world (sample_operator "CUDA" {[ "main" := dynamic_func ]})))
    by (vm_compute; reflexivity).
  destruct (get_profile_tensors_shapes _ _ _ _ Hreturn)
    as (func & a & device & Hf & _ & _ & _ & Hlen & _ & _).
  exists func. split; [exact Hf|]. by rewrite <- Hlen.
Defined.

(** ** Composing executors *)

Section ExecutorComposition.

Context {V S : Type}.
Implicit Types (ops : list (Stage V S)) (op : Stage V S) (x y : V) (s : S).

Lemma forward_loop_cat ops1 ops2 (inputs : list V) s :
  forward_loop (ops1 ++ ops2) inputs s
  = match forward_loop ops1 inputs s with
    | (Ok l, s') => forward_loop ops2 l s'
    | (Raise e, s') => (Raise e, s')
    end.
Proof.
  revert inputs s. induction ops1 as [|o rest IH]; intros inputs s; [reflexivity|].
  cbn [forward_loop app]. destruct (stage_forward o inputs s) as [[out|e] s1]; [|done].
  apply IH.
Qed.

Lemma forward_loop_singleton ops x s l s' :
  forward_loop ops [x] s = (Ok l, s') → ∃ y, l = [y].
Proof.
  revert x s. induction ops as [|o rest IH]; intros x s; cbn [forward_loop].
  - intros [= <- _]. by exists x.
  - destruct (stage_forward o [x] s) as [[out|e] s1]; [|discriminate]. apply IH.
Qed.

(** X23.  Running the operators of two lists one after the other is running
    the first list and then the second on its output, in the state it left;
    when the first list raises, the second is not run.  In particular the
    operators that come after one that raises do not matter: they are never
    called. *)
Theorem executor_forward_cat ops1 ops2 x s :
  forward {| operators := ops1 ++ ops2 |} x s
  = match forward {| operators := ops1 |} x s with
    | (Ok y, s') => forward {| operators := ops2 |} y s'
    | (Raise e, s') => (Raise e, s')
    end
  ∧ (∀ op y s1 e s2,
       forward {| operators := ops1 |} x s = (Ok y, s1) →
       stage_forward op [y] s1 = (Raise e, s2) →
       forward {| operators := ops1 ++ op :: ops2 |} x s = (Raise e, s2)).
Proof.
  assert (Hcat : ∀ opsa opsb,
    forward {| operators := opsa ++ opsb |} x s
    = match forward {| operators := opsa |} x s with
      | (Ok y, s') => forward {| operators := opsb |} y s'
      | (Raise e, s') => (Raise e, s')
      end).
  { intros opsa opsb. unfold forward. cbn [operators]. rewrite forward_loop_cat.
    destruct (forward_loop opsa [x] s) as [[l|e] s1] eqn:Hl; [|reflexivity].
    destruct (forward_loop_singleton _ _ _ _ _ Hl) as [y ->]. reflexivity. }
  split; [apply Hcat|].
  intros op y s1 e s2 H1 Hop. rewrite Hcat, H1. unfold forward. cbn. by rewrite Hop.
Qed.

(** X24.  Appending to an executor keeps the order: an executor made
    without operators and then given the operators of a list by [append],
    one by one, holds exactly that list; its size is the length of the list,
    and [is_none] holds exactly when the list is empty. *)
Theorem executor_append_all ops :
  let ex := fold_left append ops (OPExecutorCPU_init V S None) in
  operators ex = ops
  ∧ size_of V S ex = length ops
  ∧ (is_none V S ex = true ↔ ops = []).
Proof.
  cbn zeta.
  assert (Hops : ∀ ex0, operators (fold_left append ops ex0)
                        = (operators ex0 ++ ops)%list).
  { induction ops as [|op rest IH]; intros ex0; cbn [fold_left].
    - by rewrite app_nil_r.
    - rewrite IH. cbn. by rewrite <- app_assoc. }
  unfold size_of, is_none. rewrite Hops. cbn. split; [done|]. split; [done|].
  destruct ops; cbn; split; done.
Qed.

End ExecutorComposition.

Lemma executor_forward_cat_witness :
  forward {| operators := three_stages ++ failing_stage 3 :: three_stages |} 5 []
  = (Raise (ToolchainError "kernel launch failed"),
     [(0%nat, [5]); (1%nat, [6]); (2%nat, [12]); (3%nat, [9])]).
Proof.
  pose proof (executor_forward_cat three_stages three_stages 5 []) as [_ Hcut].
  by apply (Hcut (failing_stage 3) 9 [(0%nat, [5]); (1%nat, [6]); (2%nat, [12])]).
Defined.

(** ** Executors that share their operator list *)

Section SharedOperatorsFacts.

Context {Op : Type}.
Implicit Types (h : gmap nat (list Op)) (op : Op).

(** X25.  An executor keeps the list it is given and does not copy it:
    two executors made from the same list see each other's appends, and so
    does whoever else holds the list.  Executors made without a list get a
    new empty list each, and appending to one leaves the other, and every
    list that existed before, as it was. *)
Theorem executor_shares_list h op :
  (∀ l ops, h !! l = Some ops →
     let '(ex1, h1) := ExecutorRef_init (Some l) h in
     let '(ex2, h2) := ExecutorRef_init (Some l) h1 in
     let h3 := append_ref ex1 op h2 in
     operators_of ex2 h3 = (ops ++ [op])%list
     ∧ h3 !! l = Some (ops ++ [op])%list
     ∧ size_ref ex2 h3 = S (size_ref ex2 h2))
  ∧ (let '(ex1, h1) := ExecutorRef_init None h in
     let '(ex2, h2) := ExecutorRef_init None h1 in
     let h3 := append_ref ex1 op h2 in
     operators_ref ex1 ≠ operators_ref ex2
     ∧ operators_of ex1 h3 = [op]
     ∧ operators_of ex2 h3 = []
     ∧ is_none_ref ex2 h3 = true
     ∧ ∀ l ops, h !! l = Some ops → h3 !! l = Some ops).
Proof.
  split.
  - intros l ops Hl. cbn. unfold operators_of, append_ref, size_ref, operators_of. cbn.
    unfold ListHeap in *. rewrite lookup_alter_eq, Hl. cbn. split; [done|]. split; [done|].
    rewrite length_app. cbn. lia.
  - cbn. unfold operators_of, append_ref, is_none_ref, operators_of. cbn.
    unfold ListHeap in *.
    set (l1 := fresh (dom h)).
    set (l2 := fresh (dom (<[l1 := []]> h))).
    assert (H1 : l1 ∉ dom h) by apply is_fresh.
    assert (H2 : l2 ∉ dom (<[l1 := @nil Op]> h)) by apply is_fresh.
    assert (Hne : l1 ≠ l2).
    { intros Heq. apply H2. rewrite <- Heq, dom_insert. set_solver. }
    split; [done|]. split; [|split; [|split]].
    + rewrite lookup_alter_eq, lookup_insert_ne, lookup_insert_eq by done. done.
    + rewrite lookup_alter_ne, lookup_insert_eq by done. done.
    + rewrite lookup_alter_ne, lookup_insert_eq by done. done.
    + intros l ops Hl.
      assert (l ≠ l1) by (intros ->; apply H1, elem_of_dom; eauto).
      assert (l ≠ l2).
      { intros ->. apply H2. rewrite dom_insert. apply elem_of_union_r, elem_of_dom.
        eauto. }
      by rewrite lookup_alter_ne, !lookup_insert_ne.
Qed.

End SharedOperatorsFacts.

Lemma executor_shares_list_witness :
  let h : gmap nat (list nat) := {[ 5%nat := [1%nat; 2%nat] ]} in
  let '(ex1, h1) := ExecutorRef_init (Some 5%nat) h in
  let '(ex2, h2) := ExecutorRef_init (Some 5%nat) h1 in
  operators_of ex2 (append_ref ex1 3%nat h2) = [1%nat; 2%nat; 3%nat].
Proof.
  cbn zeta.
  pose proof (executor_shares_list ({[ 5%nat := [1%nat; 2%nat] ]} : gmap nat (list nat))
                3%nat) as [Hshare _].
  specialize (Hshare 5%nat [1%nat; 2%nat] eq_refl). cbn in Hshare |- *.
  by destruct Hshare as (-> & _).
Defined.

(** ** The progress files of the graph example *)

Section RelaxNerfFacts.
Import RelaxNerf.

Lemma write_code_run (fs : FileSystem) (code path fname : string) (st : Script) :
  let file := progress_file path (count st) fname in
  let calls1 := (os_calls st ++ [PathExists path])%list in
  let calls2 := if path_exists fs (os_calls st) path then calls1
                else (calls1 ++ [Makedirs path])%list in
  write_code fs code path fname st =
    if negb (path_exists fs (os_calls st) path)
       && bool_decide (is_Some (makedirs fs calls1 path))
    then (completed (makedirs fs calls1 path),
          {| count := count st + 1; os_calls := calls2 |})
    else (completed (open_write fs calls2 file code),
          {| count := count st + 1;
             os_calls := (calls2 ++ [OpenWrite file code])%list |}).
Proof.
  cbv zeta. unfold write_code, progress_file.
  cbv beta iota delta [mbind Run_bind mret Run_ret get_count set_count os_call].
  cbn [count os_calls].
  destruct (path_exists fs (os_calls st) path); cbn [negb andb]; [done|].
  destruct (makedirs fs _ path); cbn; done.
Qed.

Lemma written_app (n m : nat) (calls more : list OsCall) :
  written {| count := n; os_calls := (calls ++ more)%list |}
  = (written {| count := m; os_calls := calls |}
     ++ written {| count := m; os_calls := more |})%list.
Proof. unfold written. cbn [os_calls]. by rewrite omap_app. Qed.

(** What a call of [write_code] does to the counter and to the files. *)
Lemma write_code_effect (fs : FileSystem) (code path fname : string) (st : Script) :
  let file := progress_file path (count st) fname in
  let '(r, st') := write_code fs code path fname st in
  count st' = (count st + 1)%nat
  ∧ (written st' = written st
     ∨ written st' = (written st ++ [(file, code)])%list)
  ∧ (r = Ok tt → written st' = (written st ++ [(file, code)])%list).
Proof.
  cbv zeta. rewrite write_code_run.
  assert (Hst : written st = written {| count := 0; os_calls := os_calls st |}) by done.
  destruct (path_exists fs (os_calls st) path) eqn:Hpresent; cbn [negb andb].
  - split; [done|]. rewrite (written_app _ 0), (written_app _ 0), <- Hst.
    cbn. rewrite app_nil_r. by split; [right|].
  - case_bool_decide as Hfail.
    + split; [done|]. rewrite (written_app _ 0), (written_app _ 0), <- Hst.
      cbn. rewrite !app_nil_r. split; [by left|].
      destruct Hfail as [e ->]. discriminate.
    + split; [done|]. rewrite !(written_app _ 0), <- Hst.
      cbn. rewrite !app_nil_r. by split; [right|].
Qed.

Lemma pretty_N_go_digits (x : N) (s : string) :
  PyStr.all_chars PyStr.is_ascii_digit s = true →
  PyStr.all_chars PyStr.is_ascii_digit (pretty_N_go x s) = true.
Proof.
  revert s. induction (N.lt_wf_0 x) as [x _ IH]. intros s Hs.
  assert (x = 0 ∨ 0 < x)%N as [->|Hpos] by lia; [by rewrite pretty_N_go_0|].
  rewrite pretty_N_go_step by done. apply IH; [by apply N.div_lt|].
  cbn [PyStr.all_chars]. rewrite Hs, andb_true_r.
  unfold pretty_N_char. by repeat case_match.
Qed.

Lemma pretty_nat_digits (n : nat) :
  PyStr.all_chars PyStr.is_ascii_digit (pretty n) = true.
Proof.
  unfold pretty, pretty_nat, pretty, pretty_N. case_decide; [done|].
  by apply pretty_N_go_digits.
Qed.

Lemma pretty_N_go_length (x : N) (s : string) :
  (String.length s ≤ String.length (pretty_N_go x s))%nat.
Proof.
  revert s. induction (N.lt_wf_0 x) as [x _ IH]. intros s.
  assert (x = 0 ∨ 0 < x)%N as [->|Hpos] by lia; [by rewrite pretty_N_go_0|].
  rewrite pretty_N_go_step by done.
  etrans; [|by eapply IH, N.div_lt]. cbn. lia.
Qed.

Lemma pretty_nat_first (n : nat) :
  ∃ c rest, pretty n = String c rest ∧ PyStr.is_ascii_digit c = true.
Proof.
  pose proof (pretty_nat_digits n) as Hdigits.
  assert (Hlen : (1 ≤ String.length (pretty n))%nat).
  { unfold pretty, pretty_nat, pretty, pretty_N. case_decide; [done|].
    rewrite pretty_N_go_step by lia.
    etrans; [|apply pretty_N_go_length]. done. }
  destruct (pretty n) as [|c rest]; [cbn in Hlen; lia|].
  exists c, rest. split; [done|].
  cbn [PyStr.all_chars] in Hdigits. by apply andb_true_iff in Hdigits as [? _].
Qed.

(** The number in front of the first dot determines the whole name. *)
Lemma digits_dot_inj (a a' f f' : string) :
  PyStr.all_chars PyStr.is_ascii_digit a = true →
  PyStr.all_chars PyStr.is_ascii_digit a' = true →
  a ++ "." ++ f = a' ++ "." ++ f' → a = a' ∧ f = f'.
Proof.
  revert a'. induction a as [|c a IH]; intros [|c' a'] Ha Ha' Heq.
  - change (String "." f = String "." f') in Heq. by injection Heq as ->.
  - change (String "." f = String c' (a' ++ "." ++ f')) in Heq. injection Heq as <- _.
    cbn in Ha'. discriminate.
  - change (String c (a ++ "." ++ f) = String "." f') in Heq. injection Heq as -> _.
    cbn in Ha. discriminate.
  - change (String c (a ++ "." ++ f) = String c' (a' ++ "." ++ f')) in Heq.
    injection Heq as -> Heq.
    cbn [PyStr.all_chars] in Ha, Ha'.
    apply andb_true_iff in Ha as [_ Ha]. apply andb_true_iff in Ha' as [_ Ha'].
    by destruct (IH a' Ha Ha' Heq) as [-> ->].
Qed.

Lemma string_app_inv_head (a b c : string) : a ++ b = a ++ c → b = c.
Proof.
  induction a as [|x a IH]; [done|].
  change (String x (a ++ b) = String x (a ++ c) → b = c). intros [= Heq]. by apply IH.
Qed.

Lemma numbered_name_relative (n : nat) (fname : string) :
  PyStr.startswith (pretty n ++ "." ++ fname) "/" = false.
Proof.
  destruct (pretty_nat_first n) as (c & rest & -> & Hc).
  change (String c rest ++ "." ++ fname) with (String c (rest ++ "." ++ fname)).
  cbn [PyStr.startswith].
  destruct (Ascii.eqb_spec "/" c) as [<-|]; [|done]. discriminate.
Qed.

Lemma progress_file_inj (path : string) (n m : nat) (f g : string) :
  progress_file path n f = progress_file path m g → n = m ∧ f = g.
Proof.
  unfold progress_file, os_path_join. rewrite !numbered_name_relative.
  intros Heq.
  assert (Hname : pretty n ++ "." ++ f = pretty m ++ "." ++ g).
  { destruct (String.eqb path "" || endswith path "/").
    - by apply string_app_inv_head in Heq.
    - by do 2 apply string_app_inv_head in Heq. }
  apply digits_dot_inj in Hname as [Hnum ->]; [|apply pretty_nat_digits..].
  split; [|done]. by apply (inj pretty).
Qed.

Lemma numbered_write_code (fs : FileSystem) (code path fname : string) (st : Script) :
  numbered path st → numbered path (write_code fs code path fname st).2.
Proof.
  intros [Hnodup Hbelow].
  pose proof (write_code_effect fs code path fname st) as Heffect. cbv zeta in Heffect.
  destruct (write_code fs code path fname st) as [r st']. cbn [snd].
  destruct Heffect as (Hcount & [Hwritten|Hwritten] & _);
    unfold numbered; rewrite Hwritten, Hcount.
  - split; [done|]. intros file Hfile.
    destruct (Hbelow file Hfile) as (n & f & Hn & ->). exists n, f. split; [lia|done].
  - rewrite fmap_app. cbn [fmap list_fmap fst]. split.
    + apply NoDup_app. split; [done|]. split; [|apply NoDup_singleton].
      intros file Hfile ->%list_elem_of_singleton.
      destruct (Hbelow _ Hfile) as (n & f & Hn & Heq).
      apply progress_file_inj in Heq as [Heq _]. lia.
    + intros file [Hfile| ->%list_elem_of_singleton]%elem_of_app.
      * destruct (Hbelow file Hfile) as (n & f & Hn & ->). exists n, f. split; [lia|done].
      * exists (count st), fname. split; [lia|done].
Qed.

Lemma write_pair_run (fs : FileSystem) (md : Renderings) (path fname : string)
    (st st' : Script) :
  write_mod fs md path fname st = (Ok tt, st') →
  ∃ py cu,
    script md = Ok py ∧ astext md = Ok cu
    ∧ count st' = (count st + 2)%nat
    ∧ written st' =
        (written st ++ [(progress_file path (count st) (fname ++ ".py"), py);
                        (progress_file path (count st + 1) (fname ++ ".cu"), cu)])%list.
Proof.
  unfold write_mod.
  cbv beta iota zeta delta [mbind Run_bind rendered].
  destruct (script md) as [py|e]; [|discriminate].
  pose proof (write_code_effect fs py path (fname ++ ".py") st) as H1. cbv zeta in H1.
  destruct (write_code fs py path (fname ++ ".py") st) as [[[]|e] st1]; [|discriminate].
  destruct H1 as (Hcount1 & _ & Hwritten1). specialize (Hwritten1 eq_refl).
  destruct (astext md) as [cu|e]; [|discriminate].
  pose proof (write_code_effect fs cu path (fname ++ ".cu") st1) as H2. cbv zeta in H2.
  intros Hrun. rewrite Hrun in H2.
  destruct H2 as (Hcount2 & _ & Hwritten2). specialize (Hwritten2 eq_refl).
  exists py, cu. repeat split; [lia|].
  rewrite Hwritten2, Hwritten1, Hcount1, <- app_assoc. done.
Qed.

Lemma numbered_write_pair (fs : FileSystem) (md : Renderings) (path fname : string)
    (st : Script) :
  numbered path st → numbered path (write_mod fs md path fname st).2.
Proof.
  intros Hst. unfold write_mod.
  cbv beta iota zeta delta [mbind Run_bind rendered].
  destruct (script md) as [py|e]; [|done].
  pose proof (numbered_write_code fs py path (fname ++ ".py") st Hst) as Hst1.
  destruct (write_code fs py path (fname ++ ".py") st) as [[[]|e] st1]; [|done].
  cbn [snd] in Hst1.
  destruct (astext md) as [cu|e]; [|done].
  by apply numbered_write_code.
Qed.

(** X26.  A call of [write_code] advances [count] by one whether or not it
    succeeds, so a failed call leaves a gap in the numbering.  It opens at
    most one file, the one named by the counter's value before the call and
    placed under [path]; when the call returns, it has opened exactly that
    file with [code]. *)
Theorem write_code_numbers_file (fs : FileSystem) (code path fname : string)
    (st : Script) :
  let file := os_path_join path (pretty (count st) ++ "." ++ fname) in
  let '(r, st') := write_code fs code path fname st in
  count st' = (count st + 1)%nat
  ∧ (written st' = written st
     ∨ written st' = (written st ++ [(file, code)])%list)
  ∧ (r = Ok tt → written st' = (written st ++ [(file, code)])%list).
Proof. apply write_code_effect. Qed.

Lemma write_code_numbers_file_witness :
  written (write_code fresh_directory "x = 1" "progress" "stage" start).2
  = [("progress/0.stage", "x = 1")].
Proof.
  pose proof (write_code_numbers_file fresh_directory "x = 1" "progress" "stage" start)
    as Heffect.
  cbv zeta in Heffect.
  destruct (write_code fresh_directory "x = 1" "progress" "stage" start) as [r st'] eqn:Hrun.
  destruct Heffect as (_ & _ & Hwritten).
  assert (Hr : r = Ok tt) by (by vm_compute in Hrun; injection Hrun as <- _).
  exact (Hwritten Hr).
Defined.

(** X27.  The two files [write_mod] or [write_sch] writes for a stage do
    not share a number.  When the call returns from a counter value [n], it
    has written the script rendering to the file numbered [n] with suffix
    [.py], then the text rendering to the file numbered [n + 1] with suffix
    [.cu], and the counter is [n + 2]. *)
Theorem write_mod_pair_numbers (fs : FileSystem) (md : Renderings) (path fname : string)
    (st st' : Script) :
  write_mod fs md path fname st = (Ok tt, st')
  ∨ write_sch fs md path fname st = (Ok tt, st') →
  ∃ py cu,
    script md = Ok py ∧ astext md = Ok cu
    ∧ count st' = (count st + 2)%nat
    ∧ written st' =
        (written st
         ++ [(os_path_join path (pretty (count st) ++ "." ++ fname ++ ".py"), py);
             (os_path_join path (pretty (count st + 1)%nat ++ "." ++ fname ++ ".cu"),
              cu)])%list.
Proof. intros [Hrun|Hrun]; exact (write_pair_run fs md path fname st st' Hrun). Qed.

Lemma write_mod_pair_numbers_witness :
  written (write_mod fresh_directory relay_mod "progress" "create_mod" start).2
  = [("progress/0.create_mod.py", "# from tvm.script import ir as I");
     ("progress/1.create_mod.cu", "def @main()")].
Proof.
  assert (Hrun : write_mod fresh_directory relay_mod "progress" "create_mod" start
                 = (Ok tt, (write_mod fresh_directory relay_mod "progress" "create_mod"
                              start).2))
    by (vm_compute; reflexivity).
  destruct (write_mod_pair_numbers _ _ _ _ _ _ (or_introl Hrun))
    as (py & cu & Hpy & Hcu & _ & Hwritten).
  rewrite Hwritten. cbn in Hpy, Hcu. by injection Hpy as <-; injection Hcu as <-.
Defined.

(** X28.  With one [path], no call of [write_code], [write_mod] or
    [write_sch] opens a path name that an earlier call of the run has
    opened, whatever the stage names (the script uses one name twice) and
    whatever the file system answers: that every opened path name carries a
    number below [count] and that no path name was opened twice is kept by
    each of the three functions, also when they raise.  Path names are
    compared as strings; whether two different names reach one file, through
    a stage name with a directory part or through a link, is the file
    system's matter and is not stated. *)
Theorem progress_paths_never_reopened (fs : FileSystem) (path : string) (st : Script) :
  numbered path st →
  (∀ code fname, numbered path (write_code fs code path fname st).2)
  ∧ (∀ md fname, numbered path (write_mod fs md path fname st).2)
  ∧ (∀ sch fname, numbered path (write_sch fs sch path fname st).2).
Proof.
  intros Hst. split; [|split].
  - intros code fname. by apply numbered_write_code.
  - intros md fname. by apply numbered_write_pair.
  - intros sch fname. by apply numbered_write_pair.
Qed.

Lemma progress_paths_never_reopened_witness :
  numbered "progress" start
  ∧ numbered "progress"
      (write_mod fresh_directory relay_mod "progress" "FoldConstant"
         (write_mod fresh_directory relay_mod "progress" "FoldConstant" start).2).2.
Proof.
  assert (Hstart : numbered "progress" start).
  { split; [apply NoDup_nil_2|]. intros file Hfile. by apply elem_of_nil in Hfile. }
  split; [done|].
  apply (progress_paths_never_reopened fresh_directory "progress").
  by apply (progress_paths_never_reopened fresh_directory "progress" start).
Defined.

End RelaxNerfFacts.
